(** * Realtime voice e-store agent: tool dispatcher, relay and session registry

    A shallow embedding of the Python sources
      - [backend/tools.py]        (cart and order tools),
      - [backend/voice_client.py] (upstream client: dispatcher, listen loop),
      - [main.py]                 (client-facing relay and connection manager)
    together with the properties the specification states about them.

    Python values are embedded as a small universe of JSON-like values and
    dataclass instances; code that can raise lives in an exception monad
    and [try/except] is written out.  Of what the sources print to the
    console the embedding keeps the prints that insert data of an
    upstream event outside any [try] block ([py_print] below): such a
    print raises when the data cannot be encoded.  A print inside a
    [try] block raises into the handler of that block, and a handler
    prints the text of the exception it has caught; these prints and the
    wall-clock [timestamp] field of relay frames are not part of the
    embedding. *)

From Stdlib Require Import ZArith String Ascii List Bool Lia Floats.
From stdpp Require Import base option gmap strings list pretty.
Import ListNotations.

Set Warnings "-register-all".

Open Scope Z_scope.
Open Scope string_scope.
Open Scope list_scope.

(** ** Python values *)

(** [PObj cls attrs] is an instance of a dataclass [cls] ([CartItem],
    [Product], [Customer] of backend/state.py) with its attribute
    dictionary.  Dictionaries keep insertion order and have string keys,
    as everything decoded from JSON has. *)
Inductive pyval : Type :=
| PNone
| PBool (b : bool)
| PInt (z : Z)
| PFloat (f : float)
| PStr (s : string)
| PList (l : list pyval)
| PDict (d : list (string * pyval))
| PObj (cls : string) (attrs : list (string * pyval)).

Inductive exn : Type :=
| KeyError (key : pyval)
| IndexError
| TypeError
| AttributeError (attr : string)
| OverflowError
| ConnectionClosed
| UnicodeEncodeError
| OtherError (msg : string).

(** Outcome of a computation that may raise. *)
Inductive res (A : Type) : Type :=
| Ok (a : A)
| Raise (e : exn).
Arguments Ok {A} a.
Arguments Raise {A} e.

Definition bind {A B : Type} (m : res A) (k : A -> res B) : res B :=
  match m with
  | Ok a => k a
  | Raise e => Raise e
  end.

(** [try: body / except Exception as e: handler e]. Every [exn] above is a
    subclass of [Exception]. *)
Definition try_except {A : Type} (body : res A) (handler : exn -> res A)
  : res A :=
  match body with
  | Ok a => Ok a
  | Raise e => handler e
  end.

Declare Scope py_scope.
Delimit Scope py_scope with py.
Notation "x <- m ;; k" := (bind m (fun x => k))
  (at level 100, m at next level, right associativity) : py_scope.
Open Scope py_scope.

(** Code that also changes objects: the state it leaves is kept when it
    raises. *)
Definition M (S A : Type) : Type := S -> res A * S.

Definition ret {S A : Type} (a : A) : M S A := fun s => (Ok a, s).

Definition lift {S A : Type} (r : res A) : M S A := fun s => (r, s).

Definition mbind {S A B : Type} (m : M S A) (k : A -> M S B) : M S B :=
  fun s =>
    match m s with
    | (Ok a, s') => k a s'
    | (Raise e, s') => (Raise e, s')
    end.

Definition get {S : Type} : M S S := fun s => (Ok s, s).

Definition modify {S : Type} (f : S -> S) : M S unit := fun s => (Ok tt, f s).

Definition m_try {S A : Type} (body : M S A) (handler : exn -> M S A)
  : M S A :=
  fun s =>
    match body s with
    | (Ok a, s') => (Ok a, s')
    | (Raise e, s') => handler e s'
    end.

Notation "x <~ m ;; k" := (mbind m (fun x => k))
  (at level 100, m at next level, right associativity) : py_scope.
Notation "m ;;; k" := (mbind m (fun _ => k))
  (at level 100, right associativity) : py_scope.

(** *** Dictionaries and attribute tables *)

Fixpoint assoc (k : string) (d : list (string * pyval)) : option pyval :=
  match d with
  | [] => None
  | (k', v) :: d' => if String.eqb k k' then Some v else assoc k d'
  end.

(** [d[k] = v]: an existing key keeps its position, a new key goes last. *)
Fixpoint assoc_set (k : string) (v : pyval) (d : list (string * pyval))
  : list (string * pyval) :=
  match d with
  | [] => [(k, v)]
  | (k', v') :: d' =>
      if String.eqb k k' then (k, v) :: d' else (k', v') :: assoc_set k v d'
  end.

Definition isinstance_dict (v : pyval) : bool :=
  match v with PDict _ => true | _ => false end.

(** [v.get(k, default)] *)
Definition py_get (v : pyval) (k : string) (default : pyval) : res pyval :=
  match v with
  | PDict d => Ok (match assoc k d with Some x => x | None => default end)
  | _ => Raise (AttributeError "get")
  end.

(** [v[k]] for a string key [k] *)
Definition py_getitem (v : pyval) (k : string) : res pyval :=
  match v with
  | PDict d =>
      match assoc k d with
      | Some x => Ok x
      | None => Raise (KeyError (PStr k))
      end
  | _ => Raise TypeError
  end.

(** [v[0]] *)
Definition py_getitem0 (v : pyval) : res pyval :=
  match v with
  | PList (x :: _) => Ok x
  | PList [] => Raise IndexError
  | PStr (String c _) => Ok (PStr (String c EmptyString))
  | PStr EmptyString => Raise IndexError
  | PDict _ => Raise (KeyError (PInt 0))
  | _ => Raise TypeError
  end.

(** [v[k] = x] for a string key [k]; yields the updated container *)
Definition py_setitem (v : pyval) (k : string) (x : pyval) : res pyval :=
  match v with
  | PDict d => Ok (PDict (assoc_set k x d))
  | _ => Raise TypeError
  end.

(** [v.a] *)
Definition py_getattr (v : pyval) (a : string) : res pyval :=
  match v with
  | PObj _ attrs =>
      match assoc a attrs with
      | Some x => Ok x
      | None => Raise (AttributeError a)
      end
  | _ => Raise (AttributeError a)
  end.

(** [v.a = x] on a dataclass instance *)
Definition py_setattr (v : pyval) (a : string) (x : pyval) : res pyval :=
  match v with
  | PObj cls attrs => Ok (PObj cls (assoc_set a x attrs))
  | _ => Raise (AttributeError a)
  end.

(** [len(v)] *)
Definition py_len (v : pyval) : res Z :=
  match v with
  | PList l => Ok (Z.of_nat (length l))
  | PStr s => Ok (Z.of_nat (String.length s))
  | PDict d => Ok (Z.of_nat (length d))
  | _ => Raise TypeError
  end.

(** Truth value of [v] in [if v:] *)
Definition py_truthy (v : pyval) : bool :=
  match v with
  | PNone => false
  | PBool b => b
  | PInt z => negb (Z.eqb z 0)
  | PFloat f => negb (PrimFloat.eqb f 0%float)
  | PStr s => negb (String.eqb s "")
  | PList l => match l with [] => false | _ => true end
  | PDict d => match d with [] => false | _ => true end
  | PObj _ _ => true
  end.

(** [v == "s"] against a string literal *)
Definition py_eq_lit (v : pyval) (s : string) : bool :=
  match v with
  | PStr s' => String.eqb s' s
  | _ => false
  end.

(** *** Arithmetic *)

(** [bool] is a subclass of [int]. *)
Definition as_int (v : pyval) : option Z :=
  match v with
  | PInt z => Some z
  | PBool b => Some (Z.b2z b)
  | _ => None
  end.

(** Conversion of an [int] to a binary64 [float], rounding to nearest
    even; Python raises [OverflowError] when the result is not finite. *)
Definition float_of_int (z : Z) : res float :=
  let f := SF2Prim (binary_normalize prec emax z 0 false) in
  if PrimFloat.is_infinity f then Raise OverflowError else Ok f.

Definition as_float (v : pyval) : option (res float) :=
  match v with
  | PFloat f => Some (Ok f)
  | _ => match as_int v with
         | Some z => Some (float_of_int z)
         | None => None
         end
  end.

Fixpoint str_repeat (n : nat) (s : string) : string :=
  match n with
  | O => ""
  | S n' => String.append s (str_repeat n' s)
  end.

Fixpoint list_repeat (n : nat) (l : list pyval) : list pyval :=
  match n with
  | O => []
  | S n' => l ++ list_repeat n' l
  end.

(** [a * b] *)
Definition py_mul (a b : pyval) : res pyval :=
  match as_int a, as_int b with
  | Some x, Some y => Ok (PInt (x * y))
  | _, _ =>
      match a, b with
      | PFloat x, _ =>
          match as_float b with
          | Some fy => y <- fy ;; Ok (PFloat (PrimFloat.mul x y))
          | None => Raise TypeError
          end
      | _, PFloat y =>
          match as_float a with
          | Some fx => x <- fx ;; Ok (PFloat (PrimFloat.mul x y))
          | None => Raise TypeError
          end
      | PStr s, _ =>
          match as_int b with
          | Some n => Ok (PStr (str_repeat (Z.to_nat n) s))
          | None => Raise TypeError
          end
      | _, PStr s =>
          match as_int a with
          | Some n => Ok (PStr (str_repeat (Z.to_nat n) s))
          | None => Raise TypeError
          end
      | PList l, _ =>
          match as_int b with
          | Some n => Ok (PList (list_repeat (Z.to_nat n) l))
          | None => Raise TypeError
          end
      | _, PList l =>
          match as_int a with
          | Some n => Ok (PList (list_repeat (Z.to_nat n) l))
          | None => Raise TypeError
          end
      | _, _ => Raise TypeError
      end
  end.

(** [total += v] for a [float] accumulator [total] *)
Definition float_iadd (total : float) (v : pyval) : res float :=
  match as_float v with
  | Some fv => x <- fv ;; Ok (PrimFloat.add total x)
  | None => Raise TypeError
  end.

Fixpoint chars (s : string) : list pyval :=
  match s with
  | EmptyString => []
  | String c s' => PStr (String c EmptyString) :: chars s'
  end.

(** The elements [for x in v] runs over. *)
Definition py_iter (v : pyval) : res (list pyval) :=
  match v with
  | PList l => Ok l
  | PStr s => Ok (chars s)
  | PDict d => Ok (map (fun kv => PStr (fst kv)) d)
  | _ => Raise TypeError
  end.

(** [a += b] *)
Definition py_iadd (a b : pyval) : res pyval :=
  match as_int a, as_int b with
  | Some x, Some y => Ok (PInt (x + y))
  | _, _ =>
      match a, b with
      | PFloat x, _ =>
          match as_float b with
          | Some fy => y <- fy ;; Ok (PFloat (PrimFloat.add x y))
          | None => Raise TypeError
          end
      | _, PFloat y =>
          match as_float a with
          | Some fx => x <- fx ;; Ok (PFloat (PrimFloat.add x y))
          | None => Raise TypeError
          end
      | PStr s, PStr t => Ok (PStr (String.append s t))
      | PList l, _ => more <- py_iter b ;; Ok (PList (l ++ more))
      | _, _ => Raise TypeError
      end
  end.

(** Text made of ASCII characters only. *)
Definition is_ascii (s : string) : bool :=
  forallb (fun c => (nat_of_ascii c <? 128)%nat) (list_ascii_of_string s).

(** *** What the embedding leaves to the Python runtime

    [py_str v] is [str(v)] (also what an f-string inserts), [exn_str e] is
    [str(e)] for a caught exception, [py_eq a b] is [a == b],
    [json_loads] and [json_dumps] are [json.loads] and [json.dumps],
    [b64decode] is [base64.b64decode], and [has_surrogate s] tells
    whether the text [s] holds a surrogate code point, as the string
    [json.loads] returns for an escape such as \ud800 does.  Only three
    facts about them are used: [str] is the identity on strings, a value
    equals a string exactly when it is that string, and ASCII text holds
    no surrogate. *)
Class PyRuntime : Type := {
  py_str : pyval -> string;
  exn_str : exn -> string;
  py_eq : pyval -> pyval -> bool;
  json_loads : pyval -> res pyval;
  json_dumps : pyval -> res string;
  b64decode : pyval -> res pyval;
  has_surrogate : string -> bool;
  py_str_str : forall s, py_str (PStr s) = s;
  py_eq_str : forall v s, py_eq v (PStr s) = true <-> v = PStr s;
  ascii_no_surrogate : forall s, is_ascii s = true -> has_surrogate s = false
}.

(** *** The console

    The sources print to a console that writes UTF-8 (their own texts
    carry emoji).  UTF-8 encodes every code point but the surrogates, so
    [print] raises [UnicodeEncodeError] exactly on a text that holds one.
    An f-string inserts a string as it is; it inserts any other value
    (None, a number, a list, a dictionary) through its [repr], which
    writes a surrogate as an escape.  So a print of literal text and of
    the values [values] raises exactly when one of the values is a
    string with a surrogate. *)
Definition unprintable `{PyRuntime} (v : pyval) : bool :=
  match v with
  | PStr s => has_surrogate s
  | _ => false
  end.

Definition py_print `{PyRuntime} (values : list pyval) : res unit :=
  if existsb unprintable values then Raise UnicodeEncodeError else Ok tt.
Arguments py_print : simpl never.

(** ** The catalog and order backend

    The Salesforce client ([salesforce/client.py]) is an external service:
    each call either returns the decoded response or raises.  A [Gateway]
    fixes how the backend answers during one tool call.
      - [sf_query_product name]: the [Product2] query of [tool_add_to_cart]
        for [Name = 'name'];
      - [get_order_status n]: the order query by order number;
      - [sf_query_orders email]: the [Order] query by [Account.Email];
      - [tool_search_products kwargs] and [tool_place_order customer items
        checkout_source]: the search and order operations as the
        dispatcher calls them. *)
Record Gateway : Type := {
  sf_query_product : string -> res pyval;
  get_order_status : pyval -> res pyval;
  sf_query_orders : string -> res pyval;
  tool_search_products : pyval -> res pyval;
  tool_place_order : pyval -> pyval -> pyval -> res pyval
}.

(** ** backend/tools.py *)

Section Tools.
Context `{PyRuntime}.

(** One iteration of the loop of [calculate_cart_total], inside its [try]:
    the amount [price * quantity] of a cart line. *)
Definition line_amount (item : pyval) : res pyval :=
  if isinstance_dict item then
    product <- py_get item "product" (PDict []) ;;
    price <- py_get product "price" (PInt 0) ;;
    quantity <- py_get item "quantity" (PInt 0) ;;
    py_mul price quantity
  else
    product <- py_getattr item "product" ;;
    price <- py_getattr product "price" ;;
    quantity <- py_getattr item "quantity" ;;
    py_mul price quantity.

Fixpoint cart_total_from (total : float) (cart : list pyval) : res float :=
  match cart with
  | [] => Ok total
  | item :: rest =>
      total' <- try_except
                  (amount <- line_amount item ;; float_iadd total amount)
                  (fun _ => Ok total) ;;
      cart_total_from total' rest
  end.

Definition calculate_cart_total (cart : list pyval) : res float :=
  cart_total_from 0%float cart.

(** [product_name.replace] of tool_add_to_cart: every single quote
    (character 39) gets a backslash (character 92) in front. *)
Fixpoint escape_quotes (s : string) : string :=
  match s with
  | EmptyString => EmptyString
  | String c rest =>
      if Ascii.eqb c (ascii_of_nat 39)
      then String (ascii_of_nat 92) (String c (escape_quotes rest))
      else String c (escape_quotes rest)
  end.

Definition str_replace_quote (v : pyval) : res string :=
  match v with
  | PStr s => Ok (escape_quotes s)
  | _ => Raise (AttributeError "replace")
  end.

(** The product dictionary built from the first record of the query
    result and its first price book entry. *)
Definition product_dict_of (record pbe : pyval) : res pyval :=
  id <- py_getitem record "Id" ;;
  name <- py_getitem record "Name" ;;
  price <- py_getitem pbe "UnitPrice" ;;
  description <- py_get record "Description" (PStr "") ;;
  color <- py_get record "Color__c" (PStr "") ;;
  size <- py_get record "Size__c" (PStr "") ;;
  product_code <- py_get record "ProductCode" (PStr "") ;;
  pricebook_entry_id <- py_getitem pbe "Id" ;;
  category <- py_get record "Family" (PStr "") ;;
  image_url <- py_get record "Image_URL__c" (PStr "") ;;
  Ok (PDict [("id", id); ("name", name); ("price", price);
             ("description", description); ("color", color); ("size", size);
             ("product_code", product_code);
             ("pricebook_entry_id", pricebook_entry_id);
             ("category", category); ("image_url", image_url)]).

(** The product id of an existing cart line, in either format. *)
Definition existing_product_id (item : pyval) : res pyval :=
  if isinstance_dict item then
    product <- py_get item "product" (PDict []) ;;
    py_get product "id" PNone
  else
    product <- py_getattr item "product" ;;
    py_getattr product "id".

(** [item['quantity'] += quantity], or [item.quantity += quantity]; the
    result is the line after the update. *)
Definition add_quantity (item quantity : pyval) : res pyval :=
  if isinstance_dict item then
    old <- py_getitem item "quantity" ;;
    new <- py_iadd old quantity ;;
    py_setitem item "quantity" new
  else
    old <- py_getattr item "quantity" ;;
    new <- py_iadd old quantity ;;
    py_setattr item "quantity" new.

(** The loop over the cart: [Some cart'] when a line with the product's
    id was found and updated, [None] when the loop ran to its end.  The
    lines before the current one are [seen]. *)
Fixpoint update_existing (id quantity : pyval) (seen rest : list pyval)
  : res (option (list pyval)) :=
  match rest with
  | [] => Ok None
  | item :: rest' =>
      existing <- existing_product_id item ;;
      if py_eq existing id then
        item' <- add_quantity item quantity ;;
        Ok (Some (seen ++ item' :: rest'))
      else update_existing id quantity (seen ++ [item]) rest'
  end.

Definition failure (message : string) : pyval :=
  PDict [("success", PBool false); ("message", PStr message)].

Definition cart_success (message : string) (cart_total : float) : pyval :=
  PDict [("success", PBool true); ("message", PStr message);
         ("cart_total", PFloat cart_total)].

(** The query of [tool_add_to_cart] and the product dictionary it builds:
    [None] when the query returns no record. *)
Definition fetch_product (gw : Gateway) (product_name : pyval)
  : res (option pyval) :=
  escaped_product_name <- str_replace_quote product_name ;;
  product_query <- sf_query_product gw escaped_product_name ;;
  records <- py_getitem product_query "records" ;;
  if negb (py_truthy records) then Ok None
  else
    record <- py_getitem0 records ;;
    entries <- py_getitem record "PricebookEntries" ;;
    entry_records <- py_getitem entries "records" ;;
    pbe <- py_getitem0 entry_records ;;
    product_dict <- product_dict_of record pbe ;;
    Ok (Some product_dict).

(** The line appended for a product that is not in the cart yet. *)
Definition new_line (product_dict quantity : pyval) : pyval :=
  PDict [("product", product_dict); ("quantity", quantity)].

(** [tool_add_to_cart(product_name, quantity, cart)]: the result dictionary
    and the cart list after the call.  Everything that can raise comes
    before the one statement that changes the cart, so the handler
    returns the cart it was given. *)
Definition tool_add_to_cart (gw : Gateway) (product_name quantity : pyval)
    (cart : list pyval) : res (pyval * list pyval) :=
  try_except
    (fetched <- fetch_product gw product_name ;;
     match fetched with
     | None => Ok (failure "Product not found", cart)
     | Some product_dict =>
         id <- py_getitem product_dict "id" ;;
         name <- py_getitem product_dict "name" ;;
         updated <- update_existing id quantity [] cart ;;
         match updated with
         | Some cart' =>
             cart_total <- calculate_cart_total cart' ;;
             Ok (cart_success
                   ("Updated " +:+ py_str name +:+ " quantity in cart")
                   cart_total, cart')
         | None =>
             let cart' := cart ++ [new_line product_dict quantity] in
             cart_total <- calculate_cart_total cart' ;;
             Ok (cart_success
                   ("Added " +:+ py_str quantity +:+ "x " +:+ py_str name
                    +:+ " to cart")
                   cart_total, cart')
         end
     end)
    (fun e => Ok (failure ("Error adding to cart: " +:+ exn_str e), cart)).

(** One entry of the [orders] list of [tool_lookup_order]. *)
Definition order_summary (order : pyval) : res pyval :=
  order_number <- py_get order "OrderNumber" PNone ;;
  status <- py_get order "Status" PNone ;;
  effective_date <- py_get order "EffectiveDate" PNone ;;
  total_amount <- py_get order "TotalAmount" (PFloat 0%float) ;;
  Ok (PDict [("order_number", order_number); ("status", status);
             ("effective_date", effective_date);
             ("total_amount", total_amount)]).

Fixpoint order_summaries (orders : list pyval) : res (list pyval) :=
  match orders with
  | [] => Ok []
  | order :: rest =>
      entry <- order_summary order ;;
      entries <- order_summaries rest ;;
      Ok (entry :: entries)
  end.

Definition no_orders_found : pyval := failure "No orders found".

(** [tool_lookup_order(order_number, email)] *)
Definition tool_lookup_order (gw : Gateway) (order_number email : pyval)
  : res pyval :=
  try_except
    (if py_truthy order_number then
       result <- get_order_status gw order_number ;;
       records <- py_getitem result "records" ;;
       if py_truthy records then
         order <- py_getitem0 records ;;
         number <- py_get order "OrderNumber" PNone ;;
         status <- py_get order "Status" PNone ;;
         effective_date <- py_get order "EffectiveDate" PNone ;;
         total_amount <- py_get order "TotalAmount" (PFloat 0%float) ;;
         Ok (PDict [("success", PBool true); ("order_number", number);
                    ("status", status); ("effective_date", effective_date);
                    ("total_amount", total_amount)])
       else Ok no_orders_found
     else if py_truthy email then
       result <- sf_query_orders gw (py_str email) ;;
       records <- py_getitem result "records" ;;
       if py_truthy records then
         found <- py_iter records ;;
         orders <- order_summaries found ;;
         Ok (PDict [("success", PBool true); ("orders", PList orders)])
       else Ok no_orders_found
     else Ok no_orders_found)
    (fun e => Ok (failure ("Error looking up order: " +:+ exn_str e))).

End Tools.

(** ** backend/state.py and backend/voice_client.py *)

(** The keys of [AgentState] the client reads or writes.  [cart] is a
    reference to a list object: the relay binds the same list to the
    session's cart, and [tool_add_to_cart] changes it in place. *)
Record AgentState : Type := {
  cart : nat;
  customer : pyval;
  order_number : pyval;
  conversation_history : list string
}.

(** [self.ws]: not set, an open connection, or a closed one. *)
Inductive socket : Type := NoSocket | Open | Closed.

(** A [RealtimeVoiceClient].  [sent] lists what went out on [ws], oldest
    first; [keepalive_task] tells whether the keepalive task is running
    (what that task sends is not part of the embedding). *)
Record RealtimeVoiceClient : Type := {
  ws : socket;
  session_id : pyval;
  state : AgentState;
  keepalive_task : bool;
  is_connected : bool;
  sent : list pyval
}.

(** A client together with the list objects carts refer to. *)
Record ClientMem : Type := {
  self : RealtimeVoiceClient;
  carts : list (list pyval)
}.

Definition with_state (f : AgentState -> AgentState) (m : ClientMem)
  : ClientMem :=
  let c := self m in
  {| self := {| ws := ws c; session_id := session_id c; state := f (state c);
                keepalive_task := keepalive_task c;
                is_connected := is_connected c; sent := sent c |};
     carts := carts m |}.

Definition set_customer (v : pyval) (a : AgentState) : AgentState :=
  {| cart := cart a; customer := v; order_number := order_number a;
     conversation_history := conversation_history a |}.

Definition set_order_number (v : pyval) (a : AgentState) : AgentState :=
  {| cart := cart a; customer := customer a; order_number := v;
     conversation_history := conversation_history a |}.

Definition set_cart (ref : nat) (a : AgentState) : AgentState :=
  {| cart := ref; customer := customer a; order_number := order_number a;
     conversation_history := conversation_history a |}.

Definition append_history (line : string) (a : AgentState) : AgentState :=
  {| cart := cart a; customer := customer a; order_number := order_number a;
     conversation_history := conversation_history a ++ [line] |}.

(** The list a cart reference stands for. *)
Definition cart_list (carts : list (list pyval)) (ref : nat) : list pyval :=
  default [] (carts !! ref).

(** [self.state["cart"] = []]: a new empty list object. *)
Definition bind_new_cart (m : ClientMem) : ClientMem :=
  with_state (set_cart (length (carts m)))
    {| self := self m; carts := carts m ++ [[]] |}.

Definition store_cart (ref : nat) (l : list pyval) (m : ClientMem)
  : ClientMem :=
  {| self := self m; carts := <[ref := l]> (carts m) |}.

Definition Customer (name email phone : pyval) : pyval :=
  PObj "Customer" [("name", name); ("email", email); ("phone", phone)].

Section VoiceClient.
Context `{PyRuntime}.

(** The body of the [try] block of [handle_tool_call]. *)
Definition dispatch_body (gw : Gateway) (tool_name tool_args : pyval)
  : M ClientMem pyval :=
  if py_eq_lit tool_name "search_products" then
    products <~ lift (tool_search_products gw tool_args) ;;
    count <~ lift (py_len products) ;;
    ret (PDict [("success", PBool true); ("products", products);
                ("count", PInt count)])
  else if py_eq_lit tool_name "add_to_cart" then
    _ <~ lift (py_get tool_args "product_name" PNone) ;;
    product_name <~ lift (py_getitem tool_args "product_name") ;;
    quantity <~ lift (py_get tool_args "quantity" (PInt 1)) ;;
    m <~ get ;;
    let ref := cart (state (self m)) in
    out <~ lift (tool_add_to_cart gw product_name quantity
                   (cart_list (carts m) ref)) ;;
    modify (store_cart ref (snd out)) ;;;
    success <~ lift (py_get (fst out) "success" PNone) ;;
    _ <~ lift (if py_truthy success then Ok PNone
               else py_get (fst out) "message" PNone) ;;
    ret (fst out)
  else if py_eq_lit tool_name "place_salesforce_order" then
    _ <~ lift (py_get tool_args "customer" PNone) ;;
    customer_data <~ lift (py_getitem tool_args "customer") ;;
    name <~ lift (py_getitem customer_data "name") ;;
    email <~ lift (py_getitem customer_data "email") ;;
    phone <~ lift (py_get customer_data "phone" (PStr "")) ;;
    modify (with_state (set_customer (Customer name email phone))) ;;;
    items <~ lift (py_getitem tool_args "items") ;;
    checkout_source <~
      lift (py_get tool_args "checkout_source" (PStr "Voice")) ;;
    result <~ lift (tool_place_order gw customer_data items
                      checkout_source) ;;
    success <~ lift (py_getitem result "success") ;;
    if py_truthy success then
      number <~ lift (py_getitem result "order_number") ;;
      modify (with_state (set_order_number number)) ;;;
      modify bind_new_cart ;;;
      ret result
    else
      _ <~ lift (py_get result "message" PNone) ;;
      ret result
  else if py_eq_lit tool_name "lookup_order_status" then
    order_number <~ lift (py_get tool_args "order_number" PNone) ;;
    email <~ lift (py_get tool_args "email" PNone) ;;
    result <~ lift (tool_lookup_order gw order_number email) ;;
    ret result
  else
    ret (failure ("Unknown tool: " +:+ py_str tool_name)).

(** The [try] block with its handler, which turns any exception into a
    failure result. *)
Definition dispatch (gw : Gateway) (tool_name tool_args : pyval)
  : M ClientMem pyval :=
  m_try (dispatch_body gw tool_name tool_args)
    (fun e => ret (failure ("Tool execution error: " +:+ exn_str e))).

(** [handle_tool_call(tool_name, tool_args)]: the print of the name and
    the arguments comes before the [try] block. *)
Definition handle_tool_call (gw : Gateway) (tool_name tool_args : pyval)
  : M ClientMem pyval :=
  lift (py_print [tool_name; tool_args]) ;;;
  dispatch gw tool_name tool_args.

Definition ws_open (c : RealtimeVoiceClient) : bool :=
  match ws c with Open => true | _ => false end.

(** [await self.ws.send(json.dumps(event))] on an open connection. *)
Definition ws_send (event : pyval) (m : ClientMem) : ClientMem :=
  let c := self m in
  {| self := {| ws := ws c; session_id := session_id c; state := state c;
                keepalive_task := keepalive_task c;
                is_connected := is_connected c; sent := sent c ++ [event] |};
     carts := carts m |}.

Definition event_of_type (type : string) : pyval :=
  PDict [("type", PStr type)].

(** [send_tool_response(call_id, output)]: nothing when the connection is
    not open; an exception of [json.dumps] is caught inside. *)
Definition send_tool_response (call_id output : pyval) : M ClientMem unit :=
  m <~ get ;;
  if negb (ws_open (self m)) then ret tt
  else
    m_try
      (text <~ lift (json_dumps output) ;;
       modify (ws_send
                 (PDict [("type", PStr "conversation.item.create");
                         ("item",
                          PDict [("type", PStr "function_call_output");
                                 ("call_id", call_id);
                                 ("output", PStr text)])])) ;;;
       modify (ws_send (event_of_type "response.create")))
      (fun _ => ret tt).

Definition set_session_id (v : pyval) (m : ClientMem) : ClientMem :=
  let c := self m in
  {| self := {| ws := ws c; session_id := v; state := state c;
                keepalive_task := keepalive_task c;
                is_connected := is_connected c; sent := sent c |};
     carts := carts m |}.

(** [handle_event(event)] of the client.  [audio_callback] is never set
    in the sources, so a decoded audio chunk goes nowhere.  The session
    id, the transcripts, the name of a function and the message of an
    error are printed as the event has them. *)
Definition handle_event (gw : Gateway) (event : pyval) : M ClientMem unit :=
  event_type <~ lift (py_get event "type" PNone) ;;
  if py_eq_lit event_type "session.created" then
    session <~ lift (py_getitem event "session") ;;
    id <~ lift (py_getitem session "id") ;;
    modify (set_session_id id) ;;;
    lift (py_print [id])
  else if py_eq_lit event_type "session.updated" then ret tt
  else if py_eq_lit event_type "input_audio_buffer.speech_started" then
    m <~ get ;;
    if ws_open (self m)
    then modify (ws_send (event_of_type "response.cancel"))
    else ret tt
  else if py_eq_lit event_type "input_audio_buffer.speech_stopped" then
    ret tt
  else if py_eq_lit event_type
            "conversation.item.input_audio_transcription.completed" then
    transcript <~ lift (py_getitem event "transcript") ;;
    lift (py_print [transcript]) ;;;
    modify (with_state (append_history ("User: " +:+ py_str transcript)))
  else if py_eq_lit event_type "response.audio_transcript.delta" then
    _ <~ lift (py_get event "delta" (PStr "")) ;;
    ret tt
  else if py_eq_lit event_type "response.audio_transcript.done" then
    transcript <~ lift (py_getitem event "transcript") ;;
    lift (py_print [transcript]) ;;;
    modify (with_state
              (append_history ("Assistant: " +:+ py_str transcript)))
  else if py_eq_lit event_type "response.audio.delta" then
    delta <~ lift (py_getitem event "delta") ;;
    _ <~ lift (b64decode delta) ;;
    ret tt
  else if py_eq_lit event_type "response.function_call_arguments.done" then
    call_id <~ lift (py_getitem event "call_id") ;;
    name <~ lift (py_getitem event "name") ;;
    text <~ lift (py_getitem event "arguments") ;;
    arguments <~ lift (json_loads text) ;;
    lift (py_print [name]) ;;;
    result <~ handle_tool_call gw name arguments ;;
    send_tool_response call_id result
  else if py_eq_lit event_type "response.done" then ret tt
  else if py_eq_lit event_type "response.cancelled" then ret tt
  else if py_eq_lit event_type "error" then
    error <~ lift (py_get event "error" (PDict [])) ;;
    error_code <~ lift (py_get error "code" (PStr "")) ;;
    error_message <~ lift (py_get error "message" (PStr "Unknown error")) ;;
    if py_eq_lit error_code "buffer_cleared"
       || py_eq_lit error_code "response_cancelled"
    then ret tt
    else lift (py_print [error_message])
  else ret tt.

(** [json.loads(message)] followed by [handle_event], as [listen] and the
    relay's reader run them on one message. *)
Definition handle_message (gw : Gateway) (message : pyval)
  : M ClientMem unit :=
  event <~ lift (json_loads message) ;; handle_event gw event.

(** [close()]: stops the keepalive task and closes an open connection. *)
Definition close (c : RealtimeVoiceClient) : RealtimeVoiceClient :=
  {| ws := match ws c with Open => Closed | w => w end;
     session_id := session_id c; state := state c;
     keepalive_task := false; is_connected := false; sent := sent c |}.

(** [RealtimeVoiceClient()]: no connection yet, an empty cart of its
    own. *)
Definition new_client : ClientMem :=
  {| self := {| ws := NoSocket; session_id := PNone;
                state := {| cart := 0%nat; customer := PNone;
                            order_number := PNone;
                            conversation_history := [] |};
                keepalive_task := false; is_connected := false; sent := [] |};
     carts := [[]] |}.

(** *** The transport under [listen]

    How a connection ends once its messages are read: the iteration over
    the socket finishes (a normal close), raises [ConnectionClosed], or
    keeps waiting on a connection that stays open. *)
Inductive closing : Type := ClosesNormally | ClosesAbnormally | StaysOpen.

Record Stream : Type := {
  messages : list pyval;
  finish : closing
}.

(** The outcome of one [connect()]: [websockets.connect] returns a socket
    and [configure_session] sends the session update on it ([Accepted]);
    [websockets.connect] raises ([Failed]); or [websockets.connect]
    returns a socket, which is assigned to [self.ws], and the send of
    [configure_session] raises because the connection is closed by then
    ([Dropped]). *)
Inductive Attempt : Type :=
| Accepted (s : Stream)
| Failed (e : exn)
| Dropped (e : exn).

(** A transport answers the n-th connect attempt. *)
Definition Transport : Type := nat -> Attempt.

(** What can be seen of a run of [listen]. *)
Inductive Obs : Type :=
| Connecting (attempt : nat)
| Sleeping (seconds : Z)
| Received (message : pyval)
| MaxRetriesReached.

Record Listener : Type := {
  mem : ClientMem;
  live : option Stream;
  attempts : nat;
  trace : list Obs
}.

Definition set_socket (w : socket) (connected keepalive : bool)
    (m : ClientMem) : ClientMem :=
  let c := self m in
  {| self := {| ws := w; session_id := session_id c; state := state c;
                keepalive_task := keepalive;
                is_connected := connected; sent := sent c |};
     carts := carts m |}.

(** [session_settings] stands for the "session" literal of
    [configure_session] (modalities, instructions, voice, formats, turn
    detection, tool schemas, temperature, token cap). *)
Variable session_settings : pyval.

(** [connect()]: on success the socket is open, the session is
    configured and the keepalive task started; on failure the exception
    is raised again, with [is_connected] false and, when the socket had
    been opened, a closed socket in [self.ws]. *)
Definition connect (T : Transport) (L : Listener) : res unit * Listener :=
  let n := attempts L in
  match T n with
  | Accepted s =>
      (Ok tt,
       {| mem := ws_send (PDict [("type", PStr "session.update");
                                 ("session", session_settings)])
                   (set_socket Open true true (mem L));
          live := Some s; attempts := S n;
          trace := trace L ++ [Connecting n] |})
  | Failed e =>
      (Raise e,
       {| mem := set_socket (ws (self (mem L))) false
                   (keepalive_task (self (mem L))) (mem L);
          live := live L; attempts := S n;
          trace := trace L ++ [Connecting n] |})
  | Dropped e =>
      (Raise e,
       {| mem := set_socket Closed false
                   (keepalive_task (self (mem L))) (mem L);
          live := None; attempts := S n;
          trace := trace L ++ [Connecting n] |})
  end.

(** How the [try] block of one round of the loop ends. *)
Inductive Round : Type :=
| Finished
| Raised (e : exn)
| Blocked.

Definition close_socket (L : Listener) (log : list Obs) (m : ClientMem)
  : Listener :=
  {| mem := set_socket Closed (is_connected (self m))
              (keepalive_task (self m)) m;
     live := None; attempts := attempts L; trace := log |}.

(** [async for message in self.ws: handle_event(json.loads(message))] *)
Fixpoint drain (gw : Gateway) (L : Listener) (msgs : list pyval)
    (fin : closing) (log : list Obs) (m : ClientMem) : Round * Listener :=
  match msgs with
  | [] =>
      match fin with
      | ClosesNormally => (Finished, close_socket L log m)
      | ClosesAbnormally => (Raised ConnectionClosed, close_socket L log m)
      | StaysOpen =>
          (Blocked,
           {| mem := m; live := Some {| messages := []; finish := fin |};
              attempts := attempts L; trace := log |})
      end
  | message :: rest =>
      match (event <~ lift (json_loads message) ;; handle_event gw event) m
      with
      | (Ok _, m') => drain gw L rest fin (log ++ [Received message]) m'
      | (Raise e, m') =>
          (Raised e,
           {| mem := m'; live := Some {| messages := rest; finish := fin |};
              attempts := attempts L;
              trace := log ++ [Received message] |})
      end
  end.

Definition read_socket (gw : Gateway) (L : Listener) : Round * Listener :=
  match live L with
  | Some s => drain gw L (messages s) (finish s) (trace L) (mem L)
  | None => (Blocked, L)
  end.

Definition max_retries : Z := 3.

Definition mark_disconnected (L : Listener) : Listener :=
  {| mem := set_socket (ws (self (mem L))) false
              (keepalive_task (self (mem L))) (mem L);
     live := live L; attempts := attempts L; trace := trace L |}.

Definition log_obs (o : Obs) (L : Listener) : Listener :=
  {| mem := mem L; live := live L; attempts := attempts L;
     trace := trace L ++ [o] |}.

(** How [listen] ends: it returns, it waits for the next message of an
    open connection, or the rounds given to the loop ran out. *)
Inductive Status : Type := Returned | Waiting | OutOfFuel.

(** The [try] block of one round: reconnect when there is no open socket
    (resetting the retry count), then read the socket. *)
Definition listen_round (gw : Gateway) (T : Transport) (retry_count : Z)
    (L : Listener) : Round * Z * Listener :=
  if negb (ws_open (self (mem L))) then
    match connect T L with
    | (Ok _, L') => let '(r, L'') := read_socket gw L' in (r, 0, L'')
    | (Raise e, L') => (Raised e, retry_count, L')
    end
  else let '(r, L') := read_socket gw L in (r, retry_count, L').

(** What follows the [try] block: the loop goes on ([inr], with the
    retry count and the listener of the next round) or [listen] is over
    ([inl]).  [ConnectionClosed] counts a retry and sleeps
    [min(2 ** retry_count, 10)] seconds before the next round, or gives
    up once the count reaches [max_retries]; any other exception ends
    the loop at once. *)
Definition after_round (r : Round * Z * Listener)
  : (Status * Listener) + (Z * Listener) :=
  match r with
  | (Finished, retry_count, L) => inr (retry_count, L)
  | (Blocked, _, L) => inl (Waiting, L)
  | (Raised ConnectionClosed, retry_count, L) =>
      let L' := mark_disconnected L in
      let retry_count' := retry_count + 1 in
      if Z.ltb retry_count' max_retries then
        let wait_time := Z.min (2 ^ retry_count') 10 in
        inr (retry_count', log_obs (Sleeping wait_time) L')
      else inl (Returned, log_obs MaxRetriesReached L')
  | (Raised _, _, L) => inl (Returned, L)
  end.

(** [listen()]; [fuel] bounds the number of rounds of the [while] loop. *)
Fixpoint listen_loop (fuel : nat) (gw : Gateway) (T : Transport)
    (retry_count : Z) (L : Listener) : Status * Listener :=
  match fuel with
  | O => (OutOfFuel, L)
  | S fuel' =>
      if Z.ltb retry_count max_retries then
        match after_round (listen_round gw T retry_count L) with
        | inl over => over
        | inr (retry_count', L') => listen_loop fuel' gw T retry_count' L'
        end
      else (Returned, L)
  end.

Definition listen (fuel : nat) (gw : Gateway) (T : Transport)
    (L : Listener) : Status * Listener :=
  listen_loop fuel gw T 0 L.

(** A client on which [listen()] is called before any [connect()]. *)
Definition fresh_listener : Listener :=
  {| mem := new_client; live := None; attempts := 0%nat; trace := [] |}.

End VoiceClient.

(** ** main.py: the relay and the connection manager *)

(** [active_sessions[session_id]]: the session's cart (a reference to a
    list object) and its [voice_mode] entry. *)
Record SessionData : Type := {
  session_cart : nat;
  voice_mode : bool
}.

(** [ConnectionManager]: browser sockets (by handle), voice clients and
    voice-mode flags, each keyed by session id. *)
Record ConnectionManager : Type := {
  active_connections : gmap string nat;
  voice_clients : gmap string RealtimeVoiceClient;
  voice_mode_active : gmap string bool
}.

(** The process: the manager, the global [active_sessions], the list
    objects carts refer to, the frames delivered to browser sockets
    (socket handle and frame, oldest first), and the sessions whose open
    upstream connection [close()] has closed. *)
Record World : Type := {
  manager : ConnectionManager;
  active_sessions : gmap string SessionData;
  objects : list (list pyval);
  delivered : list (nat * pyval);
  upstream_closed : list string
}.

Definition with_manager (f : ConnectionManager -> ConnectionManager)
    (w : World) : World :=
  {| manager := f (manager w); active_sessions := active_sessions w;
     objects := objects w; delivered := delivered w;
     upstream_closed := upstream_closed w |}.

(** [send_message(session_id, message)] *)
Definition send_message (session_id : string) (message : pyval) (w : World)
  : World :=
  match active_connections (manager w) !! session_id with
  | Some websocket =>
      {| manager := manager w; active_sessions := active_sessions w;
         objects := objects w;
         delivered := delivered w ++ [(websocket, message)];
         upstream_closed := upstream_closed w |}
  | None => w
  end.

Fixpoint str_contains (needle hay : string) : bool :=
  String.prefix needle hay ||
  match hay with
  | EmptyString => false
  | String _ hay' => str_contains needle hay'
  end.

Definition ignore_errors : list string :=
  ["buffer too small"; "Buffer is empty"; "No speech detected";
   "Audio buffer is empty"; "buffer_cleared"; "response_cancelled"].

Definition ignored_event_types : list string :=
  ["response.audio_transcript.delta"; "response.output_item.added";
   "response.content_part.added"; "input_audio_buffer.committed";
   "response.output_item.done"; "response.content_part.done";
   "response.done"; "session.created"; "session.updated";
   "response.created"; "rate_limits.updated"].

Section Relay.
Context `{PyRuntime}.

(** Running a method of the session's voice client: the client object is
    the one stored in [voice_clients]. *)
Definition on_client {A : Type} (session_id : string)
    (c : RealtimeVoiceClient) (act : M ClientMem A) : M World A :=
  fun w =>
    let '(r, m) := act {| self := c; carts := objects w |} in
    (r,
     {| manager :=
          {| active_connections := active_connections (manager w);
             voice_clients :=
               <[session_id := self m]> (voice_clients (manager w));
             voice_mode_active := voice_mode_active (manager w) |};
        active_sessions := active_sessions w;
        objects := carts m;
        delivered := delivered w;
        upstream_closed := upstream_closed w |}).

(** [active_sessions[session_id]["cart"]] *)
Definition session_cart_of (session_id : string) : M World (list pyval) :=
  fun w =>
    match active_sessions w !! session_id with
    | Some d => (Ok (cart_list (objects w) (session_cart d)), w)
    | None => (Raise (KeyError (PStr session_id)), w)
    end.

(** [active_sessions[session_id]["cart"] = []] *)
Definition reset_session_cart (session_id : string) : M World unit :=
  fun w =>
    match active_sessions w !! session_id with
    | Some d =>
        (Ok tt,
         {| manager := manager w;
            active_sessions :=
              <[session_id := {| session_cart := length (objects w);
                                 voice_mode := voice_mode d |}]>
                (active_sessions w);
            objects := objects w ++ [[]];
            delivered := delivered w;
            upstream_closed := upstream_closed w |})
    | None => (Raise (KeyError (PStr session_id)), w)
    end.

(** [name == tool and result.get("success")] *)
Definition succeeded (name : pyval) (tool : string) (result : pyval)
  : res bool :=
  if py_eq_lit name tool then
    success <- py_get result "success" PNone ;; Ok (py_truthy success)
  else Ok false.

(** The tool-call branch of [handle_voice_event]: the name is printed
    with the arguments before the dispatcher runs, and with the result
    after it. *)
Definition relay_tool_call (gw : Gateway) (session_id : string)
    (event : pyval) : M World unit :=
  call_id <~ lift (py_getitem event "call_id") ;;
  name <~ lift (py_getitem event "name") ;;
  text <~ lift (py_getitem event "arguments") ;;
  arguments <~ lift (json_loads text) ;;
  lift (py_print [name; arguments]) ;;;
  w <~ get ;;
  match voice_clients (manager w) !! session_id with
  | None => ret tt
  | Some c =>
      result <~ on_client session_id c (handle_tool_call gw name arguments) ;;
      lift (py_print [name; result]) ;;;
      searched <~ lift (succeeded name "search_products" result) ;;
      (if searched : bool then
         products <~ lift (py_get result "products" (PList [])) ;;
         _ <~ lift (py_len products) ;;
         modify (send_message session_id
                   (PDict [("type", PStr "tool_result");
                           ("tool", PStr "search_products");
                           ("result", products)]))
       else ret tt) ;;;
      w1 <~ get ;;
      (match voice_clients (manager w1) !! session_id with
       | Some c1 =>
           on_client session_id c1 (send_tool_response call_id result)
       | None => ret tt
       end) ;;;
      added <~ lift (succeeded name "add_to_cart" result) ;;
      (if added : bool then
         cart <~ session_cart_of session_id ;;
         modify (send_message session_id
                   (PDict [("type", PStr "cart_updated");
                           ("cart", PList cart)]))
       else ret tt) ;;;
      ordered <~ lift (succeeded name "place_salesforce_order" result) ;;
      if ordered : bool then
        reset_session_cart session_id ;;;
        w2 <~ get ;;
        (match voice_clients (manager w2) !! session_id with
         | Some c2 => on_client session_id c2 (modify bind_new_cart)
         | None => ret tt
         end) ;;;
        modify (send_message session_id (event_of_type "cart_cleared"))
      else ret tt
  end.

(** [any(ignore in str(error_msg) or ignore in str(error_code)
         for ignore in ignore_errors)] *)
Definition ignored_error (error_msg error_code : pyval) : bool :=
  existsb (fun ignore => str_contains ignore (py_str error_msg)
                         || str_contains ignore (py_str error_code))
    ignore_errors.

(** [handle_voice_event(session_id, event)] *)
Definition handle_voice_event (gw : Gateway) (session_id : string)
    (event : pyval) : M World unit :=
  event_type <~ lift (py_get event "type" PNone) ;;
  if existsb (py_eq_lit event_type) ignored_event_types then ret tt
  else if py_eq_lit event_type "input_audio_buffer.speech_started" then
    modify (send_message session_id (event_of_type "user_speaking"))
  else if py_eq_lit event_type "input_audio_buffer.speech_stopped" then
    ret tt
  else if py_eq_lit event_type
            "conversation.item.input_audio_transcription.completed" then
    transcript <~ lift (py_getitem event "transcript") ;;
    modify (send_message session_id
              (PDict [("type", PStr "user_message");
                      ("content", transcript); ("mode", PStr "voice")]))
  else if py_eq_lit event_type "response.audio_transcript.done" then
    transcript <~ lift (py_getitem event "transcript") ;;
    modify (send_message session_id
              (PDict [("type", PStr "assistant_message");
                      ("content", transcript); ("mode", PStr "voice")]))
  else if py_eq_lit event_type "response.cancelled" then ret tt
  else if py_eq_lit event_type "response.audio.delta" then
    w <~ get ;;
    let is_voice_mode :=
      default false (voice_mode_active (manager w) !! session_id) in
    if is_voice_mode then
      delta <~ lift (py_getitem event "delta") ;;
      modify (send_message session_id
                (PDict [("type", PStr "audio_delta"); ("audio", delta)]))
    else ret tt
  else if py_eq_lit event_type "response.function_call_arguments.done" then
    relay_tool_call gw session_id event
  else if py_eq_lit event_type "error" then
    error <~ lift (py_get event "error" (PDict [])) ;;
    error_msg <~ lift (py_get error "message" (PStr "")) ;;
    error' <~ lift (py_get event "error" (PDict [])) ;;
    error_code <~ lift (py_get error' "code" (PStr "")) ;;
    if ignored_error error_msg error_code then ret tt
    else modify (send_message session_id
                   (PDict [("type", PStr "error"); ("message", error_msg)]))
  else ret tt.

(** [await self.voice_clients[session_id].close()] followed by
    [del self.voice_clients[session_id]] *)
Definition close_and_forget (session_id : string) (c : RealtimeVoiceClient)
    (w : World) : World :=
  {| manager :=
       {| active_connections := active_connections (manager w);
          voice_clients :=
            delete session_id
              (<[session_id := close c]> (voice_clients (manager w)));
          voice_mode_active := voice_mode_active (manager w) |};
     active_sessions := active_sessions w;
     objects := objects w;
     delivered := delivered w;
     upstream_closed :=
       if ws_open c then upstream_closed w ++ [session_id]
       else upstream_closed w |}.

(** [disconnect(session_id)] *)
Definition disconnect (session_id : string) (w : World) : World :=
  let w1 :=
    if decide (is_Some (active_connections (manager w) !! session_id)) then
      with_manager (fun mg =>
        {| active_connections := delete session_id (active_connections mg);
           voice_clients := voice_clients mg;
           voice_mode_active := voice_mode_active mg |}) w
    else w in
  let w2 :=
    match voice_clients (manager w1) !! session_id with
    | Some c => close_and_forget session_id c w1
    | None => w1
    end in
  if decide (is_Some (voice_mode_active (manager w2) !! session_id)) then
    with_manager (fun mg =>
      {| active_connections := active_connections mg;
         voice_clients := voice_clients mg;
         voice_mode_active := delete session_id (voice_mode_active mg) |}) w2
  else w2.

End Relay.

(** ** Properties of the cart total *)

(** The price and the quantity a cart line carries: for a dictionary
    line a missing "product", "price" or "quantity" counts as 0; a
    [CartItem] line has them as attributes. *)
Inductive price_quantity : pyval -> pyval -> pyval -> Prop :=
| pq_dict d p :
    assoc "product" d = Some (PDict p) ->
    price_quantity (PDict d)
      (default (PInt 0) (assoc "price" p))
      (default (PInt 0) (assoc "quantity" d))
| pq_dict_no_product d :
    assoc "product" d = None ->
    price_quantity (PDict d) (PInt 0) (default (PInt 0) (assoc "quantity" d))
| pq_cart_item cls attrs pcls pattrs price quantity :
    assoc "product" attrs = Some (PObj pcls pattrs) ->
    assoc "price" pattrs = Some price ->
    assoc "quantity" attrs = Some quantity ->
    price_quantity (PObj cls attrs) price quantity.

(** [line_value item a]: the line carries numbers whose product is the
    float [a]. *)
Definition line_value (item : pyval) (a : float) : Prop :=
  exists price quantity v,
    price_quantity item price quantity /\
    py_mul price quantity = Ok v /\
    as_float v = Some (Ok a).

Definition malformed (item : pyval) : Prop := forall a, ~ line_value item a.

Lemma line_amount_price_quantity item v :
  line_amount item = Ok v ->
  exists price quantity,
    price_quantity item price quantity /\ py_mul price quantity = Ok v.
Proof.
  unfold line_amount.
  destruct item as [| | | | |l|d|cls attrs]; simpl; try discriminate.
  - destruct (assoc "product" d) as [pr|] eqn:Hp.
    + destruct pr; simpl; try discriminate.
      intros Hm. eexists _, _. split; [apply pq_dict; eassumption|exact Hm].
    + simpl. intros Hm. eexists _, _.
      split; [apply pq_dict_no_product; assumption|exact Hm].
  - destruct (assoc "product" attrs) as [pr|] eqn:Hp; simpl; try discriminate.
    destruct pr as [| | | | | | |pcls pattrs]; simpl; try discriminate.
    destruct (assoc "price" pattrs) as [price|] eqn:Hprice;
      simpl; try discriminate.
    destruct (assoc "quantity" attrs) as [quantity|] eqn:Hq;
      simpl; try discriminate.
    intros Hm. exists price, quantity.
    split; [eapply pq_cart_item; eassumption|exact Hm].
Qed.

Lemma price_quantity_line_amount item price quantity :
  price_quantity item price quantity ->
  line_amount item = py_mul price quantity.
Proof.
  intros Hpq.
  destruct Hpq as [d p Hp|d Hp|cls attrs pcls pattrs pr q Hp Hpr Hq];
    unfold line_amount; simpl.
  - rewrite Hp. simpl. reflexivity.
  - rewrite Hp. simpl. reflexivity.
  - rewrite Hp. simpl. rewrite Hpr. simpl. rewrite Hq. reflexivity.
Qed.

Lemma float_iadd_inv total v t' :
  float_iadd total v = Ok t' ->
  exists a, as_float v = Some (Ok a) /\ t' = PrimFloat.add total a.
Proof.
  unfold float_iadd. destruct (as_float v) as [[a|e]|]; simpl; try discriminate.
  intros [= <-]. exists a. split; reflexivity.
Qed.

(** A line with a value adds it to the running total. *)
Lemma cart_total_from_value total item rest a :
  line_value item a ->
  cart_total_from total (item :: rest)
  = cart_total_from (PrimFloat.add total a) rest.
Proof.
  intros (price & quantity & v & Hpq & Hmul & Hf). simpl.
  rewrite (price_quantity_line_amount _ _ _ Hpq), Hmul. simpl.
  unfold float_iadd. rewrite Hf. reflexivity.
Qed.

(** A malformed line leaves the running total as it is. *)
Lemma cart_total_from_malformed total item rest :
  malformed item ->
  cart_total_from total (item :: rest) = cart_total_from total rest.
Proof.
  intros Hbad. simpl.
  destruct (line_amount item) as [v|e] eqn:Hv; simpl; [|reflexivity].
  destruct (float_iadd total v) as [t'|e] eqn:Ht; simpl; [|reflexivity].
  exfalso. apply float_iadd_inv in Ht as (a & Hf & _).
  apply line_amount_price_quantity in Hv as (price & quantity & Hpq & Hmul).
  apply (Hbad a). exists price, quantity, v. auto.
Qed.

Lemma cart_total_from_total total cart :
  exists t, cart_total_from total cart = Ok t.
Proof.
  revert total. induction cart as [|item rest IH]; intros total; simpl.
  - eauto.
  - destruct (line_amount item) as [v|e]; simpl; [|apply IH].
    destruct (float_iadd total v) as [t'|e]; simpl; apply IH.
Qed.

Lemma cart_total_from_app total before after :
  cart_total_from total (before ++ after)
  = (t <- cart_total_from total before ;; cart_total_from t after).
Proof.
  revert total. induction before as [|item rest IH]; intros total.
  - reflexivity.
  - simpl.
    destruct (try_except _ _) as [t'|e]; simpl; [apply IH|reflexivity].
Qed.

Lemma cart_total_from_values total cart amounts :
  Forall2 line_value cart amounts ->
  cart_total_from total cart = Ok (fold_left PrimFloat.add amounts total).
Proof.
  intros Hall. revert total.
  induction Hall as [|item a cart amounts Hv _ IH]; intros total.
  - reflexivity.
  - rewrite (cart_total_from_value _ _ _ _ Hv). apply IH.
Qed.

(** C10. [calculate_cart_total] never raises on any cart list, whatever
    mix of dictionary lines and [CartItem] lines it holds; when every line
    carries numbers it returns the sum, taken from 0.0 in cart order, of
    price times quantity (a price or quantity missing from a dictionary
    line counting as 0); and a malformed line anywhere in the cart
    contributes nothing: the total is that of the cart without it. *)
Theorem calculate_cart_total_safe :
  (forall cart, exists total, calculate_cart_total cart = Ok total) /\
  (forall cart amounts,
      Forall2 line_value cart amounts ->
      calculate_cart_total cart
      = Ok (fold_left PrimFloat.add amounts 0%float)) /\
  (forall before item after,
      malformed item ->
      calculate_cart_total (before ++ item :: after)
      = calculate_cart_total (before ++ after)).
Proof.
  split; [|split].
  - intros cart. apply cart_total_from_total.
  - intros cart amounts Hall. apply cart_total_from_values, Hall.
  - intros before item after Hbad. unfold calculate_cart_total.
    rewrite !cart_total_from_app.
    destruct (cart_total_from 0%float before) as [t|e]; simpl; [|reflexivity].
    apply cart_total_from_malformed, Hbad.
Qed.

(** ** Properties of [tool_add_to_cart] *)

Section AddToCart.
Context `{PyRuntime}.

(** The line is for the product with id [pid]. *)
Definition has_product_id (pid : string) (item : pyval) : bool :=
  match existing_product_id item with
  | Ok (PStr s) => String.eqb s pid
  | _ => false
  end.

(** At most one cart line per product id. *)
Definition one_line_per_product (cart : list pyval) : Prop :=
  forall pid, (length (List.filter (has_product_id pid) cart) <= 1)%nat.

Lemma assoc_set_other k k' v d :
  String.eqb k' k = false -> assoc k' (assoc_set k v d) = assoc k' d.
Proof.
  intros Hne. induction d as [|[k0 v0] d IH]; simpl.
  - rewrite Hne. reflexivity.
  - destruct (String.eqb k k0) eqn:Hk; simpl.
    + apply String.eqb_eq in Hk. subst k0. rewrite Hne. reflexivity.
    + destruct (String.eqb k' k0); [reflexivity|exact IH].
Qed.

(** Updating the quantity does not touch the product of the line. *)
Lemma add_quantity_product_id item quantity item' :
  add_quantity item quantity = Ok item' ->
  existing_product_id item' = existing_product_id item.
Proof.
  unfold add_quantity.
  destruct item as [| | | | |l|d|cls attrs]; simpl; try discriminate.
  - destruct (assoc "quantity" d) as [old|]; simpl; try discriminate.
    destruct (py_iadd old quantity) as [new|e]; simpl; try discriminate.
    intros [= <-]. unfold existing_product_id. simpl.
    rewrite assoc_set_other by reflexivity. reflexivity.
  - destruct (assoc "quantity" attrs) as [old|]; simpl; try discriminate.
    destruct (py_iadd old quantity) as [new|e]; simpl; try discriminate.
    intros [= <-]. unfold existing_product_id. simpl.
    rewrite assoc_set_other by reflexivity. reflexivity.
Qed.

Lemma add_quantity_has_product_id pid item quantity item' :
  add_quantity item quantity = Ok item' ->
  has_product_id pid item' = has_product_id pid item.
Proof.
  intros Hadd. unfold has_product_id.
  rewrite (add_quantity_product_id _ _ _ Hadd). reflexivity.
Qed.

(** When the loop finds a line, the cart is the old one with that one
    line updated in place. *)
Lemma update_existing_found id quantity seen rest cart' :
  update_existing id quantity seen rest = Ok (Some cart') ->
  exists before item item' after,
    rest = before ++ item :: after /\
    cart' = seen ++ before ++ item' :: after /\
    Forall (fun line => exists e, existing_product_id line = Ok e /\
                                  py_eq e id = false) before /\
    (exists e, existing_product_id item = Ok e /\ py_eq e id = true) /\
    add_quantity item quantity = Ok item'.
Proof.
  revert seen. induction rest as [|item rest IH]; intros seen; simpl.
  - discriminate.
  - destruct (existing_product_id item) as [e|x] eqn:He; simpl;
      try discriminate.
    destruct (py_eq e id) eqn:Heq.
    + destruct (add_quantity item quantity) as [item'|x] eqn:Ha;
        simpl; try discriminate.
      intros [= <-]. exists [], item, item', rest.
      repeat split; eauto.
    + intros Hrec. apply IH in Hrec
        as (before & it & it' & after & -> & -> & Hall & Hit & Hadd).
      exists (item :: before), it, it', after.
      repeat split; eauto.
      rewrite <- app_assoc. reflexivity.
Qed.

(** When the loop runs to its end, no line compared equal to the id. *)
Lemma update_existing_absent id quantity seen rest :
  update_existing id quantity seen rest = Ok None ->
  Forall (fun line => exists e, existing_product_id line = Ok e /\
                                py_eq e id = false) rest.
Proof.
  revert seen. induction rest as [|item rest IH]; intros seen; simpl.
  - constructor.
  - destruct (existing_product_id item) as [e|x] eqn:He; simpl;
      try discriminate.
    destruct (py_eq e id) eqn:Heq.
    + destruct (add_quantity item quantity); simpl; discriminate.
    + intros Hrec. constructor; eauto.
Qed.

Lemma update_existing_skip id quantity seen before rest :
  Forall (fun line => exists e, existing_product_id line = Ok e /\
                                py_eq e id = false) before ->
  update_existing id quantity seen (before ++ rest)
  = update_existing id quantity (seen ++ before) rest.
Proof.
  intros Hall. revert seen.
  induction Hall as [|item before (e & He & Heq) _ IH]; intros seen; simpl.
  - rewrite app_nil_r. reflexivity.
  - rewrite He. simpl. rewrite Heq. rewrite IH, <- app_assoc. reflexivity.
Qed.

Lemma update_existing_none id quantity seen cart :
  Forall (fun line => exists e, existing_product_id line = Ok e /\
                                py_eq e id = false) cart ->
  update_existing id quantity seen cart = Ok None.
Proof.
  intros Hall. rewrite <- (app_nil_r cart).
  rewrite (update_existing_skip _ _ _ _ _ Hall). reflexivity.
Qed.

Lemma filter_length_updated (f : pyval -> bool) before item item' after :
  f item' = f item ->
  length (List.filter f (before ++ item' :: after))
  = length (List.filter f (before ++ item :: after)).
Proof.
  intros Heq. rewrite !List.filter_app, !length_app. simpl. rewrite Heq.
  destruct (f item); reflexivity.
Qed.

Lemma no_line_with_id pid cart :
  Forall (fun line => exists e, existing_product_id line = Ok e /\
                                py_eq e (PStr pid) = false) cart ->
  List.filter (has_product_id pid) cart = [].
Proof.
  induction 1 as [|item cart (e & He & Hne) _ IH]; simpl; [reflexivity|].
  unfold has_product_id at 1. rewrite He.
  destruct e as [| | | |s| | |]; try exact IH.
  destruct (String.eqb s pid) eqn:Hs; [|exact IH].
  apply String.eqb_eq in Hs. subst s.
  assert (Ht : py_eq (PStr pid) (PStr pid) = true)
    by (apply py_eq_str; reflexivity).
  congruence.
Qed.

Lemma product_dict_of_id record pbe product_dict :
  product_dict_of record pbe = Ok product_dict ->
  exists id name rest,
    product_dict = PDict (("id", id) :: ("name", name) :: rest).
Proof.
  unfold product_dict_of.
  repeat (match goal with
          | |- context [bind ?m _] => destruct m; simpl; try discriminate
          end).
  intros [= <-]. eauto.
Qed.

Lemma fetch_product_shape gw product_name product_dict :
  fetch_product gw product_name = Ok (Some product_dict) ->
  exists id name rest,
    product_dict = PDict (("id", id) :: ("name", name) :: rest).
Proof.
  unfold fetch_product.
  destruct (str_replace_quote product_name) as [escaped|]; simpl;
    try discriminate.
  destruct (sf_query_product gw escaped) as [product_query|]; simpl;
    try discriminate.
  destruct (py_getitem product_query "records") as [records|]; simpl;
    try discriminate.
  destruct (negb (py_truthy records)); try discriminate.
  destruct (py_getitem0 records) as [record|]; simpl; try discriminate.
  destruct (py_getitem record "PricebookEntries") as [entries|]; simpl;
    try discriminate.
  destruct (py_getitem entries "records") as [entry_records|]; simpl;
    try discriminate.
  destruct (py_getitem0 entry_records) as [pbe|]; simpl; try discriminate.
  destruct (product_dict_of record pbe) eqn:Hp; simpl; try discriminate.
  intros [= <-]. eapply product_dict_of_id, Hp.
Qed.

Lemma other_ids_compare_unequal pid (cart : list pyval) :
  Forall (fun line => exists e, existing_product_id line = Ok e /\
                                e <> PStr pid) cart ->
  Forall (fun line => exists e, existing_product_id line = Ok e /\
                                py_eq e (PStr pid) = false) cart.
Proof.
  induction 1 as [|line cart (e & He & Hne) _ IH]; constructor; [|exact IH].
  exists e. split; [exact He|].
  destruct (py_eq e (PStr pid)) eqn:Heq; [|reflexivity].
  apply py_eq_str in Heq. contradiction.
Qed.

Lemma existing_product_id_new_line id name rest quantity :
  existing_product_id
    (new_line (PDict (("id", id) :: ("name", name) :: rest)) quantity)
  = Ok id.
Proof. reflexivity. Qed.

(** [tool_add_to_cart] never raises, and keeps a cart with at most one
    line per product id that way. *)
Lemma tool_add_to_cart_preserves gw product_name quantity cart :
  one_line_per_product cart ->
  exists result cart',
    tool_add_to_cart gw product_name quantity cart = Ok (result, cart') /\
    one_line_per_product cart'.
Proof.
  intros Hinv. unfold tool_add_to_cart.
  destruct (fetch_product gw product_name) as [[product_dict|]|x] eqn:Hf;
    simpl; eauto.
  destruct (fetch_product_shape _ _ _ Hf) as (id & name & rest & ->).
  simpl.
  destruct (update_existing id quantity [] cart) as [[cart'|]|x] eqn:Hu;
    simpl; eauto.
  - destruct (cart_total_from_total 0%float cart') as [t Ht].
    unfold calculate_cart_total. rewrite Ht. simpl.
    eexists _, _. split; [reflexivity|].
    apply update_existing_found in Hu
      as (before & item & item' & after & -> & -> & _ & _ & Hadd).
    intros pid. simpl.
    rewrite (filter_length_updated _ before item item' after).
    + apply Hinv.
    + eapply add_quantity_has_product_id, Hadd.
  - set (line := new_line _ quantity).
    destruct (cart_total_from_total 0%float (cart ++ [line])) as [t Ht].
    unfold calculate_cart_total. rewrite Ht. simpl.
    eexists _, _. split; [reflexivity|].
    apply update_existing_absent in Hu.
    intros pid. rewrite List.filter_app, length_app. simpl.
    unfold has_product_id at 2. subst line.
    rewrite existing_product_id_new_line.
    destruct id as [| | | |s| | |];
      try (simpl; specialize (Hinv pid); lia).
    destruct (String.eqb s pid) eqn:Hs;
      [|simpl; specialize (Hinv pid); lia].
    apply String.eqb_eq in Hs. subst s.
    rewrite (no_line_with_id pid cart Hu). simpl. lia.
Qed.

(** On a dictionary line with an integer quantity the update is the
    integer sum. *)
Lemma add_quantity_int d n m :
  assoc "quantity" d = Some (PInt n) ->
  add_quantity (PDict d) (PInt m)
  = Ok (PDict (assoc_set "quantity" (PInt (n + m)) d)).
Proof. intros Hq. unfold add_quantity. simpl. rewrite Hq. reflexivity. Qed.

(** A product whose line is the first one with its id gets that line
    updated in place. *)
Lemma tool_add_to_cart_present
    gw product_name quantity product_dict pid before item item' after :
  fetch_product gw product_name = Ok (Some product_dict) ->
  py_getitem product_dict "id" = Ok (PStr pid) ->
  Forall (fun line => exists e, existing_product_id line = Ok e /\
                                e <> PStr pid) before ->
  existing_product_id item = Ok (PStr pid) ->
  add_quantity item quantity = Ok item' ->
  exists result,
    tool_add_to_cart gw product_name quantity (before ++ item :: after)
    = Ok (result, before ++ item' :: after) /\
    py_getitem result "success" = Ok (PBool true).
Proof.
  intros Hf Hid Hbefore Hitem Hadd. unfold tool_add_to_cart.
  rewrite Hf. simpl.
  destruct (fetch_product_shape _ _ _ Hf) as (id & name & rest & ->).
  simpl in Hid. injection Hid as ->. simpl.
  rewrite update_existing_skip.
  - simpl. rewrite Hitem. simpl.
    assert (Heq : py_eq (PStr pid) (PStr pid) = true)
      by (apply py_eq_str; reflexivity).
    rewrite Heq, Hadd. simpl.
    destruct (cart_total_from_total 0%float (before ++ item' :: after))
      as [t Ht].
    unfold calculate_cart_total. rewrite Ht. simpl.
    eexists. split; reflexivity.
  - apply other_ids_compare_unequal, Hbefore.
Qed.

(** A product with no line yet gets a new last line. *)
Lemma tool_add_to_cart_absent
    gw product_name quantity product_dict pid cart :
  fetch_product gw product_name = Ok (Some product_dict) ->
  py_getitem product_dict "id" = Ok (PStr pid) ->
  Forall (fun line => exists e, existing_product_id line = Ok e /\
                                e <> PStr pid) cart ->
  exists result,
    tool_add_to_cart gw product_name quantity cart
    = Ok (result, cart ++ [new_line product_dict quantity]) /\
    py_getitem result "success" = Ok (PBool true).
Proof.
  intros Hf Hid Hcart. unfold tool_add_to_cart.
  rewrite Hf. simpl.
  destruct (fetch_product_shape _ _ _ Hf) as (id & name & rest & ->).
  simpl in Hid. injection Hid as ->. simpl.
  rewrite update_existing_none
    by (apply other_ids_compare_unequal, Hcart).
  simpl. set (line := new_line _ quantity).
  destruct (cart_total_from_total 0%float (cart ++ [line])) as [t Ht].
  unfold calculate_cart_total. rewrite Ht. simpl.
  eexists. split; reflexivity.
Qed.

(** C2. [tool_add_to_cart] keeps a cart at one line per product id: it
    always returns, and from a cart with at most one line per product id
    it leaves such a cart; a product whose id is already in the cart gets
    the quantity of that line updated in place and no line is appended;
    on a dictionary line and on a [CartItem] line with an integer
    quantity the update is integer addition; and two calls for the same
    product with quantity 1, from an empty cart, leave exactly one line,
    with quantity 2. *)
Theorem tool_add_to_cart_one_line_per_product :
  (forall gw product_name quantity cart,
      one_line_per_product cart ->
      exists result cart',
        tool_add_to_cart gw product_name quantity cart = Ok (result, cart') /\
        one_line_per_product cart') /\
  (forall gw product_name quantity product_dict pid before item item' after,
      fetch_product gw product_name = Ok (Some product_dict) ->
      py_getitem product_dict "id" = Ok (PStr pid) ->
      Forall (fun line => exists e, existing_product_id line = Ok e /\
                                    e <> PStr pid) before ->
      existing_product_id item = Ok (PStr pid) ->
      add_quantity item quantity = Ok item' ->
      exists result,
        tool_add_to_cart gw product_name quantity (before ++ item :: after)
        = Ok (result, before ++ item' :: after) /\
        py_getitem result "success" = Ok (PBool true)) /\
  (forall d n m,
      assoc "quantity" d = Some (PInt n) ->
      add_quantity (PDict d) (PInt m)
      = Ok (PDict (assoc_set "quantity" (PInt (n + m)) d))) /\
  (forall cls attrs n m,
      assoc "quantity" attrs = Some (PInt n) ->
      add_quantity (PObj cls attrs) (PInt m)
      = Ok (PObj cls (assoc_set "quantity" (PInt (n + m)) attrs))) /\
  (forall gw1 gw2 product_name product1 product2 pid,
      fetch_product gw1 product_name = Ok (Some product1) ->
      fetch_product gw2 product_name = Ok (Some product2) ->
      py_getitem product1 "id" = Ok (PStr pid) ->
      py_getitem product2 "id" = Ok (PStr pid) ->
      exists result1 result2,
        tool_add_to_cart gw1 product_name (PInt 1) []
        = Ok (result1, [new_line product1 (PInt 1)]) /\
        tool_add_to_cart gw2 product_name (PInt 1) [new_line product1 (PInt 1)]
        = Ok (result2, [new_line product1 (PInt 2)])).
Proof.
  split; [|split; [|split; [|split]]].
  - intros gw product_name quantity cart. apply tool_add_to_cart_preserves.
  - intros gw product_name quantity product_dict pid before item item' after.
    apply tool_add_to_cart_present.
  - apply add_quantity_int.
  - intros cls attrs n m Hq. unfold add_quantity. simpl. rewrite Hq.
    reflexivity.
  - intros gw1 gw2 product_name product1 product2 pid Hf1 Hf2 Hid1 Hid2.
    destruct (tool_add_to_cart_absent gw1 product_name (PInt 1)
                product1 pid [] Hf1 Hid1 (List.Forall_nil _)) as (r1 & Hr1 & _).
    destruct (fetch_product_shape _ _ _ Hf1) as (id & name & rest & ->).
    simpl in Hid1. injection Hid1 as ->.
    set (product1 := PDict (("id", PStr pid) :: ("name", name) :: rest)) in *.
    destruct (tool_add_to_cart_present gw2 product_name (PInt 1)
                product2 pid [] (new_line product1 (PInt 1))
                (new_line product1 (PInt 2)) [] Hf2 Hid2 (List.Forall_nil _)
                eq_refl eq_refl) as (r2 & Hr2 & _).
    exists r1, r2. split; [exact Hr1|exact Hr2].
Qed.

End AddToCart.

(** ** Properties of the tool dispatcher *)

Ltac run_m :=
  unfold mbind, lift, ret, modify, get, m_try in *; simpl in *.

Lemma m_try_returns {S A : Type} (body : M S A) (handler : exn -> M S A) s :
  (forall e s1, exists a s2, handler e s1 = (Ok a, s2)) ->
  exists a s', m_try body handler s = (Ok a, s').
Proof.
  intros Hh. unfold m_try. destruct (body s) as [[a|e] s1]; eauto.
Qed.


Section Console.
Context `{PyRuntime}.

(** What can always be printed: ASCII text, and any value that is not a
    string. *)
Lemma printable_ascii s : is_ascii s = true -> unprintable (PStr s) = false.
Proof. apply ascii_no_surrogate. Qed.

Lemma printable_dict v : isinstance_dict v = true -> unprintable v = false.
Proof. destruct v; simpl; try discriminate. reflexivity. Qed.

Lemma getitem_dict v k x : py_getitem v k = Ok x -> isinstance_dict v = true.
Proof. destruct v; simpl; try discriminate. reflexivity. Qed.

Lemma get_dict v k d x : py_get v k d = Ok x -> isinstance_dict v = true.
Proof. destruct v; simpl; try discriminate. reflexivity. Qed.

Lemma py_print_ok values :
  existsb unprintable values = false -> py_print values = Ok tt.
Proof. intros Hok. unfold py_print. rewrite Hok. reflexivity. Qed.

Lemma py_print_ok_inv values :
  py_print values = Ok tt -> existsb unprintable values = false.
Proof.
  unfold py_print. destruct (existsb unprintable values);
    [discriminate|reflexivity].
Qed.


(** A known tool called with a dictionary of arguments: the print before
    the [try] block goes through. *)
Lemma py_print_call s v :
  is_ascii s = true -> isinstance_dict v = true ->
  py_print [PStr s; v] = Ok tt.
Proof.
  intros Hs Hv. apply py_print_ok. cbn [existsb].
  rewrite (printable_ascii s Hs), (printable_dict v Hv). reflexivity.
Qed.

(** When the name has been printed with the arguments, it can be
    printed alone and with any dictionary. *)
Lemma py_print_name name v :
  py_print [name; v] = Ok tt -> py_print [name] = Ok tt.
Proof.
  intros Hok. apply py_print_ok_inv in Hok. apply py_print_ok.
  cbn [existsb] in *. apply orb_false_elim in Hok as [-> _]. reflexivity.
Qed.

Lemma py_print_name_dict name v result :
  py_print [name; v] = Ok tt -> isinstance_dict result = true ->
  py_print [name; result] = Ok tt.
Proof.
  intros Hok Hdict. apply py_print_ok_inv in Hok. apply py_print_ok.
  cbn [existsb] in *. apply orb_false_elim in Hok as [-> _].
  rewrite (printable_dict result Hdict). reflexivity.
Qed.

(** Once the name and the arguments are printed, the call is its [try]
    block. *)
Lemma handle_tool_call_printed gw tool_name tool_args m :
  py_print [tool_name; tool_args] = Ok tt ->
  handle_tool_call gw tool_name tool_args m = dispatch gw tool_name tool_args m.
Proof.
  intros Hok. unfold handle_tool_call, mbind, lift. rewrite Hok. reflexivity.
Qed.


End Console.

(** The print of a literal tool name with arguments that are a
    dictionary. *)
Ltac printed :=
  first
    [ assumption
    | apply py_print_call;
      [ reflexivity
      | first [ reflexivity
              | eapply getitem_dict; eassumption
              | eapply get_dict; eassumption
              | assumption ] ] ].

Section Dispatcher.
Context `{PyRuntime}.



Lemma getitem_get v k x d : py_getitem v k = Ok x -> py_get v k d = Ok x.
Proof.
  destruct v; simpl; try discriminate.
  destruct (assoc k d0); [trivial|discriminate].
Qed.








(** The query an order lookup makes returns no records. *)
Definition no_matching_orders (gw : Gateway) (order_number email : pyval)
  : Prop :=
  if py_truthy order_number then
    exists result,
      get_order_status gw order_number = Ok result /\
      py_getitem result "records" = Ok (PList [])
  else if py_truthy email then
    exists result,
      sf_query_orders gw (py_str email) = Ok result /\
      py_getitem result "records" = Ok (PList [])
  else True.

Lemma tool_lookup_order_no_orders gw order_number email :
  no_matching_orders gw order_number email ->
  tool_lookup_order gw order_number email = Ok no_orders_found.
Proof.
  unfold no_matching_orders, tool_lookup_order.
  destruct (py_truthy order_number).
  - intros (result & -> & Hrecords). simpl. rewrite Hrecords. reflexivity.
  - destruct (py_truthy email); [|reflexivity].
    intros (result & -> & Hrecords). simpl. rewrite Hrecords. reflexivity.
Qed.

(** C7. A [lookup_order_status] call whose query finds no order (the
    query by order number when one is given, else the query by email
    when one is given, and no query at all when neither is) returns
    success false with the message "No orders found", and leaves the
    client as it was. *)
Theorem lookup_order_status_no_orders gw tool_args order_number email m :
  py_get tool_args "order_number" PNone = Ok order_number ->
  py_get tool_args "email" PNone = Ok email ->
  no_matching_orders gw order_number email ->
  handle_tool_call gw (PStr "lookup_order_status") tool_args m
  = (Ok (PDict [("success", PBool false);
                ("message", PStr "No orders found")]), m).
Proof.
  intros Hnumber Hemail Hnone. apply tool_lookup_order_no_orders in Hnone.
  rewrite handle_tool_call_printed by printed.
  unfold dispatch, dispatch_body, mbind, lift, ret, m_try.
  cbn [py_eq_lit String.eqb Ascii.eqb Bool.eqb]. cbv beta.
  rewrite Hnumber, Hemail, Hnone. reflexivity.
Qed.

End Dispatcher.

(** ** Properties of the relay *)

(** [needle in hay] for strings: [needle] occurs somewhere in [hay]. *)
Definition is_substring (needle hay : string) : Prop :=
  exists before after, hay = before +:+ needle +:+ after.

Lemma prefix_spec needle hay :
  String.prefix needle hay = true <-> exists after, hay = needle +:+ after.
Proof.
  revert hay. induction needle as [|c needle IH]; intros hay.
  - destruct hay; simpl; (split; [intros _; eexists; reflexivity|reflexivity]).
  - destruct hay as [|c' hay]; simpl.
    + split; [discriminate|intros (after & Habs); discriminate].
    + destruct (ascii_dec c c') as [->|Hne].
      * rewrite IH. split; intros (after & Hafter); exists after.
        -- simpl. rewrite Hafter. reflexivity.
        -- simpl in Hafter. injection Hafter as ->. reflexivity.
      * split; [discriminate|].
        intros (after & Habs). simpl in Habs. injection Habs as -> _.
        contradiction.
Qed.

Lemma str_contains_spec needle hay :
  str_contains needle hay = true <-> is_substring needle hay.
Proof.
  unfold is_substring. induction hay as [|c hay IH].
  - change (str_contains needle "")
      with (String.prefix needle "" || false).
    rewrite orb_false_r, prefix_spec. split.
    + intros (after & Hafter). exists "", after. exact Hafter.
    + intros (before & after & Hhay). destruct before; simpl in Hhay.
      * exists after. exact Hhay.
      * discriminate.
  - change (str_contains needle (String c hay))
      with (String.prefix needle (String c hay) || str_contains needle hay).
    rewrite orb_true_iff, prefix_spec, IH. split.
    + intros [(after & Hafter)|(before & after & Hhay)].
      * exists "", after. exact Hafter.
      * exists (String c before), after. simpl. rewrite Hhay. reflexivity.
    + intros (before & after & Hhay). destruct before as [|c' before].
      * left. exists after. exact Hhay.
      * right. simpl in Hhay. injection Hhay as -> ->. eauto.
Qed.

Section RelayProperties.
Context `{PyRuntime}.

Arguments ignored_error : simpl never.

(** Some entry of the ignore list occurs in the message or in the code of
    the error. *)
Definition ignorable (error_msg error_code : pyval) : Prop :=
  exists ignore,
    In ignore ignore_errors /\
    (is_substring ignore (py_str error_msg) \/
     is_substring ignore (py_str error_code)).

Lemma ignorable_spec error_msg error_code :
  ignored_error error_msg error_code = true
  <-> ignorable error_msg error_code.
Proof.
  unfold ignorable, ignored_error. rewrite existsb_exists.
  split; intros (ignore & Hin & Hfound); exists ignore; (split; [exact Hin|]).
  - apply orb_true_iff in Hfound.
    rewrite !str_contains_spec in Hfound. exact Hfound.
  - apply orb_true_iff. rewrite !str_contains_spec. exact Hfound.
Qed.

Lemma send_message_delivered session_id websocket message w :
  active_connections (manager w) !! session_id = Some websocket ->
  delivered (send_message session_id message w)
  = delivered w ++ [(websocket, message)].
Proof. intros Hc. unfold send_message. rewrite Hc. reflexivity. Qed.

Lemma not_self_append {A : Type} (l : list A) (x : A) : l <> l ++ [x].
Proof.
  intros Heq. apply (f_equal (@length A)) in Heq.
  rewrite length_app in Heq. simpl in Heq. lia.
Qed.

(** What the relay does with a "user started speaking" event: one
    [user_speaking] frame to the browser, and nothing else. *)
Lemma speech_started_relay gw session_id event w :
  py_get event "type" PNone = Ok (PStr "input_audio_buffer.speech_started") ->
  handle_voice_event gw session_id event w
  = (Ok tt, send_message session_id (event_of_type "user_speaking") w).
Proof.
  intros Htype. unfold handle_voice_event. run_m. rewrite Htype. reflexivity.
Qed.

(** C5. An upstream [response.audio.delta] event that carries a delta
    is forwarded to the session's browser socket, as one [audio_delta]
    frame holding that delta unchanged, exactly when the session's
    voice-mode flag is true, and is dropped otherwise; the user and the
    assistant transcript events are forwarded whatever the flag is. *)
Theorem audio_delta_gated_by_voice_mode gw session_id websocket w :
  active_connections (manager w) !! session_id = Some websocket ->
  (forall event delta,
      py_get event "type" PNone = Ok (PStr "response.audio.delta") ->
      py_getitem event "delta" = Ok delta ->
      exists w',
        handle_voice_event gw session_id event w = (Ok tt, w') /\
        (delivered w'
         = delivered w
             ++ [(websocket,
                  PDict [("type", PStr "audio_delta"); ("audio", delta)])]
         <-> voice_mode_active (manager w) !! session_id = Some true) /\
        (voice_mode_active (manager w) !! session_id <> Some true ->
         w' = w)) /\
  (forall event transcript,
      py_get event "type" PNone
      = Ok (PStr "conversation.item.input_audio_transcription.completed") ->
      py_getitem event "transcript" = Ok transcript ->
      exists w',
        handle_voice_event gw session_id event w = (Ok tt, w') /\
        delivered w'
        = delivered w
            ++ [(websocket,
                 PDict [("type", PStr "user_message");
                        ("content", transcript); ("mode", PStr "voice")])]) /\
  (forall event transcript,
      py_get event "type" PNone = Ok (PStr "response.audio_transcript.done") ->
      py_getitem event "transcript" = Ok transcript ->
      exists w',
        handle_voice_event gw session_id event w = (Ok tt, w') /\
        delivered w'
        = delivered w
            ++ [(websocket,
                 PDict [("type", PStr "assistant_message");
                        ("content", transcript); ("mode", PStr "voice")])]).
Proof.
  intros Hconn. repeat split.
  - intros event delta Htype Hdelta.
    unfold handle_voice_event. run_m. rewrite Htype. simpl.
    destruct (voice_mode_active (manager w) !! session_id) as [[|]|] eqn:Hflag;
      simpl.
    + rewrite Hdelta. eexists. split; [reflexivity|]. split.
      * split; [reflexivity|]. intros _.
        apply send_message_delivered, Hconn.
      * intros Hne. contradiction.
    + eexists. split; [reflexivity|]. split; [|reflexivity].
      split; [|discriminate]. intros Habs.
      exfalso. apply not_self_append in Habs. exact Habs.
    + eexists. split; [reflexivity|]. split; [|reflexivity].
      split; [|discriminate]. intros Habs.
      exfalso. apply not_self_append in Habs. exact Habs.
  - intros event transcript Htype Htranscript.
    unfold handle_voice_event. run_m. rewrite Htype. simpl.
    rewrite Htranscript. eexists. split; [reflexivity|].
    apply send_message_delivered, Hconn.
  - intros event transcript Htype Htranscript.
    unfold handle_voice_event. run_m. rewrite Htype. simpl.
    rewrite Htranscript. eexists. split; [reflexivity|].
    apply send_message_delivered, Hconn.
Qed.

(** C9. An upstream error event is forwarded to the session's browser
    socket, as an [error] frame with the error's message, exactly when no
    entry of the ignore list occurs in the message or in the code (each
    taken through [str]); an error in which one occurs changes nothing. *)
Theorem error_forwarded_unless_ignorable
    gw session_id websocket w event error error_msg error_code :
  active_connections (manager w) !! session_id = Some websocket ->
  py_get event "type" PNone = Ok (PStr "error") ->
  py_get event "error" (PDict []) = Ok error ->
  py_get error "message" (PStr "") = Ok error_msg ->
  py_get error "code" (PStr "") = Ok error_code ->
  exists w',
    handle_voice_event gw session_id event w = (Ok tt, w') /\
    (delivered w'
     = delivered w
         ++ [(websocket, PDict [("type", PStr "error");
                                ("message", error_msg)])]
     <-> ~ ignorable error_msg error_code) /\
    (ignorable error_msg error_code -> w' = w).
Proof.
  intros Hconn Htype Herror Hmsg Hcode.
  unfold handle_voice_event. run_m. rewrite Htype. simpl.
  rewrite Herror, Hmsg, Hcode.
  destruct (ignored_error error_msg error_code) eqn:Hflag.
  - apply ignorable_spec in Hflag.
    eexists. split; [reflexivity|]. split; [|reflexivity].
    split; [|contradiction]. intros Habs.
    exfalso. apply not_self_append in Habs. exact Habs.
  - assert (Hclean : ~ ignorable error_msg error_code).
    { intros Hig. apply ignorable_spec in Hig. congruence. }
    eexists. split; [reflexivity|]. split; [|contradiction].
    split; [intros _; exact Hclean|].
    intros _. apply send_message_delivered, Hconn.
Qed.

(** Sending a tool result upstream leaves the client's state alone. *)
Lemma send_tool_response_state call_id output m :
  exists m',
    send_tool_response call_id output m = (Ok tt, m') /\
    state (self m') = state (self m) /\ carts m' = carts m.
Proof.
  unfold send_tool_response. run_m.
  destruct (ws_open (self m)); simpl; [|eauto].
  destruct (json_dumps output); simpl; eauto.
Qed.

Lemma send_message_manager session_id message w :
  manager (send_message session_id message w) = manager w.
Proof.
  unfold send_message.
  destruct (active_connections (manager w) !! session_id); reflexivity.
Qed.

Lemma send_message_sessions session_id message w :
  active_sessions (send_message session_id message w) = active_sessions w.
Proof.
  unfold send_message.
  destruct (active_connections (manager w) !! session_id); reflexivity.
Qed.

Lemma send_message_objects session_id message w :
  objects (send_message session_id message w) = objects w.
Proof.
  unfold send_message.
  destruct (active_connections (manager w) !! session_id); reflexivity.
Qed.





End RelayProperties.

(** ** Properties of the session registry *)

(** The session is in none of the manager's three maps. *)
Definition unknown_session (session_id : string) (w : World) : Prop :=
  active_connections (manager w) !! session_id = None /\
  voice_clients (manager w) !! session_id = None /\
  voice_mode_active (manager w) !! session_id = None.

Lemma disconnect_unknown session_id w :
  unknown_session session_id w -> disconnect session_id w = w.
Proof.
  intros (Hc & Hv & Hm). unfold disconnect.
  destruct (decide (is_Some (active_connections (manager w) !! session_id)))
    as [Habs|_].
  { rewrite Hc in Habs. destruct (is_Some_None Habs). }
  rewrite Hv.
  destruct (decide (is_Some (voice_mode_active (manager w) !! session_id)))
    as [Habs|_].
  { rewrite Hm in Habs. destruct (is_Some_None Habs). }
  reflexivity.
Qed.

Lemma disconnect_forgets session_id w :
  unknown_session session_id (disconnect session_id w).
Proof.
  unfold disconnect.
  set (w1 := if decide (is_Some (active_connections (manager w)
                                   !! session_id)) then _ else w).
  assert (H1 : active_connections (manager w1) !! session_id = None).
  { subst w1. destruct (decide _) as [Hc|Hc]; simpl.
    - apply lookup_delete_eq.
    - apply eq_None_not_Some, Hc. }
  set (w2 := match voice_clients (manager w1) !! session_id with
             | Some c => close_and_forget session_id c w1
             | None => w1
             end).
  assert (H2 : active_connections (manager w2) !! session_id = None /\
               voice_clients (manager w2) !! session_id = None).
  { subst w2. destruct (voice_clients (manager w1) !! session_id) eqn:Hv;
      simpl.
    - split; [exact H1|apply lookup_delete_eq].
    - split; [exact H1|exact Hv]. }
  destruct H2 as [H2 H3].
  destruct (decide (is_Some (voice_mode_active (manager w2) !! session_id)))
    as [Hm|Hm]; unfold unknown_session; simpl.
  - repeat split; [exact H2|exact H3|apply lookup_delete_eq].
  - repeat split; [exact H2|exact H3|apply eq_None_not_Some, Hm].
Qed.

(** C8. Tearing a session down is idempotent: on a session that is in
    none of the manager's maps (never opened, or closed already)
    [disconnect] changes nothing, neither the connection, voice-client
    and voice-mode maps nor anything else of the process, and closing a
    session twice leaves the process as closing it once does. *)
Theorem disconnect_idempotent :
  (forall session_id w,
      unknown_session session_id w -> disconnect session_id w = w) /\
  (forall session_id w,
      disconnect session_id (disconnect session_id w)
      = disconnect session_id w).
Proof.
  split.
  - apply disconnect_unknown.
  - intros session_id w. apply disconnect_unknown, disconnect_forgets.
Qed.

(** ** Properties of the listen loop *)

Section ListenProperties.
Context `{PyRuntime} (session_settings : pyval).

(** The messages of the list are decoded and handled one after the
    other without an exception, taking the client from [m] to [m']. *)
Inductive handles (gw : Gateway) : list pyval -> ClientMem -> ClientMem
    -> Prop :=
| handles_nil m : handles gw [] m m
| handles_cons message rest m m1 m' :
    handle_message gw message m = (Ok tt, m1) ->
    handles gw rest m1 m' ->
    handles gw (message :: rest) m m'.

Lemma drain_handles gw L before rest fin log m m1 :
  handles gw before m m1 ->
  drain gw L (before ++ rest) fin log m
  = drain gw L rest fin (log ++ map Received before) m1.
Proof.
  intros Hh. revert log. induction Hh as [m|message tl m m1 m' Hstep _ IH];
    intros log.
  - simpl. rewrite app_nil_r. reflexivity.
  - simpl app. cbn [drain]. unfold handle_message in Hstep. rewrite Hstep.
    rewrite IH. simpl map. rewrite <- app_assoc. reflexivity.
Qed.

(** The client right after a successful [connect()] of the listener. *)
Definition connected_mem (L : Listener) : ClientMem :=
  ws_send (PDict [("type", PStr "session.update");
                  ("session", session_settings)])
    (set_socket Open true true (mem L)).

(** The connect attempt ends in [ConnectionClosed], raised by
    [websockets.connect] or by the send of [configure_session]. *)
Definition closed_on_connect (a : Attempt) : Prop :=
  a = Failed ConnectionClosed \/ a = Dropped ConnectionClosed.

(** What the bookkeeping of [listen] never touches: the session id, the
    state, what has been sent and the list objects. *)
Definition apart_from_socket (m : ClientMem)
  : pyval * AgentState * list pyval * list (list pyval) :=
  (session_id (self m), state (self m), sent (self m), carts m).

(** [L1] is [L] after one more connect attempt that failed, and the
    observation [o]. *)
Definition retried (o : Obs) (L L1 : Listener) : Prop :=
  ws_open (self (mem L1)) = false /\
  attempts L1 = S (attempts L) /\
  trace L1 = trace L ++ [Connecting (attempts L); o] /\
  connected_mem L1 = connected_mem L /\
  apart_from_socket (mem L1) = apart_from_socket (mem L).

Lemma refused_retried o T L :
  ws_open (self (mem L)) = false ->
  closed_on_connect (T (attempts L)) ->
  retried o L
    (log_obs o (mark_disconnected (snd (connect session_settings T L)))).
Proof.
  intros Hclosed Hfail. unfold connect, retried.
  destruct Hfail as [-> | ->];
    cbn [snd mark_disconnected log_obs mem attempts trace live];
    (split; [unfold ws_open in *; simpl; try exact Hclosed; reflexivity|]);
    (split; [reflexivity|]);
    (split; [rewrite <- app_assoc; reflexivity|]);
    split; reflexivity.
Qed.

(** A round on a listener without an open socket whose connect attempt
    ends in [ConnectionClosed]. *)
Lemma listen_round_refused gw T retry_count L :
  ws_open (self (mem L)) = false ->
  closed_on_connect (T (attempts L)) ->
  listen_round session_settings gw T retry_count L
  = (Raised ConnectionClosed, retry_count, snd (connect session_settings T L)).
Proof.
  intros Hclosed Hfail. unfold listen_round, connect. rewrite Hclosed.
  destruct Hfail as [-> | ->]; reflexivity.
Qed.

(** Such a round below the retry limit: sleep, then the next round. *)
Lemma listen_loop_refused fuel gw T retry_count L :
  ws_open (self (mem L)) = false ->
  closed_on_connect (T (attempts L)) ->
  retry_count + 1 < max_retries ->
  listen_loop session_settings (S fuel) gw T retry_count L
  = listen_loop session_settings fuel gw T (retry_count + 1)
      (log_obs (Sleeping (Z.min (2 ^ (retry_count + 1)) 10))
         (mark_disconnected (snd (connect session_settings T L)))).
Proof.
  intros Hclosed Hfail Hlt. cbn [listen_loop].
  destruct (Z.ltb_spec retry_count max_retries) as [_|Hge]; [|lia].
  rewrite (listen_round_refused gw T retry_count L Hclosed Hfail).
  cbn [after_round].
  destruct (Z.ltb_spec (retry_count + 1) max_retries) as [_|Hge]; [|lia].
  reflexivity.
Qed.

(** The same at the retry limit: [listen] gives up. *)
Lemma listen_loop_exhausted fuel gw T retry_count L :
  ws_open (self (mem L)) = false ->
  closed_on_connect (T (attempts L)) ->
  retry_count < max_retries <= retry_count + 1 ->
  listen_loop session_settings (S fuel) gw T retry_count L
  = (Returned,
     log_obs MaxRetriesReached
       (mark_disconnected (snd (connect session_settings T L)))).
Proof.
  intros Hclosed Hfail Hlt. cbn [listen_loop].
  destruct (Z.ltb_spec retry_count max_retries) as [_|Hge]; [|lia].
  rewrite (listen_round_refused gw T retry_count L Hclosed Hfail).
  cbn [after_round].
  destruct (Z.ltb_spec (retry_count + 1) max_retries) as [Habs|_]; [lia|].
  reflexivity.
Qed.

(** The listener once the messages of the connection it has just opened
    are handled, the client being [m']. *)
Definition listening (L : Listener) (s : Stream) (m' : ClientMem)
  : Listener :=
  {| mem := m';
     live := Some {| messages := []; finish := finish s |};
     attempts := S (attempts L);
     trace := trace L ++ Connecting (attempts L) :: map Received (messages s)
  |}.

(** A round whose connect attempt succeeds: the messages of the new
    connection are handled; then [listen] waits for the next message,
    or goes on without a socket when the connection has ended, after 2
    seconds when it was dropped. *)
Lemma listen_loop_accepted fuel gw T retry_count L s m' :
  ws_open (self (mem L)) = false ->
  retry_count < max_retries ->
  T (attempts L) = Accepted s ->
  handles gw (messages s) (connected_mem L) m' ->
  listen_loop session_settings (S fuel) gw T retry_count L
  = let L1 := listening L s m' in
    match finish s with
    | StaysOpen => (Waiting, L1)
    | ClosesNormally =>
        listen_loop session_settings fuel gw T 0
          (close_socket L1 (trace L1) m')
    | ClosesAbnormally =>
        listen_loop session_settings fuel gw T 1
          (log_obs (Sleeping 2)
             (mark_disconnected (close_socket L1 (trace L1) m')))
    end.
Proof.
  intros Hclosed Hlt Haccept Hhandled. cbn [listen_loop].
  destruct (Z.ltb_spec retry_count max_retries) as [_|Hge]; [|lia].
  unfold listen_round, connect. rewrite Hclosed, Haccept. simpl negb.
  cbv iota. unfold read_socket. cbn [live messages finish trace mem attempts].
  fold (connected_mem L).
  rewrite <- (app_nil_r (messages s)) at 1.
  rewrite (drain_handles gw _ (messages s) [] (finish s) _ _ m' Hhandled).
  cbn [drain]. unfold listening. rewrite <- app_assoc. cbn [app].
  destruct (finish s); cbn [after_round]; reflexivity.
Qed.

(** A round on an open connection that is dropped once its messages are
    handled, below the retry limit: the drop counts as a retry. *)
Lemma listen_loop_dropped fuel gw T retry_count L s m' :
  ws_open (self (mem L)) = true ->
  live L = Some s ->
  finish s = ClosesAbnormally ->
  handles gw (messages s) (mem L) m' ->
  retry_count + 1 < max_retries ->
  listen_loop session_settings (S fuel) gw T retry_count L
  = listen_loop session_settings fuel gw T (retry_count + 1)
      (log_obs (Sleeping (Z.min (2 ^ (retry_count + 1)) 10))
         (mark_disconnected
            (close_socket L (trace L ++ map Received (messages s)) m'))).
Proof.
  intros Hopen Hlive Hfin Hhandled Hlt. cbn [listen_loop].
  destruct (Z.ltb_spec retry_count max_retries) as [_|Hge]; [|lia].
  unfold listen_round. rewrite Hopen. simpl negb. cbv iota.
  unfold read_socket. rewrite Hlive.
  rewrite <- (app_nil_r (messages s)) at 1.
  rewrite (drain_handles gw _ (messages s) [] (finish s) _ _ m' Hhandled).
  rewrite Hfin. cbn [drain after_round].
  destruct (Z.ltb_spec (retry_count + 1) max_retries) as [_|Hge]; [|lia].
  reflexivity.
Qed.

(** C3 (amended).  Connect attempts that end in [ConnectionClosed] are
    retried, three in a row at most, with a wait of
    [min(2 ** retry_count, 10)] seconds after each failure.  When
    [listen] starts without an open socket (before any [connect()], or
    after a connection that ended normally), the first two attempts fail
    and the third succeeds, it sleeps 2 and then 4 seconds, reconnects
    and handles the messages of the new connection with nothing asked
    of the caller: it is then waiting for the next message with the
    client as the handlers left it, or goes on without a socket when
    that connection has ended.  When [listen] starts on an open
    connection that is dropped, the drop itself counts as a retry: after
    two failed attempts [listen] gives up, and a third attempt is never
    made.  When every attempt fails, [listen] makes three attempts from
    a start without a socket, notes that the maximum of retries is
    reached and returns. *)
Theorem listen_retries_closed_connections :
  (forall gw T L s m' fuel,
      ws_open (self (mem L)) = false ->
      closed_on_connect (T (attempts L)) ->
      closed_on_connect (T (S (attempts L))) ->
      T (S (S (attempts L))) = Accepted s ->
      handles gw (messages s) (connected_mem L) m' ->
      let L3 :=
        {| mem := m';
           live := Some {| messages := []; finish := finish s |};
           attempts := (attempts L + 3)%nat;
           trace := trace L
                    ++ [Connecting (attempts L); Sleeping 2;
                        Connecting (S (attempts L)); Sleeping 4;
                        Connecting (S (S (attempts L)))]
                    ++ map Received (messages s) |} in
      listen session_settings (3 + fuel) gw T L
      = match finish s with
        | StaysOpen => (Waiting, L3)
        | ClosesNormally =>
            listen_loop session_settings fuel gw T 0
              (close_socket L3 (trace L3) m')
        | ClosesAbnormally =>
            listen_loop session_settings fuel gw T 1
              (log_obs (Sleeping 2)
                 (mark_disconnected (close_socket L3 (trace L3) m')))
        end) /\
  (forall gw T L s m' fuel,
      ws_open (self (mem L)) = true ->
      live L = Some s ->
      finish s = ClosesAbnormally ->
      handles gw (messages s) (mem L) m' ->
      closed_on_connect (T (attempts L)) ->
      closed_on_connect (T (S (attempts L))) ->
      exists L',
        listen session_settings (3 + fuel) gw T L = (Returned, L') /\
        attempts L' = (attempts L + 2)%nat /\
        trace L'
        = trace L ++ map Received (messages s)
          ++ [Sleeping 2; Connecting (attempts L); Sleeping 4;
              Connecting (S (attempts L)); MaxRetriesReached] /\
        ws_open (self (mem L')) = false /\
        apart_from_socket (mem L') = apart_from_socket m') /\
  (forall gw T L fuel,
      ws_open (self (mem L)) = false ->
      (forall n, closed_on_connect (T n)) ->
      exists L',
        listen session_settings (3 + fuel) gw T L = (Returned, L') /\
        attempts L' = (attempts L + 3)%nat /\
        trace L'
        = trace L
          ++ [Connecting (attempts L); Sleeping 2;
              Connecting (S (attempts L)); Sleeping 4;
              Connecting (S (S (attempts L))); MaxRetriesReached] /\
        ws_open (self (mem L')) = false /\
        apart_from_socket (mem L') = apart_from_socket (mem L)) /\
  (forall retry_count L,
      retry_count + 1 < max_retries ->
      after_round (Raised ConnectionClosed, retry_count, L)
      = inr (retry_count + 1,
             log_obs (Sleeping (Z.min (2 ^ (retry_count + 1)) 10))
               (mark_disconnected L))).
Proof.
  split; [|split; [|split]].
  - intros gw T L s m' fuel Hclosed H0 H1 H2 Hhandled L3. subst L3.
    change (3 + fuel)%nat with (S (S (S fuel))). unfold listen.
    rewrite listen_loop_refused by (try assumption; reflexivity).
    destruct (refused_retried (Sleeping (Z.min (2 ^ (0 + 1)) 10)) T L
                Hclosed H0) as (Hc1 & Ha1 & Ht1 & Hm1 & _).
    set (L1 := log_obs _ _) in *.
    rewrite <- Ha1 in H1, H2.
    rewrite listen_loop_refused by (try assumption; reflexivity).
    destruct (refused_retried (Sleeping (Z.min (2 ^ (0 + 1 + 1)) 10)) T L1
                Hc1 H1) as (Hc2 & Ha2 & Ht2 & Hm2 & _).
    set (L2 := log_obs _ (mark_disconnected (snd (connect _ T L1)))) in *.
    rewrite <- Ha2 in H2. rewrite <- Hm1, <- Hm2 in Hhandled.
    pose proof (listen_loop_accepted fuel gw T (0 + 1 + 1) L2 s m' Hc2
                  eq_refl H2 Hhandled) as Hrun.
    cbv zeta in Hrun. rewrite Hrun. clear Hrun. unfold listening.
    rewrite Ha2, Ht2, Ht1, Ha1.
    change (Z.min (2 ^ (0 + 1)) 10) with 2.
    change (Z.min (2 ^ (0 + 1 + 1)) 10) with 4.
    replace (attempts L + 3)%nat with (S (S (S (attempts L)))) by lia.
    repeat rewrite <- app_assoc. cbn [app]. reflexivity.
  - intros gw T L s m' fuel Hopen Hlive Hfin Hhandled H0 H1.
    change (3 + fuel)%nat with (S (S (S fuel))). unfold listen.
    rewrite (listen_loop_dropped _ gw T 0 L s m' Hopen Hlive Hfin Hhandled
               eq_refl).
    set (L1 := log_obs _ _).
    assert (Hc1 : ws_open (self (mem L1)) = false) by reflexivity.
    assert (Ha1 : attempts L1 = attempts L) by reflexivity.
    rewrite <- Ha1 in H0, H1.
    rewrite listen_loop_refused by (try assumption; reflexivity).
    destruct (refused_retried (Sleeping (Z.min (2 ^ (0 + 1 + 1)) 10)) T L1
                Hc1 H0) as (Hc2 & Ha2 & Ht2 & _ & Hk2).
    set (L2 := log_obs _ (mark_disconnected (snd (connect _ T L1)))) in *.
    rewrite <- Ha2 in H1.
    rewrite listen_loop_exhausted
      by (try assumption; unfold max_retries; lia).
    destruct (refused_retried MaxRetriesReached T L2 Hc2 H1)
      as (Hc3 & Ha3 & Ht3 & _ & Hk3).
    eexists. split; [reflexivity|]. rewrite Ha3, Ht3, Hc3, Hk3, Ha2, Ht2, Hk2.
    rewrite Ha1. subst L1.
    cbn [trace log_obs mark_disconnected close_socket].
    change (Z.min (2 ^ (0 + 1)) 10) with 2.
    change (Z.min (2 ^ (0 + 1 + 1)) 10) with 4.
    split; [lia|]. split; [|split; reflexivity].
    repeat rewrite <- app_assoc. reflexivity.
  - intros gw T L fuel Hclosed Hfail.
    change (3 + fuel)%nat with (S (S (S fuel))). unfold listen.
    rewrite listen_loop_refused by (try assumption; try apply Hfail;
                                    reflexivity).
    destruct (refused_retried (Sleeping (Z.min (2 ^ (0 + 1)) 10)) T L
                Hclosed (Hfail _)) as (Hc1 & Ha1 & Ht1 & _ & Hk1).
    set (L1 := log_obs _ _) in *.
    rewrite listen_loop_refused by (try assumption; try apply Hfail;
                                    reflexivity).
    destruct (refused_retried (Sleeping (Z.min (2 ^ (0 + 1 + 1)) 10)) T L1
                Hc1 (Hfail _)) as (Hc2 & Ha2 & Ht2 & _ & Hk2).
    set (L2 := log_obs _ (mark_disconnected (snd (connect _ T L1)))) in *.
    rewrite listen_loop_exhausted
      by (try assumption; try apply Hfail; unfold max_retries; lia).
    destruct (refused_retried MaxRetriesReached T L2 Hc2 (Hfail _))
      as (Hc3 & Ha3 & Ht3 & _ & Hk3).
    eexists. split; [reflexivity|]. rewrite Ha3, Ht3, Hc3, Hk3, Ha2, Ht2, Hk2.
    rewrite Ha1, Ht1, Hk1.
    change (Z.min (2 ^ (0 + 1)) 10) with 2.
    change (Z.min (2 ^ (0 + 1 + 1)) 10) with 4.
    split; [lia|]. split; [|split; reflexivity].
    repeat rewrite <- app_assoc. reflexivity.
  - intros retry_count L Hlt. cbn [after_round].
    destruct (Z.ltb_spec (retry_count + 1) max_retries) as [_|Hge];
      [reflexivity|lia].
Qed.

End ListenProperties.

(** ** Worked examples

    A runtime to evaluate the embedding on concrete inputs: [str] and [==]
    are exact on [None], booleans, integers and strings, which is all the
    examples put through them; the JSON and base64 codecs are stand-ins
    that know the few texts used below. *)

Definition sample_str (v : pyval) : string :=
  match v with
  | PStr s => s
  | PNone => "None"
  | PBool true => "True"
  | PBool false => "False"
  | PInt z => pretty z
  | PFloat _ => "<float>"
  | PList _ => "<list>"
  | PDict _ => "<dict>"
  | PObj cls _ => "<" +:+ cls +:+ ">"
  end.

Definition sample_eq (a b : pyval) : bool :=
  match a, b with
  | PStr s, PStr t => String.eqb s t
  | PNone, PNone => true
  | _, _ =>
      match as_int a, as_int b with
      | Some x, Some y => Z.eqb x y
      | _, _ => false
      end
  end.

Definition sample_exn_str (e : exn) : string :=
  match e with
  | KeyError key => "'" +:+ sample_str key +:+ "'"
  | IndexError => "list index out of range"
  | TypeError => "unsupported operand"
  | AttributeError attr => "object has no attribute '" +:+ attr +:+ "'"
  | OverflowError => "int too large to convert to float"
  | ConnectionClosed => "no close frame received or sent"
  | UnicodeEncodeError => "'utf-8' codec can't encode: surrogates not allowed"
  | OtherError msg => msg
  end.

(** The sample runtime reads a string as UTF-8 bytes, with a surrogate as
    the three bytes the [surrogatepass] handler writes for it: 237, then
    a byte from 160 on, then one more. *)
Fixpoint sample_has_surrogate (s : string) : bool :=
  match s with
  | String c rest =>
      match rest with
      | String d _ =>
          (Nat.eqb (nat_of_ascii c) 237 && Nat.leb 160 (nat_of_ascii d))
          || sample_has_surrogate rest
      | EmptyString => false
      end
  | EmptyString => false
  end.

Lemma sample_ascii_no_surrogate s :
  is_ascii s = true -> sample_has_surrogate s = false.
Proof.
  induction s as [|c rest IH]; [reflexivity|].
  unfold is_ascii. cbn [list_ascii_of_string forallb]. intros Hall.
  apply andb_prop in Hall as [Hc Hrest].
  cbn [sample_has_surrogate]. destruct rest as [|d rest']; [reflexivity|].
  rewrite (IH Hrest). apply Nat.ltb_lt in Hc.
  destruct (Nat.eqb_spec (nat_of_ascii c) 237) as [Heq|_]; [lia|].
  reflexivity.
Qed.


Lemma sample_eq_str v s : sample_eq v (PStr s) = true <-> v = PStr s.
Proof.
  destruct v as [|b| | |t| | |]; simpl; try (split; discriminate).
  rewrite String.eqb_eq. split; congruence.
Qed.

(** The JSON text of an event that has only a type. *)
Definition json_event_text (type : string) : string :=
  let quote := String (ascii_of_nat 34) "" in
  "{" +:+ quote +:+ "type" +:+ quote +:+ ": " +:+ quote +:+ type +:+ quote
  +:+ "}".

Definition ann : pyval :=
  PDict [("name", PStr "Ann Lee"); ("email", PStr "ann@example.com")].

Definition order_for_ann : pyval :=
  PDict [("customer", ann);
         ("items", PList [PDict [("pricebook_entry_id", PStr "01u5g000001");
                                 ("quantity", PInt 1)]])].

(** The JSON text of [order_for_ann]. *)
Definition order_for_ann_text : string :=
  let q := fun t => String (ascii_of_nat 34) t +:+ String (ascii_of_nat 34) ""
  in
  "{" +:+ q "customer" +:+ ": {" +:+ q "name" +:+ ": " +:+ q "Ann Lee"
  +:+ ", " +:+ q "email" +:+ ": " +:+ q "ann@example.com" +:+ "}, "
  +:+ q "items" +:+ ": [{" +:+ q "pricebook_entry_id" +:+ ": "
  +:+ q "01u5g000001" +:+ ", " +:+ q "quantity" +:+ ": 1}]}".

Definition sample_loads (text : pyval) : res pyval :=
  match text with
  | PStr t =>
      if String.eqb t (json_event_text "response.done")
      then Ok (event_of_type "response.done")
      else if String.eqb t
                (json_event_text "input_audio_buffer.speech_stopped")
      then Ok (event_of_type "input_audio_buffer.speech_stopped")
      else if String.eqb t order_for_ann_text then Ok order_for_ann
      else if String.eqb t "{}" then Ok (PDict [])
      else Raise (OtherError "Expecting value")
  | _ => Raise TypeError
  end.

Definition sample_runtime : PyRuntime :=
  {| py_str := sample_str;
     exn_str := sample_exn_str;
     py_eq := sample_eq;
     json_loads := sample_loads;
     json_dumps := fun v => Ok (sample_str v);
     b64decode := fun v => match v with
                           | PStr t => Ok (PStr t)
                           | _ => Raise TypeError
                           end;
     has_surrogate := sample_has_surrogate;
     py_str_str := fun s => eq_refl;
     py_eq_str := sample_eq_str;
     ascii_no_surrogate := sample_ascii_no_surrogate |}.

(** A catalog with one wallet and no orders; it refuses every order. *)
Definition wallet_record : pyval :=
  PDict [("Id", PStr "01t5g000001");
         ("Name", PStr "Men's Bifold Wallet - Black Leather");
         ("PricebookEntries",
          PDict [("records",
                  PList [PDict [("Id", PStr "01u5g000001");
                                ("UnitPrice", PFloat 45%float)]])])].

Definition wallet : pyval :=
  PDict [("id", PStr "01t5g000001");
         ("name", PStr "Men's Bifold Wallet - Black Leather");
         ("price", PFloat 45%float); ("description", PStr "");
         ("color", PStr ""); ("size", PStr ""); ("product_code", PStr "");
         ("pricebook_entry_id", PStr "01u5g000001");
         ("category", PStr ""); ("image_url", PStr "")].

Definition no_records : pyval := PDict [("records", PList [])].

Definition shop : Gateway :=
  {| sf_query_product := fun name =>
       if String.eqb name
            (escape_quotes "Men's Bifold Wallet - Black Leather")
       then Ok (PDict [("records", PList [wallet_record])])
       else Ok no_records;
     get_order_status := fun _ => Ok no_records;
     sf_query_orders := fun _ => Ok no_records;
     tool_search_products := fun _ => Ok (PList []);
     tool_place_order := fun _ _ _ =>
       Ok (failure "Failed to create order") |}.


(** A backend that is down. *)
Definition unreachable_shop : Gateway :=
  {| sf_query_product := fun _ => Raise (OtherError "Salesforce unavailable");
     get_order_status := fun _ => Raise (OtherError "Salesforce unavailable");
     sf_query_orders := fun _ => Raise (OtherError "Salesforce unavailable");
     tool_search_products := fun _ =>
       Raise (OtherError "Salesforce unavailable");
     tool_place_order := fun _ _ _ =>
       Raise (OtherError "Salesforce unavailable") |}.

Definition wallet_line : pyval :=
  PDict [("product", wallet); ("quantity", PInt 2)].

Definition sneaker_item : pyval :=
  PObj "CartItem"
    [("product",
      PObj "Product" [("id", PStr "01t5g000002");
                      ("name", PStr "White Sneakers");
                      ("price", PFloat 59.5%float)]);
     ("quantity", PInt 1)].

Definition broken_line : pyval :=
  PDict [("product", PNone); ("quantity", PInt 3)].

(** One session, "s1": browser socket 7, an open voice client, voice
    mode on. *)
Definition open_client : RealtimeVoiceClient :=
  {| ws := Open; session_id := PStr "s1";
     state := {| cart := 0%nat; customer := PNone; order_number := PNone;
                 conversation_history := [] |};
     keepalive_task := true; is_connected := true; sent := [] |}.

Definition one_session : World :=
  {| manager :=
       {| active_connections := {[ "s1" := 7%nat ]};
          voice_clients := {[ "s1" := open_client ]};
          voice_mode_active := {[ "s1" := true ]} |};
     active_sessions := {[ "s1" := {| session_cart := 0%nat;
                                     voice_mode := false |} ]};
     objects := [[]];
     delivered := [];
     upstream_closed := [] |}.

Definition speech_started : pyval :=
  event_of_type "input_audio_buffer.speech_started".


(** Transports: two connections that are closed before the session is
    configured and then a good one; one that is closed every time; one
    that is refused (an [OSError]) twice and then would connect; and one
    whose first connection is dropped after two messages, with two
    closed connections and then a good one behind it. *)
Definition two_messages : Stream :=
  {| messages := [PStr (json_event_text "input_audio_buffer.speech_stopped");
                  PStr (json_event_text "response.done")];
     finish := StaysOpen |}.

Definition third_time_lucky : Transport :=
  fun n => if (n <? 2)%nat then Dropped ConnectionClosed
           else Accepted two_messages.

Definition always_closed : Transport := fun _ => Dropped ConnectionClosed.

Definition dropped_after_two : Stream :=
  {| messages := messages two_messages; finish := ClosesAbnormally |}.

Definition dropped_then_lucky : Transport :=
  fun n => if (n <? 1)%nat then Accepted dropped_after_two
           else if (n <? 3)%nat then Dropped ConnectionClosed
           else Accepted two_messages.

Definition refused_twice : Transport :=
  fun n => if (n <? 2)%nat then Failed (OtherError "Connection refused")
           else Accepted two_messages.

(** *** The cart total on a mixed cart *)

Lemma broken_line_malformed : malformed broken_line.
Proof.
  intros a (price & quantity & v & Hpq & _).
  inversion Hpq; discriminate.
Defined.

Lemma mixed_cart_values :
  Forall2 line_value [wallet_line; sneaker_item] [90%float; 59.5%float].
Proof.
  repeat constructor.
  - exists (PFloat 45%float), (PInt 2), (PFloat 90%float).
    split; [|split; vm_compute; reflexivity].
    unfold wallet_line, wallet.
    exact (pq_dict [("product", _); ("quantity", PInt 2)]
             (("id", _) :: ("name", _) :: ("price", PFloat 45%float) :: _)
             eq_refl).
  - exists (PFloat 59.5%float), (PInt 1), (PFloat 59.5%float).
    split; [|split; vm_compute; reflexivity].
    unfold sneaker_item.
    exact (pq_cart_item "CartItem" [("product", _); ("quantity", _)]
             "Product" [("id", _); ("name", _); ("price", _)] _ _
             eq_refl eq_refl eq_refl).
Defined.

(** A dictionary line, a malformed line and a [CartItem] line: the
    malformed one is skipped and the total is 45 * 2 + 59.5 * 1. *)
Lemma calculate_cart_total_witness :
  calculate_cart_total [wallet_line; broken_line; sneaker_item]
  = calculate_cart_total [wallet_line; sneaker_item] /\
  calculate_cart_total [wallet_line; sneaker_item] = Ok 149.5%float.
Proof.
  split.
  - exact (proj2 (proj2 calculate_cart_total_safe)
             [wallet_line] broken_line [sneaker_item] broken_line_malformed).
  - exact (proj1 (proj2 calculate_cart_total_safe)
             [wallet_line; sneaker_item] [90%float; 59.5%float]
             mixed_cart_values).
Defined.

(** *** Adding the wallet twice *)

Lemma empty_cart_one_line :
  one_line_per_product [].
Proof. intros pid. simpl. lia. Defined.

Lemma tool_add_to_cart_witness :
  (exists result cart',
      @tool_add_to_cart sample_runtime shop
        (PStr "Men's Bifold Wallet - Black Leather") (PInt 1) []
      = Ok (result, cart') /\
      one_line_per_product cart') /\
  (exists result1 result2,
      @tool_add_to_cart sample_runtime shop
        (PStr "Men's Bifold Wallet - Black Leather") (PInt 1) []
      = Ok (result1, [new_line wallet (PInt 1)]) /\
      @tool_add_to_cart sample_runtime shop
        (PStr "Men's Bifold Wallet - Black Leather") (PInt 1)
        [new_line wallet (PInt 1)]
      = Ok (result2, [new_line wallet (PInt 2)])).
Proof.
  split.
  - exact (proj1 (@tool_add_to_cart_one_line_per_product sample_runtime)
             shop (PStr "Men's Bifold Wallet - Black Leather") (PInt 1) []
             empty_cart_one_line).
  - exact (proj2 (proj2 (proj2 (proj2
               (@tool_add_to_cart_one_line_per_product sample_runtime))))
             shop shop (PStr "Men's Bifold Wallet - Black Leather")
             wallet wallet "01t5g000001" eq_refl eq_refl eq_refl eq_refl).
Defined.

(** *** Placing an order *)



Lemma one_session_client :
  voice_clients (manager one_session) !! "s1" = Some open_client.
Proof. vm_compute. reflexivity. Defined.

Lemma one_session_data :
  active_sessions one_session !! "s1"
  = Some {| session_cart := 0%nat; voice_mode := false |}.
Proof. vm_compute. reflexivity. Defined.



(** *** The dispatcher on an unknown tool and on a backend that is down *)



(** *** Looking up the orders of a customer who has none *)

Lemma lookup_order_status_witness :
  @handle_tool_call sample_runtime shop (PStr "lookup_order_status")
    (PDict [("email", PStr "x@example.com")]) new_client
  = (Ok (PDict [("success", PBool false);
                ("message", PStr "No orders found")]), new_client).
Proof.
  apply (@lookup_order_status_no_orders sample_runtime shop
           (PDict [("email", PStr "x@example.com")])
           PNone (PStr "x@example.com") new_client eq_refl eq_refl).
  exists no_records. split; reflexivity.
Defined.

(** *** The relay on one session *)

Lemma one_session_socket :
  active_connections (manager one_session) !! "s1" = Some 7%nat.
Proof. vm_compute. reflexivity. Defined.

Definition audio_event : pyval :=
  PDict [("type", PStr "response.audio.delta"); ("delta", PStr "UklGRg==")].

(** With voice mode on, the audio delta reaches the browser unchanged. *)
Lemma audio_delta_witness :
  exists w',
    @handle_voice_event sample_runtime shop "s1" audio_event one_session
    = (Ok tt, w') /\
    delivered w'
    = [(7%nat, PDict [("type", PStr "audio_delta");
                      ("audio", PStr "UklGRg==")])].
Proof.
  destruct (proj1 (@audio_delta_gated_by_voice_mode sample_runtime shop
                     "s1" 7%nat one_session one_session_socket)
              audio_event (PStr "UklGRg==") eq_refl eq_refl)
    as (w' & Hrun & Hiff & _).
  exists w'. split; [exact Hrun|].
  apply Hiff. vm_compute. reflexivity.
Defined.

Definition rate_limit_error : pyval :=
  PDict [("type", PStr "error");
         ("error", PDict [("code", PStr "rate_limit_exceeded");
                          ("message", PStr "Rate limit reached")])].

Definition empty_buffer_error : pyval :=
  PDict [("type", PStr "error");
         ("error", PDict [("code", PStr "input_audio_buffer_commit_empty");
                          ("message",
                           PStr "Error committing: buffer too small")])].

(** A rate-limit error is shown to the user; an empty-buffer error is
    not. *)
Lemma error_forwarded_witness :
  (exists w',
      @handle_voice_event sample_runtime shop "s1" rate_limit_error
        one_session = (Ok tt, w') /\
      delivered w'
      = [(7%nat, PDict [("type", PStr "error");
                        ("message", PStr "Rate limit reached")])]) /\
  @handle_voice_event sample_runtime shop "s1" empty_buffer_error one_session
  = (Ok tt, one_session).
Proof.
  split.
  - destruct (@error_forwarded_unless_ignorable sample_runtime shop "s1"
                7%nat one_session rate_limit_error _ _ _
                one_session_socket eq_refl eq_refl eq_refl eq_refl)
      as (w' & Hrun & Hiff & _).
    exists w'. split; [exact Hrun|].
    apply Hiff. intros Hig.
    apply (@ignorable_spec sample_runtime) in Hig.
    vm_compute in Hig. discriminate Hig.
  - destruct (@error_forwarded_unless_ignorable sample_runtime shop "s1"
                7%nat one_session empty_buffer_error _ _ _
                one_session_socket eq_refl eq_refl eq_refl eq_refl)
      as (w' & Hrun & _ & Hdrop).
    rewrite Hrun. f_equal. apply Hdrop.
    apply (@ignorable_spec sample_runtime). vm_compute. reflexivity.
Defined.

(** C4. On "user started speaking" the relay tells the browser to stop
    playback, with one [user_speaking] frame delivered while that event
    is handled, and sends nothing upstream: the session's voice client
    is as it was, with no [response.cancel] among what it has sent.
    The client's own [handle_event], which the relay does not call,
    sends [response.cancel] on the same event. *)
Theorem speech_started_relay_sends_no_cancel :
  @handle_voice_event sample_runtime shop "s1" speech_started one_session
  = (Ok tt, send_message "s1" (event_of_type "user_speaking") one_session) /\
  delivered (send_message "s1" (event_of_type "user_speaking") one_session)
  = [(7%nat, event_of_type "user_speaking")] /\
  voice_clients
    (manager (send_message "s1" (event_of_type "user_speaking") one_session))
  !! "s1" = Some open_client /\
  sent open_client = [] /\
  sent (self (snd (@handle_event sample_runtime shop speech_started
                     {| self := open_client; carts := [[]] |})))
  = [event_of_type "response.cancel"].
Proof.
  split; [|split; [|split; [|split]]].
  - apply speech_started_relay. reflexivity.
  - vm_compute. reflexivity.
  - vm_compute. reflexivity.
  - reflexivity.
  - vm_compute. reflexivity.
Qed.

(** *** Tearing sessions down *)

Lemma disconnect_witness :
  disconnect "ghost" one_session = one_session /\
  disconnect "s1" (disconnect "s1" one_session) = disconnect "s1" one_session.
Proof.
  split.
  - apply (proj1 disconnect_idempotent).
    repeat split; vm_compute; reflexivity.
  - apply (proj2 disconnect_idempotent).
Defined.

(** *** Listening through closed and refused connections *)

Lemma two_messages_handled m :
  @handles sample_runtime shop (messages two_messages) m m.
Proof.
  destruct m as [c lists].
  eapply handles_cons; [reflexivity|].
  eapply handles_cons; [reflexivity|]. apply handles_nil.
Defined.

(** The client of [test_voice_session] when it calls [listen()]: it has
    called [connect()] on a new client first. *)
Definition connected_listener : Listener :=
  snd (connect PNone dropped_then_lucky fresh_listener).

Lemma listen_witness :
  @listen sample_runtime PNone 5 shop third_time_lucky fresh_listener
  = (Waiting,
     {| mem := connected_mem PNone fresh_listener;
        live := Some {| messages := []; finish := StaysOpen |};
        attempts := 3%nat;
        trace := [Connecting 0; Sleeping 2; Connecting 1; Sleeping 4;
                  Connecting 2]
                 ++ map Received (messages two_messages) |}) /\
  (exists L,
      @listen sample_runtime PNone 5 shop dropped_then_lucky
        connected_listener
      = (Returned, L) /\
      attempts L = 3%nat /\
      trace L = [Connecting 0] ++ map Received (messages two_messages)
                ++ [Sleeping 2; Connecting 1; Sleeping 4; Connecting 2;
                    MaxRetriesReached]) /\
  (exists L,
      @listen sample_runtime PNone 5 shop always_closed fresh_listener
      = (Returned, L) /\
      attempts L = 3%nat /\
      trace L = [Connecting 0; Sleeping 2; Connecting 1; Sleeping 4;
                 Connecting 2; MaxRetriesReached]).
Proof.
  split; [|split].
  - exact (proj1 (@listen_retries_closed_connections sample_runtime PNone)
             shop third_time_lucky fresh_listener two_messages _ 2%nat
             eq_refl (or_intror eq_refl) (or_intror eq_refl) eq_refl
             (two_messages_handled _)).
  - destruct (proj1 (proj2 (@listen_retries_closed_connections
                              sample_runtime PNone))
                shop dropped_then_lucky connected_listener dropped_after_two
                _ 2%nat eq_refl eq_refl eq_refl (two_messages_handled _)
                (or_intror eq_refl) (or_intror eq_refl))
      as (L & Hrun & Hattempts & Htrace & _).
    exists L. split; [exact Hrun|]. split; [exact Hattempts|exact Htrace].
  - destruct (proj1 (proj2 (proj2 (@listen_retries_closed_connections
                                     sample_runtime PNone)))
                shop always_closed fresh_listener 2%nat eq_refl
                (fun n => or_intror eq_refl))
      as (L & Hrun & Hattempts & Htrace & _).
    exists L. split; [exact Hrun|]. split; [exact Hattempts|exact Htrace].
Defined.

(** Two refused connect attempts before a good one: [listen] stops at
    the first, without a retry, and receives nothing.  And when every
    attempt finds the connection closed, [listen] simply returns. *)
Lemma listen_gives_up_when_refused :
  refused_twice 0%nat = Failed (OtherError "Connection refused") /\
  refused_twice 1%nat = Failed (OtherError "Connection refused") /\
  refused_twice 2%nat = Accepted two_messages /\
  fst (@listen sample_runtime PNone 5 shop refused_twice fresh_listener)
  = Returned /\
  attempts (snd (@listen sample_runtime PNone 5 shop refused_twice
                   fresh_listener)) = 1%nat /\
  trace (snd (@listen sample_runtime PNone 5 shop refused_twice
                fresh_listener)) = [Connecting 0] /\
  fst (@listen sample_runtime PNone 5 shop always_closed fresh_listener)
  = Returned.
Proof. repeat split. Qed.
(** * Further properties of the sources

    The rest of the voice client and of the relay, the connection
    manager, the browser-side chat loop, the REST cart and order
    endpoints, the search and order tools and the confirmation node of
    the agent graph, with properties read off the code. *)

(** ** What a computation leaves alone *)

(** [act] leaves the part [f] of the state as it finds it, whether it
    returns or raises. *)
Definition keeps {S A X : Type} (f : S -> X) (act : M S A) : Prop :=
  forall s, f (snd (act s)) = f s.

Lemma keeps_ret {S A X : Type} (f : S -> X) (a : A) : keeps f (ret a).
Proof. intros s. reflexivity. Qed.

Lemma keeps_lift {S A X : Type} (f : S -> X) (r : res A) : keeps f (lift r).
Proof. intros s. reflexivity. Qed.

Lemma keeps_get {S X : Type} (f : S -> X) : keeps f get.
Proof. intros s. reflexivity. Qed.

Lemma keeps_modify {S X : Type} (f : S -> X) (g : S -> S) :
  (forall s, f (g s) = f s) -> keeps f (modify g).
Proof. intros Hg s. apply Hg. Qed.

Lemma keeps_mbind {S A B X : Type} (f : S -> X) (m : M S A) (k : A -> M S B) :
  keeps f m -> (forall a, keeps f (k a)) -> keeps f (mbind m k).
Proof.
  intros Hm Hk s. unfold mbind. specialize (Hm s).
  destruct (m s) as [[a|e] s']; simpl in *.
  - rewrite Hk. exact Hm.
  - exact Hm.
Qed.

(** The continuation only matters at the values the first step can
    return. *)
Lemma keeps_mbind_lift {S A B X : Type} (f : S -> X) (r : res A)
    (k : A -> M S B) :
  (forall a, r = Ok a -> keeps f (k a)) -> keeps f (mbind (lift r) k).
Proof.
  intros Hk s. unfold mbind, lift. destruct r as [a|e]; simpl.
  - apply (Hk a eq_refl).
  - reflexivity.
Qed.

Lemma keeps_m_try {S A X : Type} (f : S -> X) (body : M S A)
    (handler : exn -> M S A) :
  keeps f body -> (forall e, keeps f (handler e)) ->
  keeps f (m_try body handler).
Proof.
  intros Hb Hh s. unfold m_try. specialize (Hb s).
  destruct (body s) as [[a|e] s']; simpl in *.
  - exact Hb.
  - rewrite Hh. exact Hb.
Qed.

Ltac keeps_step :=
  first
    [ apply keeps_ret
    | apply keeps_lift
    | apply keeps_get
    | apply keeps_modify; intros; reflexivity
    | apply keeps_mbind; [|intros]
    | apply keeps_m_try; [|intros]
    | progress cbv beta iota zeta
    | match goal with
      | |- keeps _ (if ?b then _ else _) => destruct b
      | |- keeps _ (match ?x with _ => _ end) => destruct x
      end ].

Ltac keeps_tac := repeat keeps_step.

(** ** The voice client: events, tool calls and [close] *)

(** The connection side of a client: its socket, what it has sent, and
    the flags [connect()] and [close()] set. *)
Definition wire (m : ClientMem)
  : socket * list pyval * bool * bool :=
  (ws (self m), sent (self m), keepalive_task (self m),
   is_connected (self m)).

(** The order side of a client: the list objects, and the cart, customer
    and order number of its state. *)
Definition order_state (m : ClientMem)
  : list (list pyval) * nat * pyval * pyval :=
  (carts m, cart (state (self m)), customer (state (self m)),
   order_number (state (self m))).

Section ClientProperties.
Context `{PyRuntime}.

(** The dispatcher never touches the connection. *)
Lemma handle_tool_call_keeps_wire gw tool_name tool_args :
  keeps wire (handle_tool_call gw tool_name tool_args).
Proof. unfold handle_tool_call, dispatch, dispatch_body. keeps_tac. Qed.

(** A call that returns has printed its name and its arguments. *)
Lemma handle_tool_call_ok_printed gw tool_name tool_args m result m1 :
  handle_tool_call gw tool_name tool_args m = (Ok result, m1) ->
  py_print [tool_name; tool_args] = Ok tt.
Proof.
  unfold handle_tool_call, mbind, lift.
  destruct (py_print [tool_name; tool_args]) as [[]|e];
    [reflexivity|discriminate].
Qed.

(** The event of a completed function call goes to the tool-call branch
    of [handle_event]. *)
Lemma handle_event_tool_branch gw event m :
  py_get event "type" PNone
  = Ok (PStr "response.function_call_arguments.done") ->
  handle_event gw event m
  = (call_id <~ lift (py_getitem event "call_id") ;;
     name <~ lift (py_getitem event "name") ;;
     text <~ lift (py_getitem event "arguments") ;;
     arguments <~ lift (json_loads text) ;;
     lift (py_print [name]) ;;;
     result <~ handle_tool_call gw name arguments ;;
     send_tool_response call_id result) m.
Proof.
  intros Htype. unfold handle_event. unfold mbind at 1, lift at 1.
  rewrite Htype. reflexivity.
Qed.

Lemma send_tool_response_open call_id output text m :
  ws_open (self m) = true ->
  json_dumps output = Ok text ->
  send_tool_response call_id output m
  = (Ok tt,
     ws_send (event_of_type "response.create")
       (ws_send (PDict [("type", PStr "conversation.item.create");
                        ("item",
                         PDict [("type", PStr "function_call_output");
                                ("call_id", call_id);
                                ("output", PStr text)])]) m)).
Proof.
  intros Hopen Hdumps. unfold send_tool_response, mbind, get, m_try, lift.
  rewrite Hopen, Hdumps. reflexivity.
Qed.

Lemma send_tool_response_unserialisable call_id output e m :
  json_dumps output = Raise e ->
  send_tool_response call_id output m = (Ok tt, m).
Proof.
  intros Hdumps. unfold send_tool_response, mbind, get, m_try, lift.
  rewrite Hdumps. destruct (negb (ws_open (self m))); reflexivity.
Qed.

Lemma send_tool_response_not_open call_id output m :
  ws_open (self m) = false ->
  send_tool_response call_id output m = (Ok tt, m).
Proof.
  intros Hclosed. unfold send_tool_response, mbind, get.
  rewrite Hclosed. reflexivity.
Qed.

(** X1. On an open connection, whenever the dispatcher returns a result
    for a completed function call whose arguments decode, the call is
    answered: the client sends one [function_call_output] item that
    carries the call id of the event and the serialised result, then
    [response.create], and [handle_event] returns; when the result
    cannot be serialised nothing is sent and the event is still handled
    without an exception. *)
Theorem handle_event_answers_tool_call gw event call_id name text arguments
    m result m1 :
  py_get event "type" PNone
  = Ok (PStr "response.function_call_arguments.done") ->
  py_getitem event "call_id" = Ok call_id ->
  py_getitem event "name" = Ok name ->
  py_getitem event "arguments" = Ok text ->
  json_loads text = Ok arguments ->
  ws_open (self m) = true ->
  handle_tool_call gw name arguments m = (Ok result, m1) ->
  match json_dumps result with
  | Ok output =>
      handle_event gw event m
      = (Ok tt,
         ws_send (event_of_type "response.create")
           (ws_send
              (PDict [("type", PStr "conversation.item.create");
                      ("item",
                       PDict [("type", PStr "function_call_output");
                              ("call_id", call_id);
                              ("output", PStr output)])]) m1))
  | Raise _ => handle_event gw event m = (Ok tt, m1)
  end.
Proof.
  intros Htype Hid Hname Htext Hloads Hopen Hcall.
  assert (Hopen1 : ws_open (self m1) = true).
  { pose proof (handle_tool_call_keeps_wire gw name arguments m) as Hw.
    rewrite Hcall in Hw. simpl in Hw. unfold wire in Hw.
    unfold ws_open in *. injection Hw as Hws _ _ _. rewrite Hws.
    exact Hopen. }
  pose proof (py_print_name _ _
                (handle_tool_call_ok_printed _ _ _ _ _ _ Hcall)) as Hprint.
  rewrite (handle_event_tool_branch gw event m Htype).
  unfold mbind, lift. rewrite Hid. cbv beta iota.
  rewrite Hname. cbv beta iota. rewrite Htext. cbv beta iota.
  rewrite Hloads. cbv beta iota. rewrite Hprint. cbv beta iota.
  rewrite Hcall. cbv beta iota.
  destruct (json_dumps result) as [output|e] eqn:Hdumps.
  - apply send_tool_response_open; assumption.
  - apply (send_tool_response_unserialisable _ _ e). exact Hdumps.
Qed.

(** X2. Only the start of speech and a completed function call make the
    client send anything upstream or touch the order: on an event of any
    other type, handled or raising, the socket and what has been sent
    are as before, and so are the cart, the customer and the order
    number. *)
Theorem handle_event_quiet gw event event_type m :
  py_get event "type" PNone = Ok event_type ->
  py_eq_lit event_type "input_audio_buffer.speech_started" = false ->
  py_eq_lit event_type "response.function_call_arguments.done" = false ->
  wire (snd (handle_event gw event m)) = wire m /\
  order_state (snd (handle_event gw event m)) = order_state m.
Proof.
  intros Htype Hspeech Hcall.
  assert (Hkeeps : keeps (fun m => (wire m, order_state m))
                     (handle_event gw event)).
  { unfold handle_event. apply keeps_mbind_lift. intros t Ht.
    rewrite Htype in Ht. injection Ht as <-.
    rewrite Hspeech, Hcall. keeps_tac. }
  specialize (Hkeeps m).
  split; [exact (f_equal fst Hkeeps)|exact (f_equal snd Hkeeps)].
Qed.

(** X3. [close()] is idempotent and keeps the state and the record of
    what was sent; after it the client sends nothing more: a tool result
    that arrives late is dropped without an exception, and so is the
    cancel that the start of speech would send. *)
Theorem close_stops_traffic gw c lists call_id output event :
  py_get event "type" PNone
  = Ok (PStr "input_audio_buffer.speech_started") ->
  close (close c) = close c /\
  state (close c) = state c /\
  sent (close c) = sent c /\
  send_tool_response call_id output {| self := close c; carts := lists |}
  = (Ok tt, {| self := close c; carts := lists |}) /\
  handle_event gw event {| self := close c; carts := lists |}
  = (Ok tt, {| self := close c; carts := lists |}).
Proof.
  intros Htype.
  assert (Hclosed : forall l,
             ws_open (self {| self := close c; carts := l |}) = false).
  { intros l. unfold ws_open, close. simpl. destruct (ws c); reflexivity. }
  split; [|split; [|split; [|split]]].
  - unfold close. simpl. destruct (ws c); reflexivity.
  - reflexivity.
  - reflexivity.
  - apply send_tool_response_not_open, Hclosed.
  - unfold handle_event. unfold mbind at 1, lift at 1. rewrite Htype.
    cbv beta iota. change (py_eq_lit _ "session.created") with false.
    change (py_eq_lit (PStr "input_audio_buffer.speech_started")
              "session.updated") with false.
    change (py_eq_lit (PStr "input_audio_buffer.speech_started")
              "input_audio_buffer.speech_started") with true.
    cbv iota. unfold mbind, get. rewrite Hclosed. reflexivity.
Qed.

End ClientProperties.

(** ** The listen loop: failing messages and connections that drop *)

Section ListenFurther.
Context `{PyRuntime} (session_settings : pyval).

Let connected_mem := connected_mem session_settings.

(** X4. One message that cannot be decoded or handled ends [listen] for
    good: when the exception is not [ConnectionClosed], [listen] returns
    right after that message, with the connection still open; the
    messages behind it are never read and no reconnect is attempted. *)
Theorem listen_ends_at_failing_message fuel gw T L before bad rest fin m1 m2
    e :
  ws_open (self (mem L)) = false ->
  T (attempts L)
  = Accepted {| messages := before ++ bad :: rest; finish := fin |} ->
  handles gw before (connected_mem L) m1 ->
  handle_message gw bad m1 = (Raise e, m2) ->
  e <> ConnectionClosed ->
  listen session_settings (S fuel) gw T L
  = (Returned,
     {| mem := m2;
        live := Some {| messages := rest; finish := fin |};
        attempts := S (attempts L);
        trace := (trace L ++ [Connecting (attempts L)])
                 ++ map Received before ++ [Received bad] |}).
Proof.
  intros Hclosed Haccept Hbefore Hbad Hother.
  unfold listen. cbn [listen_loop].
  change (Z.ltb 0 max_retries) with true. cbv iota.
  unfold listen_round, connect. rewrite Hclosed, Haccept. simpl negb.
  cbv iota. unfold read_socket. cbn [live messages finish trace mem attempts].
  rewrite (drain_handles gw _ before (bad :: rest) fin _ _ m1 Hbefore).
  cbn [drain]. unfold handle_message in Hbad. rewrite Hbad.
  cbn [attempts]. rewrite <- app_assoc.
  destruct e; try reflexivity. destruct Hother. reflexivity.
Qed.

(** A server that accepts every connection and drops it at once, with or
    without a close frame. *)
Definition dropping (fin : closing) : Transport :=
  fun _ => Accepted {| messages := []; finish := fin |}.

(** What [listen] shows for [rounds] rounds against such a server, from
    the attempt numbered [first] on. *)
Definition dropped_rounds (fin : closing) (first rounds : nat) : list Obs :=
  flat_map (fun n => match fin with
                     | ClosesAbnormally => [Connecting n; Sleeping 2]
                     | _ => [Connecting n]
                     end)
    (seq first rounds).

Lemma listen_loop_dropping_abnormally fuel gw retry_count L :
  retry_count < max_retries ->
  ws_open (self (mem L)) = false ->
  exists L',
    listen_loop session_settings fuel gw (dropping ClosesAbnormally)
      retry_count L
    = (OutOfFuel, L') /\
    attempts L' = (attempts L + fuel)%nat /\
    trace L' = trace L ++ dropped_rounds ClosesAbnormally (attempts L) fuel.
Proof.
  revert retry_count L. induction fuel as [|fuel IH];
    intros retry_count L Hlt Hclosed.
  - exists L. split; [reflexivity|]. split; [lia|].
    unfold dropped_rounds. simpl. rewrite app_nil_r. reflexivity.
  - cbn [listen_loop].
    destruct (Z.ltb_spec retry_count max_retries) as [_|Hge]; [|lia].
    unfold listen_round, connect, dropping. rewrite Hclosed. simpl negb.
    cbv iota. unfold read_socket. cbn [live messages finish drain].
    cbn [after_round]. change (Z.ltb (0 + 1) max_retries) with true.
    cbv iota. change (Z.min (2 ^ (0 + 1)) 10) with 2.
    set (L1 := log_obs _ _).
    destruct (IH (0 + 1) L1) as (L' & Hrun & Hatt & Htrace).
    { unfold max_retries. lia. }
    { reflexivity. }
    exists L'. split; [exact Hrun|]. split.
    + rewrite Hatt. subst L1. simpl. lia.
    + rewrite Htrace. subst L1. unfold dropped_rounds.
      cbn [trace log_obs mark_disconnected close_socket attempts].
      cbn [seq flat_map]. rewrite <- !app_assoc. reflexivity.
Qed.

Lemma listen_loop_dropping_normally fuel gw L :
  ws_open (self (mem L)) = false ->
  exists L',
    listen_loop session_settings fuel gw (dropping ClosesNormally) 0 L
    = (OutOfFuel, L') /\
    attempts L' = (attempts L + fuel)%nat /\
    trace L' = trace L ++ dropped_rounds ClosesNormally (attempts L) fuel.
Proof.
  revert L. induction fuel as [|fuel IH]; intros L Hclosed.
  - exists L. split; [reflexivity|]. split; [lia|].
    unfold dropped_rounds. simpl. rewrite app_nil_r. reflexivity.
  - cbn [listen_loop]. change (Z.ltb 0 max_retries) with true. cbv iota.
    unfold listen_round, connect, dropping. rewrite Hclosed. simpl negb.
    cbv iota. unfold read_socket. cbn [live messages finish drain].
    cbn [after_round].
    set (L1 := close_socket _ _ _).
    destruct (IH L1) as (L' & Hrun & Hatt & Htrace).
    { reflexivity. }
    exists L'. split; [exact Hrun|]. split.
    + rewrite Hatt. subst L1. simpl. lia.
    + rewrite Htrace. subst L1. unfold dropped_rounds.
      cbn [trace close_socket attempts].
      cbn [seq flat_map]. rewrite <- !app_assoc. reflexivity.
Qed.

(** X5. Against a server that accepts every connection and then drops
    it, [listen] never gives up: each successful connect resets the
    retry count, so after any number of rounds the loop is still
    running, having connected once per round.  When the connection is
    dropped without a close frame it sleeps 2 seconds before each
    reconnect; when it is closed normally it reconnects at once. *)
Theorem listen_never_gives_up_when_accepted fuel gw :
  (exists L,
      listen session_settings fuel gw (dropping ClosesAbnormally)
        fresh_listener
      = (OutOfFuel, L) /\
      attempts L = fuel /\
      trace L = dropped_rounds ClosesAbnormally 0 fuel) /\
  (exists L,
      listen session_settings fuel gw (dropping ClosesNormally)
        fresh_listener
      = (OutOfFuel, L) /\
      attempts L = fuel /\
      trace L = dropped_rounds ClosesNormally 0 fuel).
Proof.
  split.
  - destruct (listen_loop_dropping_abnormally fuel gw 0 fresh_listener)
      as (L & Hrun & Hatt & Htrace).
    { unfold max_retries. lia. }
    { reflexivity. }
    exists L. split; [exact Hrun|]. split; [exact Hatt|exact Htrace].
  - destruct (listen_loop_dropping_normally fuel gw fresh_listener)
      as (L & Hrun & Hatt & Htrace).
    { reflexivity. }
    exists L. split; [exact Hrun|]. split; [exact Hatt|exact Htrace].
Qed.

End ListenFurther.

(** ** The relay: what an upstream event can reach *)

(** Every run of [act] takes a state to one related to it by [R]. *)
Definition moves {S A : Type} (R : S -> S -> Prop) (act : M S A) : Prop :=
  forall s, R s (snd (act s)).

Section Moves.
Context {S : Type} (R : S -> S -> Prop).
Hypothesis R_refl : forall s, R s s.
Hypothesis R_trans : forall s1 s2 s3, R s1 s2 -> R s2 s3 -> R s1 s3.

Lemma moves_ret {A : Type} (a : A) : moves R (ret a).
Proof. intros s. apply R_refl. Qed.

Lemma moves_lift {A : Type} (r : res A) : moves R (lift r).
Proof. intros s. apply R_refl. Qed.

Lemma moves_get : moves R get.
Proof. intros s. apply R_refl. Qed.

Lemma moves_modify (g : S -> S) : (forall s, R s (g s)) -> moves R (modify g).
Proof. intros Hg s. apply Hg. Qed.

Lemma moves_mbind {A B : Type} (m : M S A) (k : A -> M S B) :
  moves R m -> (forall a, moves R (k a)) -> moves R (mbind m k).
Proof.
  intros Hm Hk s. unfold mbind. specialize (Hm s).
  destruct (m s) as [[a|e] s']; simpl in *.
  - eapply R_trans; [exact Hm|apply Hk].
  - exact Hm.
Qed.

End Moves.

(** What an event of session [session_id] may do to the process: the
    browser sockets, the voice-mode flags and the record of closed
    upstream connections stay; the voice clients and the session data of
    every other session stay; frames are only added, and only to the
    socket of the session itself. *)
Definition stays_within (session_id : string) (w w' : World) : Prop :=
  active_connections (manager w') = active_connections (manager w) /\
  voice_mode_active (manager w') = voice_mode_active (manager w) /\
  upstream_closed w' = upstream_closed w /\
  (forall other, other <> session_id ->
     voice_clients (manager w') !! other = voice_clients (manager w) !! other
     /\ active_sessions w' !! other = active_sessions w !! other) /\
  exists frames,
    delivered w' = delivered w ++ frames /\
    forall frame, In frame frames ->
      active_connections (manager w) !! session_id = Some (fst frame).

Lemma stays_within_refl session_id w : stays_within session_id w w.
Proof.
  repeat split; try reflexivity. exists []. split.
  - symmetry. apply app_nil_r.
  - intros frame [].
Qed.

Lemma stays_within_trans session_id w1 w2 w3 :
  stays_within session_id w1 w2 -> stays_within session_id w2 w3 ->
  stays_within session_id w1 w3.
Proof.
  intros (Hc1 & Hv1 & Hu1 & Ho1 & frames1 & Hd1 & Hf1)
         (Hc2 & Hv2 & Hu2 & Ho2 & frames2 & Hd2 & Hf2).
  split; [congruence|]. split; [congruence|]. split; [congruence|].
  split.
  - intros other Hne. destruct (Ho1 other Hne) as [Ha Hb].
    destruct (Ho2 other Hne) as [Hc Hd]. split; congruence.
  - exists (frames1 ++ frames2). split.
    + rewrite Hd2, Hd1, app_assoc. reflexivity.
    + intros frame Hin. apply in_app_or in Hin. destruct Hin as [Hin|Hin].
      * apply Hf1, Hin.
      * rewrite <- Hc1. apply Hf2, Hin.
Qed.

(** The event types the relay acts on; every other type is dropped. *)
Definition relayed_event_types : list string :=
  ["input_audio_buffer.speech_started";
   "conversation.item.input_audio_transcription.completed";
   "response.audio_transcript.done";
   "response.audio.delta";
   "response.function_call_arguments.done";
   "error"].

Section RelayFurther.
Context `{PyRuntime}.

Lemma send_message_within session_id message w :
  stays_within session_id w (send_message session_id message w).
Proof.
  unfold send_message.
  destruct (active_connections (manager w) !! session_id) as [sock|] eqn:Hs;
    [|apply stays_within_refl].
  repeat split; try reflexivity. simpl.
  exists [(sock, message)]. split; [reflexivity|].
  intros frame [<-|[]]. exact Hs.
Qed.

Lemma on_client_within {A : Type} session_id c (act : M ClientMem A) :
  moves (stays_within session_id) (on_client session_id c act).
Proof.
  intros w. unfold on_client.
  destruct (act {| self := c; carts := objects w |}) as [r m]. simpl.
  repeat split; try reflexivity; simpl.
  - apply lookup_insert_ne. congruence.
  - exists []. split; [symmetry; apply app_nil_r|intros frame []].
Qed.

Lemma session_cart_of_within session_id :
  moves (stays_within session_id) (session_cart_of session_id).
Proof.
  intros w. unfold session_cart_of.
  destruct (active_sessions w !! session_id); apply stays_within_refl.
Qed.

Lemma reset_session_cart_within session_id :
  moves (stays_within session_id) (reset_session_cart session_id).
Proof.
  intros w. unfold reset_session_cart.
  destruct (active_sessions w !! session_id) as [d|];
    [|apply stays_within_refl].
  repeat split; try reflexivity; simpl.
  - apply lookup_insert_ne. congruence.
  - exists []. split; [symmetry; apply app_nil_r|intros frame []].
Qed.

Ltac within_step session_id :=
  first
    [ apply (moves_ret _ (stays_within_refl session_id))
    | apply (moves_lift _ (stays_within_refl session_id))
    | apply (moves_get _ (stays_within_refl session_id))
    | apply moves_modify; intros; apply send_message_within
    | apply on_client_within
    | apply session_cart_of_within
    | apply reset_session_cart_within
    | apply (moves_mbind _ (stays_within_trans session_id)); [|intros]
    | progress cbv beta iota zeta
    | match goal with
      | |- moves _ (if ?b then _ else _) => destruct b
      | |- moves _ (match ?x with _ => _ end) => destruct x
      end ].

Lemma relay_tool_call_within gw session_id event :
  moves (stays_within session_id) (relay_tool_call gw session_id event).
Proof. unfold relay_tool_call. repeat within_step session_id. Qed.

Lemma handle_voice_event_within gw session_id event :
  moves (stays_within session_id) (handle_voice_event gw session_id event).
Proof.
  unfold handle_voice_event.
  apply (moves_mbind _ (stays_within_trans session_id));
    [apply (moves_lift _ (stays_within_refl session_id))|].
  intros event_type.
  destruct (existsb (py_eq_lit event_type) ignored_event_types).
  { apply (moves_ret _ (stays_within_refl session_id)). }
  repeat first
    [ apply relay_tool_call_within
    | within_step session_id ].
Qed.

(** X6. An upstream event of one session stays within that session,
    whatever the event is and whether the relay handles it or raises:
    the manager's browser sockets and voice-mode flags are as before,
    the voice client and the session data of every other session are
    untouched, and the frames it delivers are added after the earlier
    ones and go to the session's own browser socket only. *)
Theorem handle_voice_event_stays_within gw session_id event w :
  stays_within session_id w
    (snd (handle_voice_event gw session_id event w)).
Proof. apply handle_voice_event_within. Qed.

(** X7. The relay acts on six event types only: an event of any other
    type, be it one of the eleven the relay lists as noise, the end of
    speech, a cancelled response, a type it has never heard of or a type
    that is not a string, changes nothing and delivers nothing. *)
Theorem handle_voice_event_drops_other_types gw session_id event event_type
    w :
  py_get event "type" PNone = Ok event_type ->
  existsb (py_eq_lit event_type) relayed_event_types = false ->
  handle_voice_event gw session_id event w = (Ok tt, w).
Proof.
  intros Htype Hother. unfold handle_voice_event.
  unfold mbind at 1, lift at 1. rewrite Htype. cbv beta iota.
  destruct (existsb (py_eq_lit event_type) ignored_event_types);
    [reflexivity|].
  unfold relayed_event_types in Hother. cbn [existsb] in Hother.
  repeat (apply orb_false_elim in Hother;
          let Hhead := fresh "Hhead" in
          destruct Hother as [Hhead Hother]; rewrite Hhead).
  destruct (py_eq_lit event_type "input_audio_buffer.speech_stopped");
    [reflexivity|].
  destruct (py_eq_lit event_type "response.cancelled"); reflexivity.
Qed.

(** Every result of the dispatcher is a dictionary. *)
Definition res_yields {A : Type} (P : A -> Prop) (r : res A) : Prop :=
  forall a, r = Ok a -> P a.

Definition yields {S A : Type} (P : A -> Prop) (act : M S A) : Prop :=
  forall s a s', act s = (Ok a, s') -> P a.

Lemma res_yields_bind {A B : Type} (P : B -> Prop) (m : res A)
    (k : A -> res B) :
  (forall a, m = Ok a -> res_yields P (k a)) -> res_yields P (bind m k).
Proof.
  intros Hk b. destruct m as [a|e]; simpl; [|discriminate].
  apply (Hk a eq_refl).
Qed.

Lemma res_yields_try {A : Type} (P : A -> Prop) (body : res A)
    (handler : exn -> res A) :
  res_yields P body -> (forall e, res_yields P (handler e)) ->
  res_yields P (try_except body handler).
Proof.
  intros Hb Hh a. destruct body as [a'|e]; simpl.
  - apply Hb.
  - apply Hh.
Qed.

Lemma yields_ret {S A : Type} (P : A -> Prop) (a : A) :
  P a -> yields P (@ret S A a).
Proof. intros Ha s a' s' Heq. injection Heq as <- _. exact Ha. Qed.

Lemma yields_lift {S A : Type} (P : A -> Prop) (r : res A) :
  res_yields P r -> yields P (@lift S A r).
Proof. intros Hr s a s' Heq. injection Heq as -> _. apply Hr. reflexivity. Qed.

Lemma yields_mbind {S A B : Type} (P : B -> Prop) (m : M S A)
    (k : A -> M S B) :
  (forall a, yields P (k a)) -> yields P (mbind m k).
Proof.
  intros Hk s b s'. unfold mbind.
  destruct (m s) as [[a|e] s1]; [apply Hk|discriminate].
Qed.

Lemma yields_mbind_lift {S A B : Type} (P : B -> Prop) (r : res A)
    (k : A -> M S B) :
  (forall a, r = Ok a -> yields P (k a)) -> yields P (mbind (lift r) k).
Proof.
  intros Hk s b s'. unfold mbind, lift.
  destruct r as [a|e]; [apply (Hk a eq_refl)|discriminate].
Qed.

Lemma yields_m_try {S A : Type} (P : A -> Prop) (body : M S A)
    (handler : exn -> M S A) :
  yields P body -> (forall e, yields P (handler e)) ->
  yields P (m_try body handler).
Proof.
  intros Hb Hh s a s'. unfold m_try.
  destruct (body s) as [[a'|e] s1] eqn:Hbody.
  - intros Heq. injection Heq as <- _. apply (Hb s a' s1 Hbody).
  - apply Hh.
Qed.

Definition is_dict (v : pyval) : Prop := isinstance_dict v = true.

Lemma get_is_dict v k default x : py_get v k default = Ok x -> is_dict v.
Proof. destruct v; simpl; try discriminate. reflexivity. Qed.

Lemma getitem_is_dict v k x : py_getitem v k = Ok x -> is_dict v.
Proof. destruct v; simpl; try discriminate. reflexivity. Qed.

Lemma tool_lookup_order_dict gw order_number email :
  res_yields is_dict (tool_lookup_order gw order_number email).
Proof.
  unfold tool_lookup_order. apply res_yields_try.
  - repeat first
      [ apply res_yields_bind; intros
      | progress cbv beta iota
      | match goal with
        | |- res_yields _ (if ?b then _ else _) => destruct b
        | |- res_yields _ (Ok _) =>
            let a := fresh in
            let Heq := fresh in
            intros a Heq; injection Heq as <-; reflexivity
        end ].
  - intros e a Heq. injection Heq as <-. reflexivity.
Qed.

Lemma handle_tool_call_dict gw tool_name tool_args :
  yields is_dict (handle_tool_call gw tool_name tool_args).
Proof.
  unfold handle_tool_call. apply yields_mbind. intros _.
  unfold dispatch, dispatch_body. apply yields_m_try.
  - destruct (py_eq_lit tool_name "search_products").
    { repeat first [apply yields_mbind; intros
                   |apply yields_ret; reflexivity]. }
    destruct (py_eq_lit tool_name "add_to_cart").
    { do 3 (apply yields_mbind; intros). apply yields_mbind. intros m.
      cbv zeta. apply yields_mbind. intros out. apply yields_mbind.
      intros _. apply yields_mbind_lift. intros success Hsuccess.
      apply yields_mbind. intros _. apply yields_ret.
      apply (get_is_dict _ _ _ _ Hsuccess). }
    destruct (py_eq_lit tool_name "place_salesforce_order").
    { do 8 (apply yields_mbind; intros). apply yields_mbind. intros result.
      apply yields_mbind_lift. intros success Hsuccess.
      pose proof (getitem_is_dict _ _ _ Hsuccess) as Hdict.
      destruct (py_truthy success);
        repeat first [apply yields_mbind; intros
                     |apply yields_ret; exact Hdict]. }
    destruct (py_eq_lit tool_name "lookup_order_status").
    { do 2 (apply yields_mbind; intros). apply yields_mbind_lift.
      intros result Hresult. apply yields_ret.
      apply (tool_lookup_order_dict _ _ _ _ Hresult). }
    apply yields_ret. reflexivity.
  - intros e. apply yields_ret. reflexivity.
Qed.

(** *** The tool-call branch, step by step *)

(** What [on_client] leaves: the client stored back under its session
    id, and the list objects as the client left them. *)
Definition client_stored (session_id : string) (m : ClientMem) (w : World)
  : World :=
  {| manager :=
       {| active_connections := active_connections (manager w);
          voice_clients :=
            <[session_id := self m]> (voice_clients (manager w));
          voice_mode_active := voice_mode_active (manager w) |};
     active_sessions := active_sessions w;
     objects := carts m;
     delivered := delivered w;
     upstream_closed := upstream_closed w |}.

(** The three steps of the relay once the dispatcher has returned
    [result]: the products of a successful search go to the browser, the
    result goes upstream, and the browser is told about the cart. *)
Definition forward_search (session_id : string) (name result : pyval)
  : M World unit :=
  searched <~ lift (succeeded name "search_products" result) ;;
  if searched : bool then
    products <~ lift (py_get result "products" (PList [])) ;;
    _ <~ lift (py_len products) ;;
    modify (send_message session_id
              (PDict [("type", PStr "tool_result");
                      ("tool", PStr "search_products");
                      ("result", products)]))
  else ret tt.

Definition answer_upstream (session_id : string) (call_id result : pyval)
  : M World unit :=
  w1 <~ get ;;
  match voice_clients (manager w1) !! session_id with
  | Some c1 => on_client session_id c1 (send_tool_response call_id result)
  | None => ret tt
  end.

Definition forward_cart (session_id : string) (name result : pyval)
  : M World unit :=
  added <~ lift (succeeded name "add_to_cart" result) ;;
  (if added : bool then
     cart <~ session_cart_of session_id ;;
     modify (send_message session_id
               (PDict [("type", PStr "cart_updated");
                       ("cart", PList cart)]))
   else ret tt) ;;;
  ordered <~ lift (succeeded name "place_salesforce_order" result) ;;
  if ordered : bool then
    reset_session_cart session_id ;;;
    w2 <~ get ;;
    (match voice_clients (manager w2) !! session_id with
     | Some c2 => on_client session_id c2 (modify bind_new_cart)
     | None => ret tt
     end) ;;;
    modify (send_message session_id (event_of_type "cart_cleared"))
  else ret tt.

Lemma mbind_assoc {S A B C : Type} (m : M S A) (k : A -> M S B)
    (k' : B -> M S C) s :
  mbind (mbind m k) k' s = mbind m (fun a => mbind (k a) k') s.
Proof.
  unfold mbind. destruct (m s) as [[a|e] s']; reflexivity.
Qed.

(** The relay on a completed function call of a session that has a
    voice client: the dispatcher runs on that client, then the three
    steps follow. *)
Lemma relay_tool_call_dispatched gw session_id event call_id name text
    arguments c w result m1 :
  py_get event "type" PNone
  = Ok (PStr "response.function_call_arguments.done") ->
  py_getitem event "call_id" = Ok call_id ->
  py_getitem event "name" = Ok name ->
  py_getitem event "arguments" = Ok text ->
  json_loads text = Ok arguments ->
  voice_clients (manager w) !! session_id = Some c ->
  handle_tool_call gw name arguments {| self := c; carts := objects w |}
  = (Ok result, m1) ->
  handle_voice_event gw session_id event w
  = (forward_search session_id name result ;;;
     answer_upstream session_id call_id result ;;;
     forward_cart session_id name result)
      (client_stored session_id m1 w).
Proof.
  intros Htype Hid Hname Htext Hloads Hc Hcall.
  unfold handle_voice_event. unfold mbind at 1, lift at 1.
  rewrite Htype. cbv beta iota.
  change (existsb _ ignored_event_types) with false. cbv iota.
  change (py_eq_lit _ "input_audio_buffer.speech_started") with false.
  change (py_eq_lit _ "input_audio_buffer.speech_stopped") with false.
  change (py_eq_lit _ "conversation.item.input_audio_transcription.completed")
    with false.
  change (py_eq_lit _ "response.audio_transcript.done") with false.
  change (py_eq_lit _ "response.cancelled") with false.
  change (py_eq_lit _ "response.audio.delta") with false.
  change (py_eq_lit _ "response.function_call_arguments.done") with true.
  cbv iota. unfold relay_tool_call.
  unfold mbind at 1, lift at 1. rewrite Hid. cbv beta iota.
  unfold mbind at 1, lift at 1. rewrite Hname. cbv beta iota.
  unfold mbind at 1, lift at 1. rewrite Htext. cbv beta iota.
  unfold mbind at 1, lift at 1. rewrite Hloads. cbv beta iota.
  pose proof (handle_tool_call_ok_printed _ _ _ _ _ _ Hcall) as Hprint.
  unfold mbind at 1, lift at 1. rewrite Hprint. cbv beta iota.
  unfold mbind at 1, get at 1. cbv beta iota. rewrite Hc.
  unfold mbind at 1. unfold on_client at 1. rewrite Hcall. cbv beta iota.
  fold (client_stored session_id m1 w).
  unfold mbind at 1, lift at 1.
  rewrite (py_print_name_dict name arguments result Hprint
             (handle_tool_call_dict _ _ _ _ _ _ Hcall)).
  cbv beta iota.
  unfold forward_search, answer_upstream, forward_cart.
  rewrite !mbind_assoc. reflexivity.
Qed.

(** The cart branch of the dispatcher: the tool works on the list object
    the client's cart refers to. *)
Lemma add_to_cart_run gw tool_args product_name quantity m result d cart' :
  py_getitem tool_args "product_name" = Ok product_name ->
  py_get tool_args "quantity" (PInt 1) = Ok quantity ->
  tool_add_to_cart gw product_name quantity
    (cart_list (carts m) (cart (state (self m))))
  = Ok (result, cart') ->
  result = PDict d ->
  handle_tool_call gw (PStr "add_to_cart") tool_args m
  = (Ok result, store_cart (cart (state (self m))) cart' m).
Proof.
  intros Hname Hquantity Htool ->.
  rewrite handle_tool_call_printed by printed. unfold dispatch, dispatch_body.
  change (py_eq_lit (PStr "add_to_cart") "search_products") with false.
  change (py_eq_lit (PStr "add_to_cart") "add_to_cart") with true.
  cbv iota. unfold m_try, mbind, lift, ret, modify, get. cbv beta.
  rewrite (getitem_get _ _ _ PNone Hname), Hname, Hquantity. cbv beta iota.
  rewrite Htool. cbv beta iota zeta. cbn [fst snd py_get].
  destruct (py_truthy _); reflexivity.
Qed.

Lemma answer_upstream_stored session_id call_id result m w :
  exists m',
    answer_upstream session_id call_id result (client_stored session_id m w)
    = (Ok tt, client_stored session_id m' w) /\
    send_tool_response call_id result
      {| self := self m; carts := carts m |} = (Ok tt, m') /\
    state (self m') = state (self m) /\ carts m' = carts m.
Proof.
  destruct (send_tool_response_state call_id result
              {| self := self m; carts := carts m |})
    as (m' & Hsend & Hstate & Hcarts).
  exists m'. split; [|split; [exact Hsend|split; assumption]].
  unfold answer_upstream, mbind, get. cbv beta iota.
  cbn [client_stored manager voice_clients]. rewrite lookup_insert_eq.
  unfold on_client, client_stored.
  cbn [objects manager active_connections voice_clients voice_mode_active
       active_sessions delivered upstream_closed].
  rewrite Hsend, insert_insert_eq. reflexivity.
Qed.

(** The frame that tells the browser about the cart. *)
Definition cart_updated (cart : list pyval) : pyval :=
  PDict [("type", PStr "cart_updated"); ("cart", PList cart)].

(** A successful [add_to_cart] call through the relay: the tool changes
    the list object of the client's cart, and the browser is sent the
    list object of the session's cart. *)
Lemma relay_add_to_cart_run gw session_id event call_id text tool_args
    product_name quantity c d sock w result fields success cart' :
  py_get event "type" PNone
  = Ok (PStr "response.function_call_arguments.done") ->
  py_getitem event "call_id" = Ok call_id ->
  py_getitem event "name" = Ok (PStr "add_to_cart") ->
  py_getitem event "arguments" = Ok text ->
  json_loads text = Ok tool_args ->
  py_getitem tool_args "product_name" = Ok product_name ->
  py_get tool_args "quantity" (PInt 1) = Ok quantity ->
  voice_clients (manager w) !! session_id = Some c ->
  active_sessions w !! session_id = Some d ->
  active_connections (manager w) !! session_id = Some sock ->
  tool_add_to_cart gw product_name quantity
    (cart_list (objects w) (cart (state c)))
  = Ok (result, cart') ->
  result = PDict fields ->
  assoc "success" fields = Some success ->
  py_truthy success = true ->
  exists w' c',
    handle_voice_event gw session_id event w = (Ok tt, w') /\
    voice_clients (manager w') !! session_id = Some c' /\
    state c' = state c /\
    active_sessions w' = active_sessions w /\
    active_connections (manager w') = active_connections (manager w) /\
    objects w' = <[cart (state c) := cart']> (objects w) /\
    delivered w'
    = delivered w
      ++ [(sock, cart_updated (cart_list (objects w') (session_cart d)))].
Proof.
  intros Htype Hid Hname Htext Hloads Hproduct Hquantity Hc Hd Hsock Htool
    Hresult Hsuccess Htruthy.
  pose proof (add_to_cart_run gw tool_args product_name quantity
                {| self := c; carts := objects w |} result fields cart'
                Hproduct Hquantity Htool Hresult) as Hcall.
  rewrite (relay_tool_call_dispatched gw session_id event call_id _ text
             tool_args c w result _ Htype Hid Hname Htext Hloads Hc Hcall).
  set (m1 := store_cart _ _ _).
  unfold mbind at 1. unfold forward_search, succeeded.
  change (py_eq_lit (PStr "add_to_cart") "search_products") with false.
  cbv iota. unfold mbind at 1, lift at 1, ret at 1. cbv beta iota.
  unfold mbind at 1.
  destruct (answer_upstream_stored session_id call_id result m1 w)
    as (m2 & Hanswer & _ & Hstate & Hcarts).
  rewrite Hanswer. cbv beta iota.
  unfold forward_cart, succeeded.
  change (py_eq_lit (PStr "add_to_cart") "add_to_cart") with true.
  change (py_eq_lit (PStr "add_to_cart") "place_salesforce_order")
    with false.
  cbv iota. subst result. cbn [py_get bind]. rewrite Hsuccess.
  cbn [bind]. rewrite Htruthy.
  unfold mbind, lift, ret, modify, session_cart_of. cbv beta iota.
  cbn [client_stored active_sessions]. rewrite Hd. cbv beta iota.
  unfold send_message. cbn [client_stored manager active_connections].
  rewrite Hsock. eexists _, _. split; [reflexivity|].
  cbn [client_stored manager voice_clients active_sessions objects
       delivered active_connections].
  rewrite lookup_insert_eq. split; [reflexivity|].
  split; [rewrite Hstate; reflexivity|].
  split; [reflexivity|]. split; [reflexivity|].
  rewrite Hcarts. split; reflexivity.
Qed.

(** A failure result is not a success. *)
Lemma failure_not_success message success :
  py_get (failure message) "success" PNone = Ok success ->
  py_truthy success = false.
Proof. intros Heq. injection Heq as <-. reflexivity. Qed.

(** An [add_to_cart] call that the dispatcher answers with success: the
    arguments had a product name, the tool returned that result, and the
    list object of the client's cart is the cart the tool left. *)
Lemma add_to_cart_answered gw tool_args m result m1 success :
  handle_tool_call gw (PStr "add_to_cart") tool_args m = (Ok result, m1) ->
  py_get result "success" PNone = Ok success ->
  py_truthy success = true ->
  exists product_name quantity cart',
    py_getitem tool_args "product_name" = Ok product_name /\
    py_get tool_args "quantity" (PInt 1) = Ok quantity /\
    tool_add_to_cart gw product_name quantity
      (cart_list (carts m) (cart (state (self m))))
    = Ok (result, cart') /\
    m1 = store_cart (cart (state (self m))) cart' m.
Proof.
  intros Hcall Hsuccess Htruthy.
  rewrite handle_tool_call_printed in Hcall
    by exact (handle_tool_call_ok_printed _ _ _ _ _ _ Hcall).
  unfold dispatch, dispatch_body in Hcall.
  change (py_eq_lit (PStr "add_to_cart") "search_products") with false
    in Hcall.
  change (py_eq_lit (PStr "add_to_cart") "add_to_cart") with true in Hcall.
  cbv iota in Hcall.
  unfold m_try, mbind, lift, ret, modify, get in Hcall. cbv beta in Hcall.
  assert (Hfailed : forall message m',
             (Ok (failure message), m') = (Ok result, m1) -> False).
  { intros message m' Heq. injection Heq as <- _.
    rewrite (failure_not_success _ _ Hsuccess) in Htruthy. discriminate. }
  destruct (py_get tool_args "product_name" PNone) as [shown|e];
    cbv beta iota in Hcall; [|destruct (Hfailed _ _ Hcall)].
  destruct (py_getitem tool_args "product_name") as [product_name|e]
    eqn:Hproduct; cbv beta iota in Hcall; [|destruct (Hfailed _ _ Hcall)].
  destruct (py_get tool_args "quantity" (PInt 1)) as [quantity|e]
    eqn:Hquantity; cbv beta iota in Hcall; [|destruct (Hfailed _ _ Hcall)].
  destruct (tool_add_to_cart gw product_name quantity
              (cart_list (carts m) (cart (state (self m)))))
    as [[out cart']|e] eqn:Htool; cbv beta iota zeta in Hcall;
    [|destruct (Hfailed _ _ Hcall)].
  cbn [fst snd] in Hcall.
  destruct (py_get out "success" PNone) as [flag|e];
    cbv beta iota in Hcall; [|destruct (Hfailed _ _ Hcall)].
  destruct (if py_truthy flag then Ok PNone else py_get out "message" PNone)
    as [shown'|e]; cbv beta iota in Hcall; [|destruct (Hfailed _ _ Hcall)].
  injection Hcall as <- <-.
  exists product_name, quantity, cart'.
  repeat split; first [assumption|reflexivity].
Qed.

(** X8. As long as the session and the voice client refer to the same
    list object, as [connect] leaves them, an [add_to_cart] call that
    the dispatcher answers with success shows in the browser at once:
    the tool was called with the product name and the quantity of the
    arguments on that list, and the relay delivers one [cart_updated]
    frame with the cart the tool has left, which is the cart of the
    client and of the session alike. *)
Theorem cart_updated_carries_session_cart gw session_id event call_id text
    tool_args c d sock w result m1 success :
  py_get event "type" PNone
  = Ok (PStr "response.function_call_arguments.done") ->
  py_getitem event "call_id" = Ok call_id ->
  py_getitem event "name" = Ok (PStr "add_to_cart") ->
  py_getitem event "arguments" = Ok text ->
  json_loads text = Ok tool_args ->
  voice_clients (manager w) !! session_id = Some c ->
  active_sessions w !! session_id = Some d ->
  active_connections (manager w) !! session_id = Some sock ->
  session_cart d = cart (state c) ->
  (cart (state c) < length (objects w))%nat ->
  handle_tool_call gw (PStr "add_to_cart") tool_args
    {| self := c; carts := objects w |}
  = (Ok result, m1) ->
  py_get result "success" PNone = Ok success ->
  py_truthy success = true ->
  exists product_name quantity cart' w' c',
    py_getitem tool_args "product_name" = Ok product_name /\
    py_get tool_args "quantity" (PInt 1) = Ok quantity /\
    tool_add_to_cart gw product_name quantity
      (cart_list (objects w) (cart (state c)))
    = Ok (result, cart') /\
    handle_voice_event gw session_id event w = (Ok tt, w') /\
    delivered w' = delivered w ++ [(sock, cart_updated cart')] /\
    voice_clients (manager w') !! session_id = Some c' /\
    active_sessions w' !! session_id = Some d /\
    cart_list (objects w') (cart (state c')) = cart' /\
    cart_list (objects w') (session_cart d) = cart'.
Proof.
  intros Htype Hid Hname Htext Hloads Hc Hd Hsock Hlinked Hvalid Hcall
    Hsuccess Htruthy.
  destruct (add_to_cart_answered gw tool_args _ result m1 success Hcall
              Hsuccess Htruthy)
    as (product_name & quantity & cart' & Hproduct & Hquantity & Htool & _).
  cbn [self carts] in Htool.
  pose proof (get_is_dict _ _ _ _ Hsuccess) as Hdict.
  destruct result as [| | | | | |fields|]; try discriminate Hdict.
  assert (Hfield : assoc "success" fields = Some success).
  { cbn [py_get] in Hsuccess. destruct (assoc "success" fields) as [x|].
    - congruence.
    - injection Hsuccess as <-. discriminate Htruthy. }
  destruct (relay_add_to_cart_run gw session_id event call_id text tool_args
              product_name quantity c d sock w (PDict fields) fields success
              cart' Htype Hid Hname Htext Hloads Hproduct Hquantity Hc Hd
              Hsock Htool eq_refl Hfield Htruthy)
    as (w' & c' & Hrun & Hc' & Hstate & Hsessions & _ & Hobjects
        & Hdelivered).
  assert (Hclient : cart_list (objects w') (cart (state c)) = cart').
  { unfold cart_list. rewrite Hobjects.
    rewrite list_lookup_insert_eq by exact Hvalid. reflexivity. }
  exists product_name, quantity, cart', w', c'.
  split; [exact Hproduct|]. split; [exact Hquantity|].
  split; [exact Htool|]. split; [exact Hrun|].
  split; [rewrite Hdelivered, Hlinked, Hclient; reflexivity|].
  split; [exact Hc'|]. split; [rewrite Hsessions; exact Hd|].
  split; [rewrite Hstate; exact Hclient|].
  rewrite Hlinked. exact Hclient.
Qed.



(** *** The answer to a tool call *)

(** What has gone upstream on the voice client of a session. *)
Definition sent_of (session_id : string) (w : World)
  : option (list pyval) :=
  sent <$> (voice_clients (manager w) !! session_id).

Lemma session_cart_of_keeps {X : Type} (f : World -> X) session_id :
  keeps f (session_cart_of session_id).
Proof.
  intros w. unfold session_cart_of.
  destruct (active_sessions w !! session_id); reflexivity.
Qed.

Lemma send_message_keeps_sent session_id message :
  keeps (sent_of session_id) (modify (send_message session_id message)).
Proof.
  apply keeps_modify. intros w. unfold sent_of.
  rewrite send_message_manager. reflexivity.
Qed.

Lemma reset_session_cart_keeps_sent session_id :
  keeps (sent_of session_id) (reset_session_cart session_id).
Proof.
  intros w. unfold reset_session_cart.
  destruct (active_sessions w !! session_id); reflexivity.
Qed.

Lemma rebind_cart_keeps_sent session_id :
  keeps (sent_of session_id)
    (w2 <~ get ;;
     match voice_clients (manager w2) !! session_id with
     | Some c2 => on_client session_id c2 (modify bind_new_cart)
     | None => ret tt
     end).
Proof.
  intros w. unfold mbind, get. cbv beta iota.
  destruct (voice_clients (manager w) !! session_id) as [c2|] eqn:Hc;
    [|reflexivity].
  unfold on_client, modify, sent_of. simpl.
  rewrite lookup_insert_eq, Hc. reflexivity.
Qed.

Lemma forward_cart_keeps_sent session_id name result :
  keeps (sent_of session_id) (forward_cart session_id name result).
Proof.
  unfold forward_cart.
  repeat first
    [ apply send_message_keeps_sent
    | apply session_cart_of_keeps
    | apply reset_session_cart_keeps_sent
    | apply (keeps_mbind _ _ _ (rebind_cart_keeps_sent session_id)); intros
    | keeps_step ].
Qed.

(** A successful search result has its products, and they can be
    counted. *)
Lemma handle_tool_call_search gw tool_args m result m' success :
  handle_tool_call gw (PStr "search_products") tool_args m
  = (Ok result, m') ->
  py_get result "success" PNone = Ok success ->
  py_truthy success = true ->
  exists products n,
    py_get result "products" (PList []) = Ok products /\
    py_len products = Ok n.
Proof.
  intros Hcall.
  pose proof (handle_tool_call_ok_printed _ _ _ _ _ _ Hcall) as Hprint.
  revert Hcall. rewrite handle_tool_call_printed by exact Hprint.
  unfold dispatch, dispatch_body.
  change (py_eq_lit (PStr "search_products") "search_products") with true.
  cbv iota. unfold m_try, mbind, lift, ret. cbv beta.
  destruct (tool_search_products gw tool_args) as [products|e]; cbv iota.
  - destruct (py_len products) as [n|e] eqn:Hlen; cbv iota.
    + intros Heq. injection Heq as <- _. intros _ _.
      exists products, n. split; [reflexivity|exact Hlen].
    + intros Heq. injection Heq as <- _. simpl. intros Heq.
      injection Heq as <-. discriminate.
  - intros Heq. injection Heq as <- _. simpl. intros Heq.
    injection Heq as <-. discriminate.
Qed.

Lemma forward_search_runs gw session_id name tool_args m result m1 w :
  handle_tool_call gw name tool_args m = (Ok result, m1) ->
  exists w',
    forward_search session_id name result w = (Ok tt, w') /\
    manager w' = manager w /\ objects w' = objects w.
Proof.
  intros Hcall. unfold forward_search, succeeded.
  destruct (py_eq_lit name "search_products") eqn:Hname.
  - assert (name = PStr "search_products") as ->.
    { destruct name; try discriminate. simpl in Hname.
      apply String.eqb_eq in Hname. congruence. }
    pose proof (handle_tool_call_dict gw _ tool_args m result m1 Hcall)
      as Hdict.
    destruct result as [| | | | | |d|]; try discriminate Hdict.
    assert (exists success, py_get (PDict d) "success" PNone = Ok success)
      as (success & Hsuccess) by (eexists; reflexivity).
    unfold mbind at 1, lift at 1. rewrite Hsuccess. cbn [bind].
    destruct (py_truthy success) eqn:Htruthy; cbv beta iota.
    + destruct (handle_tool_call_search gw tool_args m (PDict d) m1 success
                  Hcall Hsuccess Htruthy) as (products & n & Hp & Hn).
      unfold mbind, lift, modify. rewrite Hp. cbv beta iota. rewrite Hn.
      cbv beta iota. eexists. split; [reflexivity|].
      rewrite send_message_manager, send_message_objects. split; reflexivity.
    + exists w. repeat split; reflexivity.
  - exists w. repeat split; reflexivity.
Qed.

(** X10. Whenever the dispatcher returns a result for a completed
    function call of a session whose voice client has an open
    connection, the relay answers the call: whatever the tool is and
    whatever it returns, when the result can be serialised the client
    sends one [function_call_output] item with the call id of the event
    and that result, then [response.create], and nothing else goes
    upstream, even when the relay raises afterwards. *)
Theorem relay_answers_tool_call gw session_id event call_id name text
    arguments c w result m1 output :
  py_get event "type" PNone
  = Ok (PStr "response.function_call_arguments.done") ->
  py_getitem event "call_id" = Ok call_id ->
  py_getitem event "name" = Ok name ->
  py_getitem event "arguments" = Ok text ->
  json_loads text = Ok arguments ->
  voice_clients (manager w) !! session_id = Some c ->
  ws_open c = true ->
  handle_tool_call gw name arguments {| self := c; carts := objects w |}
  = (Ok result, m1) ->
  json_dumps result = Ok output ->
  sent_of session_id (snd (handle_voice_event gw session_id event w))
  = Some (sent c
          ++ [PDict [("type", PStr "conversation.item.create");
                     ("item",
                      PDict [("type", PStr "function_call_output");
                             ("call_id", call_id);
                             ("output", PStr output)])];
              event_of_type "response.create"]).
Proof.
  intros Htype Hid Hname Htext Hloads Hc Hopen Hcall Hdumps.
  rewrite (relay_tool_call_dispatched gw session_id event call_id name text
             arguments c w result m1 Htype Hid Hname Htext Hloads Hc Hcall).
  pose proof (handle_tool_call_keeps_wire gw name arguments
                {| self := c; carts := objects w |}) as Hwire.
  rewrite Hcall in Hwire. unfold wire in Hwire. simpl in Hwire.
  assert (Hws : ws (self m1) = ws c) by congruence.
  assert (Hsent : sent (self m1) = sent c) by congruence.
  destruct (forward_search_runs gw session_id name arguments _ result m1
              (client_stored session_id m1 w) Hcall)
    as (w1 & Hsearch & Hmanager & Hobjects).
  unfold mbind at 1. rewrite Hsearch. cbv beta iota.
  unfold mbind at 1.
  assert (Hanswer :
            answer_upstream session_id call_id result w1
            = on_client session_id (self m1)
                (send_tool_response call_id result) w1).
  { unfold answer_upstream, mbind, get. cbv beta iota. rewrite Hmanager.
    cbn [client_stored manager voice_clients]. rewrite lookup_insert_eq.
    reflexivity. }
  rewrite Hanswer. unfold on_client at 1.
  rewrite (send_tool_response_open call_id result output _)
    by (try exact Hdumps; unfold ws_open in *; simpl; rewrite Hws;
        exact Hopen).
  cbv beta iota.
  rewrite (forward_cart_keeps_sent session_id name result _).
  unfold sent_of. cbn [manager voice_clients]. rewrite lookup_insert_eq.
  simpl. rewrite Hsent, <- app_assoc. reflexivity.
Qed.

End RelayFurther.

(** ** main.py: opening a session and the browser's frames *)

(** [manager.voice_mode_active[session_id] = mode] *)
Definition set_voice_mode (session_id : string) (mode : bool) (w : World)
  : World :=
  with_manager (fun mg =>
    {| active_connections := active_connections mg;
       voice_clients := voice_clients mg;
       voice_mode_active := <[session_id := mode]> (voice_mode_active mg) |})
    w.

Module Manager.
Section Connect.
Context `{PyRuntime}.
Variable session_settings : pyval.

(** [await voice_client.connect()] with the outcome [attempt] of the
    connection attempt. *)
Definition client_connect (attempt : Attempt) (m : ClientMem)
  : res unit * ClientMem :=
  let '(r, L) :=
    connect session_settings (fun _ => attempt)
      {| mem := m; live := None; attempts := 0%nat; trace := [] |} in
  (r, mem L).

(** [active_sessions[session_id]], created with a new empty cart when
    the session has none: the session table, the list objects and the
    session's entry. *)
Definition session_entry (session_id : string) (w : World)
  : gmap string SessionData * list (list pyval) * SessionData :=
  match active_sessions w !! session_id with
  | Some d => (active_sessions w, objects w, d)
  | None =>
      let d := {| session_cart := length (objects w);
                  voice_mode := false |} in
      (<[session_id := d]> (active_sessions w), objects w ++ [[]], d)
  end.

(** [RealtimeVoiceClient()] followed by the two assignments that link it
    to the session: the client's own new cart list is left behind for
    the session's. *)
Definition linked_client (session_id : string) (d : SessionData)
    (lists : list (list pyval)) : ClientMem :=
  set_session_id (PStr session_id)
    (with_state (set_cart (session_cart d))
       {| self := {| ws := NoSocket; session_id := PNone;
                     state := {| cart := length lists; customer := PNone;
                                 order_number := PNone;
                                 conversation_history := [] |};
                     keepalive_task := false; is_connected := false;
                     sent := [] |};
          carts := lists ++ [[]] |}).

Definition system_frame : pyval :=
  PDict [("type", PStr "system");
         ("message", PStr "Connected to shopping assistant")].

Definition connect_error_frame (e : exn) : pyval :=
  PDict [("type", PStr "error");
         ("message", PStr ("Failed to connect assistant: " +:+ exn_str e))].

(** [ConnectionManager.connect(session_id, websocket)].  The reader task
    it starts on success is [listen_to_voice_client] below. *)
Definition connect (attempt : Attempt) (session_id : string)
    (websocket : nat) (w : World) : World :=
  let '(sessions, lists, d) := session_entry session_id w in
  let '(r, m) := client_connect attempt (linked_client session_id d lists) in
  {| manager :=
       {| active_connections :=
            <[session_id := websocket]> (active_connections (manager w));
          voice_clients :=
            <[session_id := self m]> (voice_clients (manager w));
          voice_mode_active :=
            <[session_id := false]> (voice_mode_active (manager w)) |};
     active_sessions := sessions;
     objects := carts m;
     delivered :=
       delivered w
       ++ [(websocket,
            match r with
            | Ok _ => system_frame
            | Raise e => connect_error_frame e
            end)];
     upstream_closed := upstream_closed w |}.

End Connect.
End Manager.

Section Chat.
Context `{PyRuntime}.

(** [base64.b64encode(audio_data).decode()] *)
Variable b64encode : pyval -> res pyval.

(** [send_text(text)] *)
Definition send_text (text : pyval) : M ClientMem unit :=
  m <~ get ;;
  if negb (ws_open (self m)) then ret tt
  else
    m_try
      (let event :=
         PDict [("type", PStr "conversation.item.create");
                ("item",
                 PDict [("type", PStr "message");
                        ("role", PStr "user");
                        ("content",
                         PList [PDict [("type", PStr "input_text");
                                       ("text", text)]])])] in
       _ <~ lift (json_dumps event) ;;
       modify (ws_send event) ;;;
       modify (ws_send (event_of_type "response.create")))
      (fun _ => ret tt).

(** [send_audio(audio_data)] *)
Definition send_audio (audio_data : pyval) : M ClientMem unit :=
  m <~ get ;;
  if negb (ws_open (self m)) then ret tt
  else
    m_try
      (audio <~ lift (b64encode audio_data) ;;
       let event := PDict [("type", PStr "input_audio_buffer.append");
                           ("audio", audio)] in
       _ <~ lift (json_dumps event) ;;
       modify (ws_send event))
      (fun _ => ret tt).

(** [commit_audio()] *)
Definition commit_audio : M ClientMem unit :=
  m <~ get ;;
  if negb (ws_open (self m)) then ret tt
  else modify (ws_send (event_of_type "input_audio_buffer.commit")).

(** [voice_client = manager.voice_clients.get(session_id)] and, when
    there is one, a method of it. *)
Definition with_voice_client (session_id : string) (act : M ClientMem unit)
  : M World unit :=
  w <~ get ;;
  match voice_clients (manager w) !! session_id with
  | Some c => on_client session_id c act
  | None => ret tt
  end.

(** The body of the loop of [websocket_chat] on one received frame. *)
Definition chat_frame (session_id : string) (data : pyval) : M World unit :=
  message_type <~ lift (py_get data "type" PNone) ;;
  if py_eq_lit message_type "text" then
    content <~ lift (py_get data "content" PNone) ;;
    modify (set_voice_mode session_id false) ;;;
    modify (send_message session_id
              (PDict [("type", PStr "user_message"); ("content", content);
                      ("mode", PStr "text")])) ;;;
    with_voice_client session_id (send_text content)
  else if py_eq_lit message_type "audio" then
    audio_data <~ lift (py_get data "audio" PNone) ;;
    modify (set_voice_mode session_id true) ;;;
    w <~ get ;;
    match voice_clients (manager w) !! session_id with
    | Some c =>
        audio_bytes <~ lift (b64decode audio_data) ;;
        on_client session_id c (send_audio audio_bytes)
    | None => ret tt
    end
  else if py_eq_lit message_type "audio_commit" then
    with_voice_client session_id commit_audio
  else if py_eq_lit message_type "voice_mode_off" then
    modify (set_voice_mode session_id false)
  else if py_eq_lit message_type "voice_mode_on" then
    modify (set_voice_mode session_id true)
  else if py_eq_lit message_type "ping" then
    modify (send_message session_id (event_of_type "pong"))
  else ret tt.

(** The loop of [websocket_chat] on the frames the browser sends, up to
    the first frame whose handling raises. *)
Fixpoint chat_frames (session_id : string) (frames : list pyval)
  : M World unit :=
  match frames with
  | [] => ret tt
  | data :: rest =>
      chat_frame session_id data ;;; chat_frames session_id rest
  end.

(** [websocket_chat(websocket, session_id)] for a browser that sends
    [frames] and then goes away: both ways out of the loop, the
    browser's disconnect and an exception, end in [manager.disconnect]. *)
Definition websocket_chat (session_settings : pyval) (attempt : Attempt)
    (websocket : nat) (session_id : string) (frames : list pyval)
    (w : World) : World :=
  disconnect session_id
    (snd (chat_frames session_id frames
            (Manager.connect session_settings attempt session_id websocket
               w))).

(** The loop of [listen_to_voice_client] over the messages read from the
    upstream socket, up to the first message that cannot be decoded or
    relayed. *)
Fixpoint relay_messages (gw : Gateway) (session_id : string)
    (msgs : list pyval) : M World unit :=
  match msgs with
  | [] => ret tt
  | message :: rest =>
      (event <~ lift (json_loads message) ;;
       handle_voice_event gw session_id event) ;;;
      relay_messages gw session_id rest
  end.

(** [listen_to_voice_client(session_id)] on the messages of the upstream
    connection: nothing without a voice client or without a socket;
    whatever ends the loop is caught. *)
Definition listen_to_voice_client (gw : Gateway) (session_id : string)
    (msgs : list pyval) (w : World) : World :=
  match voice_clients (manager w) !! session_id with
  | None => w
  | Some c =>
      match ws c with
      | NoSocket => w
      | _ => snd (relay_messages gw session_id msgs w)
      end
  end.

End Chat.

(** ** Properties of opening a session and of the browser's frames *)

Section SessionProperties.
Context `{PyRuntime} (session_settings : pyval).

(** The cart a session has, empty when there is no such session. *)
Definition session_cart_list (session_id : string) (w : World)
  : list pyval :=
  match active_sessions w !! session_id with
  | Some d => cart_list (objects w) (session_cart d)
  | None => []
  end.

Lemma cart_list_new lists ref :
  cart_list (lists ++ [[]]) ref = cart_list lists ref.
Proof.
  unfold cart_list. destruct (lists !! ref) as [l|] eqn:Hl.
  - rewrite (lookup_app_l_Some _ _ _ _ Hl). reflexivity.
  - apply lookup_ge_None in Hl. rewrite lookup_app_r by exact Hl.
    destruct (ref - length lists)%nat as [|k]; reflexivity.
Qed.

(** What [connect] does, in one place. *)
Lemma connect_effect attempt session_id websocket w :
  exists c d,
    let w' := Manager.connect session_settings attempt session_id websocket
                w in
    manager w'
    = {| active_connections :=
           <[session_id := websocket]> (active_connections (manager w));
         voice_clients := <[session_id := c]> (voice_clients (manager w));
         voice_mode_active :=
           <[session_id := false]> (voice_mode_active (manager w)) |} /\
    active_sessions w' !! session_id = Some d /\
    (forall other, other <> session_id ->
       active_sessions w' !! other = active_sessions w !! other) /\
    cart (state c) = session_cart d /\
    session_cart_list session_id w' = session_cart_list session_id w /\
    upstream_closed w' = upstream_closed w /\
    match attempt with
    | Accepted _ =>
        ws c = Open /\ is_connected c = true /\
        sent c = [PDict [("type", PStr "session.update");
                         ("session", session_settings)]] /\
        delivered w' = delivered w ++ [(websocket, Manager.system_frame)]
    | Failed e =>
        ws c = NoSocket /\ is_connected c = false /\ sent c = [] /\
        delivered w'
        = delivered w ++ [(websocket, Manager.connect_error_frame e)]
    | Dropped e =>
        ws c = Closed /\ is_connected c = false /\ sent c = [] /\
        delivered w'
        = delivered w ++ [(websocket, Manager.connect_error_frame e)]
    end.
Proof.
  unfold Manager.connect, Manager.session_entry, session_cart_list.
  destruct (active_sessions w !! session_id) as [d0|] eqn:Hd.
  - unfold Manager.client_connect, connect. cbn [attempts].
    destruct attempt as [s|e|e]; cbv beta iota zeta; cbn [mem];
      eexists _, d0; cbn [manager active_sessions objects delivered
                           upstream_closed];
      (split; [reflexivity|]); rewrite Hd;
      (split; [reflexivity|]); (split; [reflexivity|]);
      (split; [reflexivity|]);
      (split; [simpl; apply cart_list_new|]);
      (split; [reflexivity|]); repeat split; reflexivity.
  - unfold Manager.client_connect, connect. cbn [attempts].
    destruct attempt as [s|e|e]; cbv beta iota zeta; cbn [mem];
      eexists _, _; cbn [manager active_sessions objects delivered
                          upstream_closed];
      (split; [reflexivity|]); rewrite lookup_insert_eq;
      (split; [reflexivity|]);
      (split; [intros other Hne; apply lookup_insert_ne; congruence|]);
      (split; [reflexivity|]);
      (split; [simpl; rewrite cart_list_new; unfold cart_list;
               rewrite lookup_app_r by lia; rewrite Nat.sub_diag;
               reflexivity|]);
      (split; [reflexivity|]); repeat split; reflexivity.
Qed.

(** X11. Opening a session never drops it: whether or not the assistant
    can be reached, [connect] registers the browser socket, a voice
    client and the text mode under the session id, makes the client's
    cart the very list of the session's cart, keeps what that cart held
    before and closes nothing.  When the assistant is reached the client
    is configured and the browser gets the [system] frame; when it is
    not, the browser gets one [error] frame saying so and the client
    has sent nothing: it stays without a socket when the connection
    could not be opened, and holds a closed socket when the connection
    was opened and the session could not be configured on it. *)
Theorem connect_registers_and_links attempt session_id websocket w :
  exists c d,
    let w' := Manager.connect session_settings attempt session_id websocket
                w in
    active_connections (manager w') !! session_id = Some websocket /\
    voice_clients (manager w') !! session_id = Some c /\
    voice_mode_active (manager w') !! session_id = Some false /\
    active_sessions w' !! session_id = Some d /\
    cart (state c) = session_cart d /\
    session_cart_list session_id w' = session_cart_list session_id w /\
    upstream_closed w' = upstream_closed w /\
    match attempt with
    | Accepted _ =>
        ws c = Open /\ is_connected c = true /\
        sent c = [PDict [("type", PStr "session.update");
                         ("session", session_settings)]] /\
        delivered w' = delivered w ++ [(websocket, Manager.system_frame)]
    | Failed e =>
        ws c = NoSocket /\ is_connected c = false /\ sent c = [] /\
        delivered w'
        = delivered w ++ [(websocket, Manager.connect_error_frame e)]
    | Dropped e =>
        ws c = Closed /\ is_connected c = false /\ sent c = [] /\
        delivered w'
        = delivered w ++ [(websocket, Manager.connect_error_frame e)]
    end.
Proof.
  destruct (connect_effect attempt session_id websocket w)
    as (c & d & Hmanager & Hd & _ & Hlink & Hcart & Hclosed & Hattempt).
  exists c, d. cbv zeta in *. rewrite Hmanager.
  cbn [active_connections voice_clients voice_mode_active].
  rewrite !lookup_insert_eq. repeat split; try assumption; reflexivity.
Qed.

Variable b64encode : pyval -> res pyval.

(** The three methods that send the browser's input upstream change
    nothing of a client but the record of what it has sent. *)
Definition unsent (m : ClientMem)
  : socket * pyval * AgentState * bool * bool * list (list pyval) :=
  (ws (self m), session_id (self m), state (self m),
   keepalive_task (self m), is_connected (self m), carts m).

Lemma send_text_keeps text : keeps unsent (send_text text).
Proof. unfold send_text. keeps_tac. Qed.

Lemma send_audio_keeps audio_data :
  keeps unsent (send_audio b64encode audio_data).
Proof. unfold send_audio. keeps_tac. Qed.

Lemma commit_audio_keeps : keeps unsent commit_audio.
Proof. unfold commit_audio. keeps_tac. Qed.

(** What a frame of the browser cannot change: whether the session's
    voice client has a socket, the closed upstream connections, the
    sessions and the list objects. *)
Definition beyond_chat (session_id : string) (w : World)
  : option socket * list string * gmap string SessionData
    * list (list pyval) :=
  (ws <$> (voice_clients (manager w) !! session_id), upstream_closed w,
   active_sessions w, objects w).

Lemma on_current_client_keeps session_id c (act : M ClientMem unit) w :
  keeps unsent act ->
  voice_clients (manager w) !! session_id = Some c ->
  beyond_chat session_id (snd (on_client session_id c act w))
  = beyond_chat session_id w.
Proof.
  intros Hact Hc. unfold on_client.
  specialize (Hact {| self := c; carts := objects w |}).
  destruct (act _) as [r m]. unfold unsent in Hact. simpl in Hact.
  unfold beyond_chat. simpl. rewrite lookup_insert_eq, Hc. simpl.
  f_equal; [f_equal; f_equal|]; congruence.
Qed.

Lemma with_voice_client_keeps session_id (act : M ClientMem unit) :
  keeps unsent act ->
  keeps (beyond_chat session_id) (with_voice_client session_id act).
Proof.
  intros Hact w. unfold with_voice_client, mbind, get. cbv beta iota.
  destruct (voice_clients (manager w) !! session_id) as [c|] eqn:Hc;
    [|reflexivity].
  apply on_current_client_keeps; assumption.
Qed.

Lemma send_message_upstream_closed session_id message w :
  upstream_closed (send_message session_id message w) = upstream_closed w.
Proof.
  unfold send_message.
  destruct (active_connections (manager w) !! session_id); reflexivity.
Qed.

Lemma send_message_keeps_beyond session_id message :
  keeps (beyond_chat session_id) (modify (send_message session_id message)).
Proof.
  apply keeps_modify. intros w. unfold beyond_chat.
  rewrite send_message_manager, send_message_sessions, send_message_objects,
    send_message_upstream_closed.
  reflexivity.
Qed.

Lemma chat_frame_keeps session_id data :
  keeps (beyond_chat session_id) (chat_frame b64encode session_id data).
Proof.
  unfold chat_frame. apply keeps_mbind; [apply keeps_lift|].
  intros message_type.
  destruct (py_eq_lit message_type "text").
  { repeat first
      [ apply send_message_keeps_beyond
      | apply with_voice_client_keeps, send_text_keeps
      | keeps_step ]. }
  destruct (py_eq_lit message_type "audio").
  { apply keeps_mbind; [apply keeps_lift|]. intros audio_data.
    apply keeps_mbind; [apply keeps_modify; intros; reflexivity|].
    intros _ w. unfold mbind, get, lift. cbv beta iota.
    destruct (voice_clients (manager w) !! session_id) as [c|] eqn:Hc;
      [|reflexivity].
    destruct (b64decode audio_data) as [audio_bytes|e]; [|reflexivity].
    apply on_current_client_keeps; [apply send_audio_keeps|exact Hc]. }
  destruct (py_eq_lit message_type "audio_commit").
  { apply with_voice_client_keeps, commit_audio_keeps. }
  repeat first [apply send_message_keeps_beyond | keeps_step].
Qed.

Lemma chat_frames_keeps session_id frames :
  keeps (beyond_chat session_id) (chat_frames b64encode session_id frames).
Proof.
  induction frames as [|data rest IH]; simpl.
  - apply keeps_ret.
  - apply keeps_mbind; [apply chat_frame_keeps|intros _; exact IH].
Qed.

(** What [disconnect] does beyond the manager's maps. *)
Lemma disconnect_effect session_id c w :
  voice_clients (manager w) !! session_id = Some c ->
  upstream_closed (disconnect session_id w)
  = (if ws_open c then upstream_closed w ++ [session_id]
     else upstream_closed w) /\
  active_sessions (disconnect session_id w) = active_sessions w /\
  objects (disconnect session_id w) = objects w /\
  delivered (disconnect session_id w) = delivered w.
Proof.
  intros Hc. unfold disconnect.
  set (w1 := if decide (is_Some (active_connections (manager w)
                                   !! session_id)) then _ else w).
  assert (H1 : voice_clients (manager w1) = voice_clients (manager w) /\
               upstream_closed w1 = upstream_closed w /\
               active_sessions w1 = active_sessions w /\
               objects w1 = objects w /\ delivered w1 = delivered w).
  { subst w1. destruct (decide _); repeat split; reflexivity. }
  destruct H1 as (Hv & Hu & Hs & Ho & Hd). clearbody w1. rewrite Hv, Hc.
  destruct (decide _); simpl; rewrite Hu, Hs, Ho, Hd;
    repeat split; reflexivity.
Qed.

(** X12. A chat session cleans up after itself: whatever frames the
    browser sends, and whether the loop ends because the browser goes
    away or because a frame raises, [websocket_chat] leaves the session
    in none of the manager's maps and closes the upstream connection it
    opened, once; when the assistant could not be reached there is
    nothing to close.  The session's cart outlives the connection with
    what it held. *)
Theorem websocket_chat_cleans_up attempt websocket session_id frames w :
  let w' := websocket_chat b64encode session_settings attempt websocket
              session_id frames w in
  unknown_session session_id w' /\
  upstream_closed w'
  = upstream_closed w
    ++ match attempt with
       | Accepted _ => [session_id]
       | Failed _ => []
       | Dropped _ => []
       end /\
  is_Some (active_sessions w' !! session_id) /\
  session_cart_list session_id w' = session_cart_list session_id w.
Proof.
  cbv zeta. unfold websocket_chat.
  destruct (connect_effect attempt session_id websocket w)
    as (c & d & Hmanager & Hd & _ & _ & Hcart & Hclosed & Hattempt).
  cbv zeta in *.
  set (w0 := Manager.connect session_settings attempt session_id websocket
               w) in *.
  pose proof (chat_frames_keeps session_id frames w0) as Hkeeps.
  set (w1 := snd (chat_frames b64encode session_id frames w0)) in *.
  unfold beyond_chat in Hkeeps.
  assert (Hc0 : voice_clients (manager w0) !! session_id = Some c).
  { rewrite Hmanager. simpl. apply lookup_insert_eq. }
  rewrite Hc0 in Hkeeps. simpl in Hkeeps.
  destruct (voice_clients (manager w1) !! session_id) as [c1|] eqn:Hc1;
    [|discriminate].
  simpl in Hkeeps. injection Hkeeps as Hws Hu Hs Ho.
  destruct (disconnect_effect session_id c1 w1 Hc1)
    as (Hu' & Hs' & Ho' & _).
  split; [apply disconnect_forgets|]. split; [|split].
  - rewrite Hu', Hu, Hclosed. unfold ws_open. rewrite Hws.
    destruct attempt as [s|e|e].
    + destruct Hattempt as (-> & _). reflexivity.
    + destruct Hattempt as (-> & _). rewrite app_nil_r. reflexivity.
    + destruct Hattempt as (-> & _). rewrite app_nil_r. reflexivity.
  - rewrite Hs', Hs, Hd. eexists. reflexivity.
  - rewrite <- Hcart. unfold session_cart_list. rewrite Hs', Ho', Hs, Ho.
    reflexivity.
Qed.

(** *** The voice mode the browser's frames leave *)

(** The voice mode a frame asks for: text and [voice_mode_off] turn it
    off, audio and [voice_mode_on] turn it on, any other frame leaves it
    alone. *)
Definition mode_of_frame (data : pyval) : option bool :=
  match py_get data "type" PNone with
  | Ok message_type =>
      if py_eq_lit message_type "text"
         || py_eq_lit message_type "voice_mode_off" then Some false
      else if py_eq_lit message_type "audio"
              || py_eq_lit message_type "voice_mode_on" then Some true
      else None
  | Raise _ => None
  end.

Definition mode_after (frames : list pyval) (mode : option bool)
  : option bool :=
  fold_left (fun current data =>
               match mode_of_frame data with
               | Some b => Some b
               | None => current
               end)
    frames mode.

(** The browser side of a session in the manager. *)
Definition browser_side (session_id : string) (w : World)
  : option bool * gmap string nat * list string :=
  (voice_mode_active (manager w) !! session_id,
   active_connections (manager w), upstream_closed w).

Lemma on_client_keeps_browser {A : Type} session_id other c
    (act : M ClientMem A) :
  keeps (browser_side session_id) (on_client other c act).
Proof.
  intros w. unfold on_client. destruct (act _) as [r m]. reflexivity.
Qed.

Lemma with_voice_client_keeps_browser session_id act :
  keeps (browser_side session_id) (with_voice_client session_id act).
Proof.
  unfold with_voice_client.
  repeat first [apply on_client_keeps_browser | keeps_step].
Qed.

Lemma send_message_keeps_browser session_id message :
  keeps (browser_side session_id)
    (modify (send_message session_id message)).
Proof.
  apply keeps_modify. intros w. unfold browser_side.
  rewrite send_message_manager, send_message_upstream_closed. reflexivity.
Qed.

Lemma set_voice_mode_then session_id mode (rest : M World unit) w :
  keeps (browser_side session_id) rest ->
  browser_side session_id
    (snd ((modify (set_voice_mode session_id mode) ;;; rest) w))
  = (Some mode, active_connections (manager w), upstream_closed w).
Proof.
  intros Hrest. unfold mbind, modify. cbv beta iota. rewrite Hrest.
  unfold browser_side, set_voice_mode. simpl. rewrite lookup_insert_eq.
  reflexivity.
Qed.

Lemma mbind_ret_r {S : Type} (m : M S unit) s : (m ;;; ret tt) s = m s.
Proof.
  unfold mbind, ret. destruct (m s) as [[[]|e] s']; reflexivity.
Qed.

Lemma py_eq_lit_true v s : py_eq_lit v s = true -> v = PStr s.
Proof.
  destruct v; simpl; try discriminate. intros Heq.
  apply String.eqb_eq in Heq. congruence.
Qed.

Ltac literal_type Heq :=
  apply py_eq_lit_true in Heq; subst;
  cbn [py_eq_lit String.eqb Ascii.eqb Bool.eqb orb andb]; cbv iota.

Lemma chat_frame_mode session_id data w :
  browser_side session_id (snd (chat_frame b64encode session_id data w))
  = (match mode_of_frame data with
     | Some b => Some b
     | None => voice_mode_active (manager w) !! session_id
     end,
     active_connections (manager w), upstream_closed w).
Proof.
  unfold chat_frame, mode_of_frame.
  destruct data as [| | | | | |fields|]; try reflexivity.
  cbn [py_get]. unfold mbind at 1, lift at 1. cbv beta iota.
  generalize (match assoc "type" fields with
              | Some x => x | None => PNone end).
  intros message_type.
  destruct (py_eq_lit message_type "text") eqn:Htext.
  { literal_type Htext. unfold mbind at 1, lift at 1. cbv beta iota.
    apply set_voice_mode_then.
    repeat first [apply send_message_keeps_browser
                 |apply with_voice_client_keeps_browser
                 |keeps_step]. }
  destruct (py_eq_lit message_type "audio") eqn:Haudio.
  { literal_type Haudio. unfold mbind at 1, lift at 1. cbv beta iota.
    apply set_voice_mode_then.
    repeat first [apply on_client_keeps_browser | keeps_step]. }
  destruct (py_eq_lit message_type "audio_commit") eqn:Hcommit.
  { literal_type Hcommit.
    apply (with_voice_client_keeps_browser session_id commit_audio w). }
  destruct (py_eq_lit message_type "voice_mode_off") eqn:Hoff.
  { literal_type Hoff. rewrite <- mbind_ret_r.
    apply set_voice_mode_then, keeps_ret. }
  destruct (py_eq_lit message_type "voice_mode_on") eqn:Hon.
  { literal_type Hon. rewrite <- mbind_ret_r.
    apply set_voice_mode_then, keeps_ret. }
  cbn [orb]. cbv iota.
  destruct (py_eq_lit message_type "ping").
  - apply (send_message_keeps_browser session_id _ w).
  - reflexivity.
Qed.

Lemma chat_frames_mode session_id frames w w' :
  chat_frames b64encode session_id frames w = (Ok tt, w') ->
  browser_side session_id w'
  = (mode_after frames (voice_mode_active (manager w) !! session_id),
     active_connections (manager w), upstream_closed w).
Proof.
  revert w. induction frames as [|data rest IH]; intros w; simpl.
  - intros Heq. injection Heq as <-. reflexivity.
  - unfold mbind at 1.
    pose proof (chat_frame_mode session_id data w) as Hframe.
    destruct (chat_frame b64encode session_id data w) as [[[]|e] w1];
      [|discriminate].
    intros Hrest. rewrite (IH w1 Hrest). simpl in Hframe.
    unfold browser_side in Hframe. injection Hframe as -> -> ->.
    reflexivity.
Qed.

(** The frame that carries a chunk of the assistant's audio. *)
Definition audio_delta_frame (delta : pyval) : pyval :=
  PDict [("type", PStr "audio_delta"); ("audio", delta)].

(** X13. Of all the frames the browser has sent, the last one that sets
    the voice mode decides whether the assistant's audio reaches it:
    text and [voice_mode_off] frames turn the mode off, audio and
    [voice_mode_on] frames turn it on, every other frame leaves it as it
    is, and an audio delta that arrives afterwards is delivered exactly
    when the mode is on. *)
Theorem last_mode_frame_gates_audio gw session_id sock frames w w' event
    delta :
  active_connections (manager w) !! session_id = Some sock ->
  chat_frames b64encode session_id frames w = (Ok tt, w') ->
  py_get event "type" PNone = Ok (PStr "response.audio.delta") ->
  py_getitem event "delta" = Ok delta ->
  let mode := mode_after frames (voice_mode_active (manager w) !! session_id)
  in
  voice_mode_active (manager w') !! session_id = mode /\
  exists w'',
    handle_voice_event gw session_id event w' = (Ok tt, w'') /\
    delivered w''
    = delivered w'
      ++ match mode with
         | Some true => [(sock, audio_delta_frame delta)]
         | _ => []
         end.
Proof.
  intros Hsock Hframes Htype Hdelta mode.
  pose proof (chat_frames_mode session_id frames w w' Hframes) as Hside.
  unfold browser_side in Hside. injection Hside as Hmode Hconn _.
  fold mode in Hmode. split; [exact Hmode|].
  unfold handle_voice_event. unfold mbind at 1, lift at 1.
  rewrite Htype. cbv beta iota.
  change (existsb _ ignored_event_types) with false. cbv iota.
  cbn [py_eq_lit String.eqb Ascii.eqb Bool.eqb andb]. cbv iota.
  unfold mbind, get, lift, modify, ret. cbv beta iota zeta. rewrite Hmode.
  destruct mode as [[|]|]; cbn [default from_option id]; cbv iota.
  - rewrite Hdelta. cbv beta iota. eexists. split; [reflexivity|].
    unfold send_message. rewrite Hconn, Hsock. reflexivity.
  - exists w'. split; [reflexivity|]. rewrite app_nil_r. reflexivity.
  - exists w'. split; [reflexivity|]. rewrite app_nil_r. reflexivity.
Qed.

(** The event that carries a typed message upstream. *)
Definition text_event (text : pyval) : pyval :=
  PDict [("type", PStr "conversation.item.create");
         ("item",
          PDict [("type", PStr "message");
                 ("role", PStr "user");
                 ("content",
                  PList [PDict [("type", PStr "input_text");
                                ("text", text)]])])].

(** X14. A typed message is always echoed to the browser as a
    [user_message] in text mode; it reaches the assistant, followed by
    [response.create], only when the voice client's socket is open.
    When the socket is not open, as after a failed connect, or the
    message cannot be serialised, nothing goes upstream and the browser
    is not told: the frame is handled without an exception and without
    an error frame. *)
Theorem text_frame_echoed_then_sent session_id sock c data content w :
  py_get data "type" PNone = Ok (PStr "text") ->
  py_get data "content" PNone = Ok content ->
  active_connections (manager w) !! session_id = Some sock ->
  voice_clients (manager w) !! session_id = Some c ->
  exists w',
    chat_frame b64encode session_id data w = (Ok tt, w') /\
    delivered w'
    = delivered w
      ++ [(sock, PDict [("type", PStr "user_message"); ("content", content);
                        ("mode", PStr "text")])] /\
    sent_of session_id w'
    = Some (sent c
            ++ if ws_open c then
                 match json_dumps (text_event content) with
                 | Ok _ => [text_event content;
                            event_of_type "response.create"]
                 | Raise _ => []
                 end
               else []).
Proof.
  intros Htype Hcontent Hsock Hc. unfold chat_frame.
  unfold mbind at 1, lift at 1. rewrite Htype. cbv beta iota.
  cbn [py_eq_lit String.eqb Ascii.eqb Bool.eqb andb]. cbv iota.
  unfold mbind at 1, lift at 1. rewrite Hcontent. cbv beta iota.
  unfold mbind at 1, modify at 1. cbv beta iota.
  unfold mbind at 1, modify at 1. cbv beta iota.
  unfold with_voice_client, mbind at 1, get at 1. cbv beta iota.
  rewrite send_message_manager. cbn [set_voice_mode with_manager manager
    voice_clients]. rewrite Hc.
  unfold on_client, send_text. unfold mbind at 1, get at 1. cbv beta iota.
  cbn [self]. fold (text_event content).
  unfold send_message. cbn [set_voice_mode with_manager manager
    active_connections]. rewrite Hsock.
  cbn [objects delivered manager active_connections voice_clients
       voice_mode_active active_sessions upstream_closed].
  destruct (ws_open c) eqn:Hopen; cbn [negb]; cbv iota.
  - unfold m_try, mbind, lift, modify, ret. cbv beta iota zeta.
    destruct (json_dumps (text_event content)) as [text|e]; cbv beta iota.
    + eexists. split; [reflexivity|]. split; [reflexivity|].
      unfold sent_of. cbn [manager voice_clients].
      rewrite lookup_insert_eq. simpl. rewrite <- app_assoc. reflexivity.
    + eexists. split; [reflexivity|]. split; [reflexivity|].
      unfold sent_of. cbn [manager voice_clients].
      rewrite lookup_insert_eq. simpl. rewrite app_nil_r. reflexivity.
  - unfold ret. eexists. split; [reflexivity|]. split; [reflexivity|].
    unfold sent_of. cbn [manager voice_clients].
    rewrite lookup_insert_eq. simpl. rewrite app_nil_r. reflexivity.
Qed.

(** X15. The relay's reader stops at the first upstream message that
    cannot be decoded or relayed: the exception is swallowed and the
    reader returns with the process as that message left it; the
    messages behind it are never read, whatever they are. *)
Theorem reader_stops_at_first_failure gw session_id c before bad rest w w1
    w2 e :
  voice_clients (manager w) !! session_id = Some c ->
  ws c <> NoSocket ->
  relay_messages gw session_id before w = (Ok tt, w1) ->
  (event <~ lift (json_loads bad) ;; handle_voice_event gw session_id event)
    w1 = (Raise e, w2) ->
  listen_to_voice_client gw session_id (before ++ bad :: rest) w = w2.
Proof.
  intros Hc Hws Hbefore Hbad. unfold listen_to_voice_client. rewrite Hc.
  assert (Hrun : relay_messages gw session_id (before ++ bad :: rest) w
                 = (Raise e, w2)).
  { clear Hc. revert w Hbefore.
    induction before as [|message tl IH]; intros w Hbefore.
    - simpl in Hbefore. injection Hbefore as ->. simpl app.
      cbn [relay_messages]. unfold mbind at 1. rewrite Hbad. reflexivity.
    - simpl app. cbn [relay_messages] in *. unfold mbind at 1.
      unfold mbind at 1 in Hbefore.
      destruct ((event <~ lift (json_loads message) ;;
                 handle_voice_event gw session_id event) w)
        as [[[]|e'] w'] eqn:Hstep; [|discriminate].
      apply IH. exact Hbefore. }
  rewrite Hrun. destruct (ws c); [contradiction|reflexivity|reflexivity].
Qed.

End SessionProperties.

(** ** main.py: the REST cart and order endpoints *)

(** How a request ends: with a response body, with an [HTTPException],
    or with an exception that no handler of the endpoint catches. *)
Inductive reply : Type :=
| Response (body : pyval)
| HTTPException (status_code : Z) (detail : pyval)
| Unhandled (e : exn).

(** [active_sessions[session_id]["cart"] = cart]: the session's cart
    becomes a new list object.  List objects hold their lines by value:
    a line that two lists have in common after such an assignment is
    not followed from one list to the other when it is changed later. *)
Definition rebind_session_cart (session_id : string) (d : SessionData)
    (cart : list pyval) (w : World) : World :=
  {| manager := manager w;
     active_sessions :=
       <[session_id := {| session_cart := length (objects w);
                          voice_mode := voice_mode d |}]>
         (active_sessions w);
     objects := objects w ++ [cart];
     delivered := delivered w;
     upstream_closed := upstream_closed w |}.

(** A change made in place to the list object [ref]. *)
Definition store_list (ref : nat) (l : list pyval) (w : World) : World :=
  {| manager := manager w; active_sessions := active_sessions w;
     objects := <[ref := l]> (objects w);
     delivered := delivered w; upstream_closed := upstream_closed w |}.

(** [sum] as CPython up to 3.11 computes it from the running total
    [total]: the items are added from left to right, and the first item
    that raises, or that cannot be added, ends the sum.  The running
    total is a number from the start, so [+] is what [+=] is on
    numbers. *)
Fixpoint sum_from (total : pyval) (items : list (res pyval)) : res pyval :=
  match items with
  | [] => Ok total
  | item :: rest =>
      amount <- item ;;
      total' <- py_iadd total amount ;;
      sum_from total' rest
  end.

Definition sum_left_to_right (items : list (res pyval)) : res pyval :=
  sum_from (PInt 0) items.

Section Rest.
Context `{PyRuntime}.

(** [cart_item["product"]["id"]] *)
Definition line_product_id (item : pyval) : res pyval :=
  product <- py_getitem item "product" ;;
  py_getitem product "id".

(** [cart_item["quantity"] += quantity] *)
Definition bump_quantity (item quantity : pyval) : res pyval :=
  old <- py_getitem item "quantity" ;;
  new <- py_iadd old quantity ;;
  py_setitem item "quantity" new.

(** The loop of [add_to_cart]: [Some cart'] when a line of the product
    was found and its quantity raised, [None] when the loop ran to its
    end. *)
Fixpoint bump_existing (product_id : string) (quantity : pyval)
    (seen rest : list pyval) : res (option (list pyval)) :=
  match rest with
  | [] => Ok None
  | cart_item :: rest' =>
      id <- line_product_id cart_item ;;
      if py_eq id (PStr product_id) then
        cart_item' <- bump_quantity cart_item quantity ;;
        Ok (Some (seen ++ cart_item' :: rest'))
      else bump_existing product_id quantity (seen ++ [cart_item]) rest'
  end.

(** [get_product(product_id)] with [product.dict()] taken of its
    result, and [str(e)] for an [HTTPException] [e]. *)
Variable get_product : string -> reply.
Variable http_exception_str : Z -> pyval -> string.

Definition with_sessions (sessions : gmap string SessionData)
    (lists : list (list pyval)) (w : World) : World :=
  {| manager := manager w; active_sessions := sessions; objects := lists;
     delivered := delivered w; upstream_closed := upstream_closed w |}.

(** [POST /api/cart/{session_id}/add] *)
Definition add_to_cart (session_id product_id : string) (quantity : Z)
    (w : World) : reply * World :=
  let '(sessions, lists, d) := Manager.session_entry session_id w in
  let w1 := with_sessions sessions lists w in
  match get_product product_id with
  | HTTPException status_code detail =>
      (HTTPException 500 (PStr (http_exception_str status_code detail)), w1)
  | Unhandled e => (HTTPException 500 (PStr (exn_str e)), w1)
  | Response product =>
      let cart := cart_list lists (session_cart d) in
      match bump_existing product_id (PInt quantity) [] cart with
      | Raise e => (HTTPException 500 (PStr (exn_str e)), w1)
      | Ok (Some cart') =>
          (Response (PDict [("message", PStr "Cart updated");
                            ("cart", PList cart')]),
           store_list (session_cart d) cart' w1)
      | Ok None =>
          let cart' := cart ++ [PDict [("product", product);
                                       ("quantity", PInt quantity)]] in
          (Response (PDict [("message", PStr "Item added to cart");
                            ("cart", PList cart')]),
           store_list (session_cart d) cart' w1)
      end
  end.

(** [item["product"]["price"] * item["quantity"]]: one item of the
    generator that [get_cart] hands to [sum]. *)
Definition line_total (item : pyval) : res pyval :=
  product <- py_getitem item "product" ;;
  price <- py_getitem product "price" ;;
  quantity <- py_getitem item "quantity" ;;
  py_mul price quantity.

(** The built-in [sum] over a generator whose items are evaluated one by
    one as [sum] asks for them, each to a value or to an exception.  How
    [sum] adds floats is the interpreter's matter: CPython up to 3.11
    adds them from left to right, as [sum_left_to_right] does; from 3.12
    on it carries a compensation term along, and the total can differ in
    the last place. *)
Variable builtin_sum : list (res pyval) -> res pyval.

(** [GET /api/cart/{session_id}] *)
Definition get_cart (session_id : string) (w : World) : reply :=
  match active_sessions w !! session_id with
  | None => Response (PDict [("cart", PList []); ("total", PInt 0)])
  | Some d =>
      let cart := cart_list (objects w) (session_cart d) in
      match builtin_sum (map line_total cart) with
      | Ok total => Response (PDict [("cart", PList cart); ("total", total)])
      | Raise e => Unhandled e
      end
  end.

(** [[item for item in cart if item["product"]["id"] != product_id]] *)
Fixpoint without_product (product_id : string) (cart : list pyval)
  : res (list pyval) :=
  match cart with
  | [] => Ok []
  | item :: rest =>
      id <- line_product_id item ;;
      kept <- without_product product_id rest ;;
      Ok (if negb (py_eq id (PStr product_id)) then item :: kept else kept)
  end.

Definition cart_not_found : reply :=
  HTTPException 404 (PStr "Cart not found").

(** [DELETE /api/cart/{session_id}/item/{product_id}] *)
Definition remove_from_cart (session_id product_id : string) (w : World)
  : reply * World :=
  match active_sessions w !! session_id with
  | None => (cart_not_found, w)
  | Some d =>
      match without_product product_id
              (cart_list (objects w) (session_cart d)) with
      | Raise e => (Unhandled e, w)
      | Ok kept =>
          (Response (PDict [("message", PStr "Item removed from cart")]),
           rebind_session_cart session_id d kept w)
      end
  end.

(** [DELETE /api/cart/{session_id}] *)
Definition clear_cart (session_id : string) (w : World) : reply * World :=
  (Response (PDict [("message", PStr "Cart cleared")]),
   match active_sessions w !! session_id with
   | Some d => rebind_session_cart session_id d [] w
   | None => w
   end).

(** The loop of [update_cart_quantity]: the first line of the product
    gets the quantity; the loop ends there. *)
Fixpoint set_quantity (product_id : string) (quantity : pyval)
    (cart : list pyval) : res (list pyval) :=
  match cart with
  | [] => Ok []
  | cart_item :: rest =>
      id <- line_product_id cart_item ;;
      if py_eq id (PStr product_id) then
        cart_item' <- py_setitem cart_item "quantity" quantity ;;
        Ok (cart_item' :: rest)
      else
        rest' <- set_quantity product_id quantity rest ;;
        Ok (cart_item :: rest')
  end.

(** [PUT /api/cart/{session_id}/item/{product_id}] *)
Definition update_cart_quantity (session_id product_id : string)
    (quantity : Z) (w : World) : reply * World :=
  match active_sessions w !! session_id with
  | None => (cart_not_found, w)
  | Some d =>
      let cart := cart_list (objects w) (session_cart d) in
      let updated := Response (PDict [("message", PStr "Cart updated")]) in
      if Z.leb quantity 0 then
        match without_product product_id cart with
        | Raise e => (Unhandled e, w)
        | Ok kept => (updated, rebind_session_cart session_id d kept w)
        end
      else
        match set_quantity product_id (PInt quantity) cart with
        | Raise e => (Unhandled e, w)
        | Ok cart' => (updated, store_list (session_cart d) cart' w)
        end
  end.


(** [GET /api/orders/customer/{email}] *)
Definition get_customer_orders (gw : Gateway) (email : string) : reply :=
  let answer :=
    result <- tool_lookup_order gw PNone (PStr email) ;;
    success <- py_getitem result "success" ;;
    Ok (if py_truthy success then result
        else PDict [("orders", PList [])]) in
  match answer with
  | Ok body => Response body
  | Raise e => HTTPException 500 (PStr (exn_str e))
  end.

End Rest.

(** ** Properties of the REST cart endpoints *)

Section RestProperties.
Context `{PyRuntime}.
Variable get_product : string -> reply.
Variable http_exception_str : Z -> pyval -> string.
Variable builtin_sum : list (res pyval) -> res pyval.

(** The line is a dictionary line for the product with the string id
    [pid]. *)
Definition line_of (pid : string) (item : pyval) : Prop :=
  line_product_id item = Ok (PStr pid).

(** Every line of the cart is for a product with a string id. *)
Definition keyed_cart (cart : list pyval) : Prop :=
  Forall (fun item => exists pid, line_of pid item) cart.

Definition line_has_id (pid : string) (item : pyval) : bool :=
  match line_product_id item with
  | Ok (PStr s) => String.eqb s pid
  | _ => false
  end.

Lemma py_eq_str_eqb s pid : py_eq (PStr s) (PStr pid) = String.eqb s pid.
Proof.
  destruct (String.eqb s pid) eqn:Heq.
  - apply String.eqb_eq in Heq. subst. apply py_eq_str. reflexivity.
  - destruct (py_eq (PStr s) (PStr pid)) eqn:Hpy; [|reflexivity].
    apply py_eq_str in Hpy. injection Hpy as ->.
    rewrite String.eqb_refl in Heq. discriminate.
Qed.

Lemma session_entry_known session_id w d :
  active_sessions w !! session_id = Some d ->
  Manager.session_entry session_id w = (active_sessions w, objects w, d).
Proof. intros Hd. unfold Manager.session_entry. rewrite Hd. reflexivity. Qed.

Lemma with_sessions_same w :
  with_sessions (active_sessions w) (objects w) w = w.
Proof. destruct w. reflexivity. Qed.

(** X16. The REST [add_to_cart] never lets an exception through: it
    answers with a body or with status 500.  A product that
    [get_product] cannot find (its 404) is reported as 500, with the text
    of that exception as detail; the cart is left as it was, but a
    session that did not exist has been created with an empty cart all
    the same. *)
Theorem add_to_cart_reports_500 session_id product_id quantity w :
  (forall e,
      fst (add_to_cart get_product http_exception_str session_id product_id
             quantity w) <> Unhandled e) /\
  is_Some (active_sessions
             (snd (add_to_cart get_product http_exception_str session_id
                     product_id quantity w)) !! session_id) /\
  (forall status_code detail,
      get_product product_id = HTTPException status_code detail ->
      fst (add_to_cart get_product http_exception_str session_id product_id
             quantity w)
      = HTTPException 500 (PStr (http_exception_str status_code detail)) /\
      session_cart_list session_id
        (snd (add_to_cart get_product http_exception_str session_id
                product_id quantity w))
      = session_cart_list session_id w).
Proof.
  unfold add_to_cart.
  assert (Hentry :
            forall sessions lists d,
              Manager.session_entry session_id w = (sessions, lists, d) ->
              sessions !! session_id = Some d /\
              cart_list lists (session_cart d)
              = session_cart_list session_id w).
  { intros sessions lists d. unfold Manager.session_entry, session_cart_list.
    destruct (active_sessions w !! session_id) as [d0|] eqn:Hd.
    - intros [= <- <- <-]. split; [exact Hd|reflexivity].
    - intros [= <- <- <-]. split; [apply lookup_insert_eq|].
      unfold cart_list. simpl. rewrite lookup_app_r by lia.
      rewrite Nat.sub_diag. reflexivity. }
  destruct (Manager.session_entry session_id w) as [[sessions lists] d].
  destruct (Hentry sessions lists d eq_refl) as [Hd Hcart].
  split; [|split].
  - intros e. destruct (get_product product_id); try discriminate.
    destruct (bump_existing _ _ _ _) as [[cart'|]|x]; discriminate.
  - destruct (get_product product_id); simpl; try (rewrite Hd; eauto).
    destruct (bump_existing _ _ _ _) as [[cart'|]|x]; simpl; rewrite Hd;
      eauto.
  - intros status_code detail ->. split; [reflexivity|].
    unfold session_cart_list at 1. simpl. rewrite Hd. exact Hcart.
Qed.

Lemma bump_existing_skip product_id quantity seen before rest :
  Forall (fun item => exists pid, line_of pid item /\ pid <> product_id)
    before ->
  bump_existing product_id quantity seen (before ++ rest)
  = bump_existing product_id quantity (seen ++ before) rest.
Proof.
  intros Hall. revert seen.
  induction Hall as [|item before (pid & Hline & Hne) _ IH]; intros seen.
  - rewrite app_nil_r. reflexivity.
  - simpl. unfold line_of in Hline. rewrite Hline. cbn [bind].
    rewrite py_eq_str_eqb.
    destruct (String.eqb_spec pid product_id) as [->|_]; [contradiction|].
    rewrite IH, <- app_assoc. reflexivity.
Qed.

(** The line the voice tool appends is one the REST endpoints can
    read. *)
Lemma line_product_id_new_line product_dict quantity :
  line_product_id (new_line product_dict quantity)
  = py_getitem product_dict "id".
Proof. reflexivity. Qed.

(** X17. The REST [add_to_cart] works on the list object the session's
    cart refers to: when the cart has a line of the product, the
    quantity of the first such line is raised in place and nothing is
    appended; when it has none, a line with the product and the
    quantity goes last.  The session's cart stays the same list object,
    so whoever shares it, such as the session's voice client after
    [connect], sees the change.  A line that the voice tool has
    appended is found like any other. *)
Theorem add_to_cart_updates_in_place session_id product_id quantity w d
    product :
  active_sessions w !! session_id = Some d ->
  (session_cart d < length (objects w))%nat ->
  get_product product_id = Response product ->
  (forall before item item' rest,
      cart_list (objects w) (session_cart d) = before ++ item :: rest ->
      Forall (fun item => exists pid, line_of pid item /\ pid <> product_id)
        before ->
      line_of product_id item ->
      bump_quantity item (PInt quantity) = Ok item' ->
      exists w',
        add_to_cart get_product http_exception_str session_id product_id
          quantity w
        = (Response (PDict [("message", PStr "Cart updated");
                            ("cart", PList (before ++ item' :: rest))]), w')
        /\ active_sessions w' = active_sessions w
        /\ cart_list (objects w') (session_cart d)
           = before ++ item' :: rest) /\
  (Forall (fun item => exists pid, line_of pid item /\ pid <> product_id)
     (cart_list (objects w) (session_cart d)) ->
   exists w',
     add_to_cart get_product http_exception_str session_id product_id
       quantity w
     = (Response
          (PDict [("message", PStr "Item added to cart");
                  ("cart",
                   PList (cart_list (objects w) (session_cart d)
                          ++ [PDict [("product", product);
                                     ("quantity", PInt quantity)]]))]), w')
     /\ active_sessions w' = active_sessions w
     /\ cart_list (objects w') (session_cart d)
        = cart_list (objects w) (session_cart d)
          ++ [PDict [("product", product); ("quantity", PInt quantity)]]) /\
  (forall product_dict n,
      py_getitem product_dict "id" = Ok (PStr product_id) ->
      bump_existing product_id (PInt quantity) []
        [new_line product_dict (PInt n)]
      = Ok (Some [new_line product_dict (PInt (n + quantity))])).
Proof.
  intros Hd Hvalid Hproduct.
  assert (Hstored : forall cart',
             cart_list (objects (store_list (session_cart d) cart' w))
               (session_cart d) = cart').
  { intros cart'. unfold cart_list, store_list. simpl.
    rewrite list_lookup_insert_eq by exact Hvalid. reflexivity. }
  split; [|split].
  - intros before item item' rest Hcart Hbefore Hitem Hbump.
    unfold add_to_cart. rewrite (session_entry_known _ _ _ Hd).
    rewrite with_sessions_same, Hproduct, Hcart.
    rewrite (bump_existing_skip _ _ [] before (item :: rest) Hbefore).
    cbn [bump_existing app]. unfold line_of in Hitem. rewrite Hitem.
    cbn [bind]. rewrite py_eq_str_eqb, String.eqb_refl, Hbump. cbn [bind].
    eexists. split; [reflexivity|]. split; [reflexivity|apply Hstored].
  - intros Hcart. unfold add_to_cart.
    rewrite (session_entry_known _ _ _ Hd).
    rewrite with_sessions_same, Hproduct.
    pose proof (bump_existing_skip product_id (PInt quantity) [] _ [] Hcart)
      as Hskip.
    rewrite app_nil_r in Hskip. rewrite Hskip. cbn [bump_existing].
    eexists. split; [reflexivity|]. split; [reflexivity|apply Hstored].
  - intros product_dict n Hid. cbn [bump_existing].
    rewrite line_product_id_new_line, Hid. cbn [bind].
    rewrite py_eq_str_eqb, String.eqb_refl. reflexivity.
Qed.

(** *** The total of [get_cart] *)

(** A dictionary line whose product has a [float] price and whose
    quantity is an [int] that converts to the float [units]. *)
Definition priced_line (item : pyval) (price units : float) : Prop :=
  exists d p quantity,
    item = PDict d /\ assoc "product" d = Some (PDict p) /\
    assoc "price" p = Some (PFloat price) /\
    assoc "quantity" d = Some (PInt quantity) /\
    float_of_int quantity = Ok units.

Definition priced_cart (cart : list pyval) : Prop :=
  Forall (fun item => exists price units, priced_line item price units) cart.

Lemma float_times_int price quantity units :
  float_of_int quantity = Ok units ->
  py_mul (PFloat price) (PInt quantity)
  = Ok (PFloat (PrimFloat.mul price units)).
Proof.
  intros Hunits. unfold py_mul. cbn [as_int as_float]. rewrite Hunits.
  reflexivity.
Qed.

Lemma priced_line_amounts item price units :
  priced_line item price units ->
  line_amount item = Ok (PFloat (PrimFloat.mul price units)) /\
  line_total item = Ok (PFloat (PrimFloat.mul price units)).
Proof.
  intros (d & p & quantity & -> & Hp & Hprice & Hq & Hunits). split.
  - unfold line_amount. cbn [isinstance_dict py_get]. rewrite Hp.
    cbn [bind py_get]. rewrite Hprice, Hq. cbn [bind].
    apply float_times_int, Hunits.
  - unfold line_total. simpl py_getitem. rewrite Hp.
    cbn [bind]. simpl py_getitem. rewrite Hprice, Hq. cbn [bind].
    apply float_times_int, Hunits.
Qed.

Lemma sum_from_float total cart :
  priced_cart cart ->
  exists t,
    sum_from (PFloat total) (map line_total cart) = Ok (PFloat t) /\
    cart_total_from total cart = Ok t.
Proof.
  intros Hcart. revert total.
  induction Hcart as [|item cart (price & units & Hline) _ IH]; intros total.
  - exists total. split; reflexivity.
  - destruct (priced_line_amounts item price units Hline) as [Hamount Hsum].
    destruct (IH (PrimFloat.add total (PrimFloat.mul price units)))
      as (t & Hrest & Htool).
    exists t. split.
    + cbn [map sum_from]. rewrite Hsum. simpl. exact Hrest.
    + simpl. rewrite Hamount. simpl. exact Htool.
Qed.

Lemma zero_as_float : float_of_int 0 = Ok 0%float.
Proof. reflexivity. Qed.

(** X18. For a session that does not exist [get_cart] reports an empty
    cart and the integer 0.  On an interpreter whose [sum] adds its
    items from left to right, as CPython up to 3.11 does, the total of
    an empty cart is the integer 0 as well, and on a cart that is not
    empty and whose lines are dictionaries with a [float] price and an
    [int] quantity the total [get_cart] reports is the very float
    [calculate_cart_total] computes, the two sums being taken in the
    same order. *)
Theorem get_cart_total_agrees session_id w :
  (active_sessions w !! session_id = None ->
   get_cart builtin_sum session_id w
   = Response (PDict [("cart", PList []); ("total", PInt 0)])) /\
  ((forall items, builtin_sum items = sum_left_to_right items) ->
   (forall d,
       active_sessions w !! session_id = Some d ->
       cart_list (objects w) (session_cart d) = [] ->
       get_cart builtin_sum session_id w
       = Response (PDict [("cart", PList []); ("total", PInt 0)])) /\
   (forall d,
       active_sessions w !! session_id = Some d ->
       cart_list (objects w) (session_cart d) <> [] ->
       priced_cart (cart_list (objects w) (session_cart d)) ->
       exists total,
         calculate_cart_total (cart_list (objects w) (session_cart d))
         = Ok total /\
         get_cart builtin_sum session_id w
         = Response
             (PDict [("cart",
                      PList (cart_list (objects w) (session_cart d)));
                     ("total", PFloat total)]))).
Proof.
  split; [|intros Hsum; split].
  - intros Hd. unfold get_cart. rewrite Hd. reflexivity.
  - intros d Hd Hempty. unfold get_cart. rewrite Hd, Hempty, Hsum.
    reflexivity.
  - intros d Hd Hnonempty Hcart. unfold get_cart. rewrite Hd, Hsum.
    destruct (cart_list (objects w) (session_cart d)) as [|item cart];
      [contradiction|].
    inversion Hcart as [|? ? (price & units & Hline) Hrest]; subst.
    destruct (priced_line_amounts item price units Hline) as [Hamount Hsum1].
    destruct (sum_from_float
                (PrimFloat.add 0%float (PrimFloat.mul price units)) cart
                Hrest) as (t & Hsumrest & Htool).
    exists t. split.
    + unfold calculate_cart_total. simpl. rewrite Hamount. simpl.
      exact Htool.
    + unfold sum_left_to_right. cbn [map sum_from]. rewrite Hsum1.
      cbn [bind]. unfold py_iadd. cbn [as_int as_float].
      rewrite zero_as_float. cbn [bind]. rewrite Hsumrest. reflexivity.
Qed.

(** *** Removing lines *)

Lemma without_product_filter product_id cart :
  keyed_cart cart ->
  without_product product_id cart
  = Ok (List.filter (fun item => negb (line_has_id product_id item)) cart).
Proof.
  induction 1 as [|item cart (pid & Hline) _ IH]; [reflexivity|].
  cbn [without_product List.filter]. unfold line_has_id.
  unfold line_of in Hline. rewrite Hline, IH. cbn [bind].
  rewrite py_eq_str_eqb. reflexivity.
Qed.

Lemma keyed_cart_filter (keep : pyval -> bool) cart :
  keyed_cart cart -> keyed_cart (List.filter keep cart).
Proof.
  induction 1 as [|item cart Hitem _ IH]; simpl; [constructor|].
  destruct (keep item); [constructor; assumption|exact IH].
Qed.

Lemma filter_idempotent (keep : pyval -> bool) cart :
  List.filter keep (List.filter keep cart) = List.filter keep cart.
Proof.
  induction cart as [|item cart IH]; simpl; [reflexivity|].
  destruct (keep item) eqn:Hkeep; simpl; [rewrite Hkeep, IH|]; auto.
Qed.

Lemma rebind_session_cart_list session_id d cart w :
  session_cart_list session_id (rebind_session_cart session_id d cart w)
  = cart.
Proof.
  unfold session_cart_list, rebind_session_cart, cart_list. simpl.
  rewrite lookup_insert_eq. simpl. rewrite lookup_app_r by lia.
  rewrite Nat.sub_diag. reflexivity.
Qed.

Lemma remove_from_cart_run session_id product_id w d :
  active_sessions w !! session_id = Some d ->
  keyed_cart (cart_list (objects w) (session_cart d)) ->
  remove_from_cart session_id product_id w
  = (Response (PDict [("message", PStr "Item removed from cart")]),
     rebind_session_cart session_id d
       (List.filter (fun item => negb (line_has_id product_id item))
          (cart_list (objects w) (session_cart d))) w).
Proof.
  intros Hd Hcart. unfold remove_from_cart.
  rewrite Hd, (without_product_filter _ _ Hcart). reflexivity.
Qed.

(** X19. [remove_from_cart] answers 404 for a session that does not
    exist and changes nothing then.  On a cart whose lines have string
    product ids it keeps, in their order, exactly the lines of the other
    products, so that no line of the product is left, however many there
    were; removing the same product again changes the cart no
    further. *)
Theorem remove_from_cart_filters session_id product_id w :
  (active_sessions w !! session_id = None ->
   remove_from_cart session_id product_id w = (cart_not_found, w)) /\
  (forall d,
      active_sessions w !! session_id = Some d ->
      keyed_cart (cart_list (objects w) (session_cart d)) ->
      exists w' w'',
        remove_from_cart session_id product_id w
        = (Response (PDict [("message", PStr "Item removed from cart")]), w')
        /\ session_cart_list session_id w'
           = List.filter (fun item => negb (line_has_id product_id item))
               (session_cart_list session_id w)
        /\ Forall (fun item => line_has_id product_id item = false)
             (session_cart_list session_id w')
        /\ remove_from_cart session_id product_id w'
           = (Response (PDict [("message", PStr "Item removed from cart")]),
              w'')
        /\ session_cart_list session_id w''
           = session_cart_list session_id w').
Proof.
  split.
  - intros Hd. unfold remove_from_cart. rewrite Hd. reflexivity.
  - intros d Hd Hcart.
    set (kept := List.filter (fun item => negb (line_has_id product_id item))
                   (cart_list (objects w) (session_cart d))).
    set (w' := rebind_session_cart session_id d kept w).
    assert (Hd' : active_sessions w' !! session_id
                  = Some {| session_cart := length (objects w);
                            voice_mode := voice_mode d |}).
    { subst w'. simpl. apply lookup_insert_eq. }
    assert (Hlist' : cart_list (objects w') (length (objects w)) = kept).
    { subst w'. unfold cart_list. simpl. rewrite lookup_app_r by lia.
      rewrite Nat.sub_diag. reflexivity. }
    assert (Hkeyed : keyed_cart kept) by (apply keyed_cart_filter, Hcart).
    eexists w', _. split; [apply remove_from_cart_run; assumption|].
    assert (Hcart' : session_cart_list session_id w' = kept)
      by apply rebind_session_cart_list.
    split; [|split; [|split]].
    + rewrite Hcart'. unfold session_cart_list. rewrite Hd. reflexivity.
    + rewrite Hcart'. subst kept. apply List.Forall_forall.
      intros item Hin. apply List.filter_In in Hin. destruct Hin as [_ Hneg].
      apply negb_true_iff in Hneg. exact Hneg.
    + apply (remove_from_cart_run session_id product_id w' _ Hd').
      simpl session_cart. rewrite Hlist'. exact Hkeyed.
    + rewrite rebind_session_cart_list. simpl session_cart.
      rewrite Hlist', Hcart'. subst kept. apply filter_idempotent.
Qed.

(** *** Changing a quantity *)

Lemma set_quantity_skip product_id quantity before rest :
  Forall (fun item => exists pid, line_of pid item /\ pid <> product_id)
    before ->
  set_quantity product_id quantity (before ++ rest)
  = (rest' <- set_quantity product_id quantity rest ;; Ok (before ++ rest')).
Proof.
  induction 1 as [|item before (pid & Hline & Hne) _ IH].
  - simpl. destruct (set_quantity product_id quantity rest); reflexivity.
  - simpl. unfold line_of in Hline. rewrite Hline. cbn [bind].
    rewrite py_eq_str_eqb.
    destruct (String.eqb_spec pid product_id) as [->|_]; [contradiction|].
    rewrite IH. destruct (set_quantity product_id quantity rest); reflexivity.
Qed.

(** X20. [update_cart_quantity] with a quantity of 0 or less leaves
    exactly what [remove_from_cart] leaves.  With a positive quantity it
    sets the quantity of the first line of the product, in the list
    object the session's cart refers to, and touches no other line; when
    the cart has no line of the product it changes nothing and still
    answers "Cart updated"; for a session that does not exist it
    answers 404. *)
Theorem update_cart_quantity_cases session_id product_id quantity w :
  (active_sessions w !! session_id = None ->
   update_cart_quantity session_id product_id quantity w
   = (cart_not_found, w)) /\
  (quantity <= 0 ->
   snd (update_cart_quantity session_id product_id quantity w)
   = snd (remove_from_cart session_id product_id w)) /\
  (forall d before fields rest,
      0 < quantity ->
      active_sessions w !! session_id = Some d ->
      (session_cart d < length (objects w))%nat ->
      cart_list (objects w) (session_cart d)
      = before ++ PDict fields :: rest ->
      Forall (fun item => exists pid, line_of pid item /\ pid <> product_id)
        before ->
      line_of product_id (PDict fields) ->
      exists w',
        update_cart_quantity session_id product_id quantity w
        = (Response (PDict [("message", PStr "Cart updated")]), w') /\
        active_sessions w' = active_sessions w /\
        cart_list (objects w') (session_cart d)
        = before
          ++ PDict (assoc_set "quantity" (PInt quantity) fields) :: rest) /\
  (forall d,
      0 < quantity ->
      active_sessions w !! session_id = Some d ->
      Forall (fun item => exists pid, line_of pid item /\ pid <> product_id)
        (cart_list (objects w) (session_cart d)) ->
      exists w',
        update_cart_quantity session_id product_id quantity w
        = (Response (PDict [("message", PStr "Cart updated")]), w') /\
        active_sessions w' = active_sessions w /\
        cart_list (objects w') (session_cart d)
        = cart_list (objects w) (session_cart d)).
Proof.
  split; [|split; [|split]].
  - intros Hd. unfold update_cart_quantity. rewrite Hd. reflexivity.
  - intros Hle. unfold update_cart_quantity, remove_from_cart.
    destruct (active_sessions w !! session_id) as [d|]; [|reflexivity].
    cbv zeta. destruct (Z.leb_spec quantity 0) as [_|Hgt]; [|lia].
    destruct (without_product _ _); reflexivity.
  - intros d before fields rest Hpos Hd Hvalid Hcart Hbefore Hline.
    unfold update_cart_quantity. rewrite Hd. cbv zeta.
    destruct (Z.leb_spec quantity 0) as [Hle|_]; [lia|].
    rewrite Hcart, (set_quantity_skip _ _ _ _ Hbefore).
    cbn [set_quantity]. unfold line_of in Hline. rewrite Hline.
    cbn [bind]. rewrite py_eq_str_eqb, String.eqb_refl. cbn [py_setitem bind].
    eexists. split; [reflexivity|]. split; [reflexivity|].
    unfold cart_list, store_list. simpl.
    rewrite list_lookup_insert_eq by exact Hvalid. reflexivity.
  - intros d Hpos Hd Hcart.
    unfold update_cart_quantity. rewrite Hd. cbv zeta.
    destruct (Z.leb_spec quantity 0) as [Hle|_]; [lia|].
    pose proof (set_quantity_skip product_id (PInt quantity) _ [] Hcart)
      as Hskip.
    rewrite app_nil_r in Hskip. rewrite Hskip. cbn [set_quantity bind].
    rewrite app_nil_r.
    eexists. split; [reflexivity|]. split; [reflexivity|].
    unfold cart_list, store_list. simpl.
    destruct (objects w !! session_cart d) as [l|] eqn:Hl.
    + rewrite list_lookup_insert_eq by (apply lookup_lt_Some in Hl; exact Hl).
      reflexivity.
    + rewrite list_insert_ge by (apply lookup_ge_None, Hl). rewrite Hl.
      reflexivity.
Qed.

(** *** The voice client's cart after a REST call *)

(** X21. Clearing the cart or removing a product over REST gives the
    session a new list and leaves the old one to the voice client: for
    a session whose voice client shares the session's cart, after
    [clear_cart] the session's cart is empty while the client's cart
    still holds every line, and after [remove_from_cart] the client's
    cart still holds the removed lines; from then on the two carts are
    different list objects. *)
Theorem rest_rebinding_unlinks_voice_cart session_id product_id w c d :
  voice_clients (manager w) !! session_id = Some c ->
  active_sessions w !! session_id = Some d ->
  cart (state c) = session_cart d ->
  (session_cart d < length (objects w))%nat ->
  (exists d',
      let w' := snd (clear_cart session_id w) in
      session_cart_list session_id w' = [] /\
      voice_clients (manager w') !! session_id = Some c /\
      cart_list (objects w') (cart (state c))
      = cart_list (objects w) (session_cart d) /\
      active_sessions w' !! session_id = Some d' /\
      session_cart d' <> cart (state c)) /\
  (keyed_cart (cart_list (objects w) (session_cart d)) ->
   exists d',
     let w' := snd (remove_from_cart session_id product_id w) in
     session_cart_list session_id w'
     = List.filter (fun item => negb (line_has_id product_id item))
         (cart_list (objects w) (session_cart d)) /\
     voice_clients (manager w') !! session_id = Some c /\
     cart_list (objects w') (cart (state c))
     = cart_list (objects w) (session_cart d) /\
     active_sessions w' !! session_id = Some d' /\
     session_cart d' <> cart (state c)).
Proof.
  intros Hc Hd Hlink Hvalid.
  assert (Hrebind : forall lines,
             let w' := rebind_session_cart session_id d lines w in
             session_cart_list session_id w' = lines /\
             voice_clients (manager w') !! session_id = Some c /\
             cart_list (objects w') (cart (state c))
             = cart_list (objects w) (session_cart d) /\
             active_sessions w' !! session_id
             = Some {| session_cart := length (objects w);
                       voice_mode := voice_mode d |} /\
             length (objects w) <> cart (state c)).
  { intros lines w'. split; [apply rebind_session_cart_list|].
    split; [exact Hc|]. split; [|split].
    - subst w'. unfold cart_list. simpl. rewrite Hlink.
      rewrite lookup_app_l by exact Hvalid. reflexivity.
    - subst w'. simpl. apply lookup_insert_eq.
    - rewrite Hlink. lia. }
  split.
  - exists {| session_cart := length (objects w);
              voice_mode := voice_mode d |}.
    unfold clear_cart. cbn [snd]. rewrite Hd. apply (Hrebind []).
  - intros Hkeyed.
    exists {| session_cart := length (objects w);
              voice_mode := voice_mode d |}.
    rewrite (remove_from_cart_run _ product_id _ _ Hd Hkeyed). cbn [snd].
    apply (Hrebind _).
Qed.

End RestProperties.

(** ** Properties of the REST order endpoints *)

Section OrderEndpoints.
Context `{PyRuntime}.

Lemma tool_lookup_order_returns gw order_number email :
  exists result success,
    tool_lookup_order gw order_number email = Ok result /\
    py_getitem result "success" = Ok success.
Proof.
  unfold tool_lookup_order, try_except.
  match goal with
  | |- context [match ?body with Ok a => Ok a | Raise e => _ end] =>
      assert (Hbody : res_yields
                        (fun r => exists s, py_getitem r "success" = Ok s)
                        body);
      [|destruct body as [result|e]]
  end.
  - repeat first
      [ apply res_yields_bind; intros
      | progress cbv beta iota
      | match goal with
        | |- res_yields _ (if ?b then _ else _) => destruct b
        | |- res_yields _ (Ok _) =>
            let a := fresh in
            let Heq := fresh in
            intros a Heq; injection Heq as <-; eexists; reflexivity
        end ].
  - destruct (Hbody result eq_refl) as (success & Hsuccess). eauto.
  - eexists _, _. split; reflexivity.
Qed.

(** X22. [get_customer_orders] never answers with an error: whatever
    the backend does it returns a body.  A query that raises is turned
    into an empty order list, as is a customer without orders, so the
    caller cannot tell a backend failure from an empty history; for an
    empty e-mail address no query is made at all. *)
Theorem get_customer_orders_never_fails gw email :
  (exists body, get_customer_orders gw email = Response body) /\
  (forall e,
      email <> "" ->
      sf_query_orders gw email = Raise e ->
      get_customer_orders gw email
      = Response (PDict [("orders", PList [])])) /\
  (email <> "" ->
   sf_query_orders gw email = Ok (PDict [("records", PList [])]) ->
   get_customer_orders gw email = Response (PDict [("orders", PList [])])) /\
  (email = "" ->
   get_customer_orders gw email = Response (PDict [("orders", PList [])])).
Proof.
  assert (Htruthy : email <> "" -> py_truthy (PStr email) = true).
  { intros Hne. simpl. destruct (String.eqb_spec email ""); [contradiction|].
    reflexivity. }
  split; [|split; [|split]].
  - unfold get_customer_orders.
    destruct (tool_lookup_order_returns gw PNone (PStr email))
      as (result & success & -> & Hsuccess).
    cbn [bind]. rewrite Hsuccess. cbn [bind]. eexists. reflexivity.
  - intros e Hne Hquery. unfold get_customer_orders, tool_lookup_order.
    cbn [py_truthy]. cbv iota. fold (py_truthy (PStr email)).
    rewrite (Htruthy Hne), py_str_str, Hquery. reflexivity.
  - intros Hne Hquery. unfold get_customer_orders, tool_lookup_order.
    cbn [py_truthy]. cbv iota. fold (py_truthy (PStr email)).
    rewrite (Htruthy Hne), py_str_str, Hquery. reflexivity.
  - intros ->. reflexivity.
Qed.

End OrderEndpoints.

(** ** backend/tools.py: the search and order tools

    The Salesforce client ([salesforce/client.py]) and the models of
    [salesforce/schema.py] are taken as they answer: a query or a call
    with given arguments returns a value or raises.  The calls that
    write to Salesforce are recorded in the order they are made. *)

Module Tools.

Record Salesforce : Type := {
  sf_query : string -> res pyval;
  upsert_account : pyval -> pyval -> pyval -> res pyval;
  get_standard_pricebook : res pyval;
  create_order : pyval -> res pyval;
  create_order_item : pyval -> res pyval;
  Order : pyval -> pyval -> pyval -> pyval -> pyval -> res pyval;
  OrderItem : pyval -> pyval -> pyval -> pyval -> res pyval;
  today : pyval
}.

(** A call that writes to Salesforce. *)
Inductive sf_call : Type :=
| UpsertAccount (email name phone : pyval)
| CreateOrder (order_data : pyval)
| CreateOrderItem (order_item_data : pyval).

Definition called {A : Type} (c : sf_call) (r : res A)
  : M (list sf_call) A :=
  fun log => (r, log ++ [c]).

Definition nl : string := String (ascii_of_nat 10) "".

Section Implementation.
Context `{PyRuntime}.

(** The LangChain chain of [interpret_search_query] up to
    [filters.dict()], the raw OpenAI request with [json.loads] of its
    output, and [str.split()]. *)
Variable llm_filters : string -> res pyval.
Variable raw_filters : string -> res pyval.
Variable split_words : string -> list string.

(** [interpret_search_query(user_query)] *)
Definition interpret_search_query (user_query : string) : pyval :=
  match llm_filters user_query with
  | Ok filters => filters
  | Raise _ =>
      match raw_filters user_query with
      | Ok filters => filters
      | Raise _ =>
          PDict [("query", PStr user_query); ("category", PNone);
                 ("color", PNone); ("size", PNone); ("price_min", PNone);
                 ("price_max", PNone)]
      end
  end.

Definition base_query : string :=
  nl +:+ "    SELECT Id, Name, ProductCode, Description, Color__c, Size__c, "
  +:+ "Family, " +:+ nl
  +:+ "           (SELECT Id, UnitPrice FROM PricebookEntries "
  +:+ "WHERE IsActive = true LIMIT 1)," +:+ nl
  +:+ "           Image_URL__c" +:+ nl
  +:+ "    FROM Product2" +:+ nl
  +:+ "    WHERE IsActive = true" +:+ nl
  +:+ "    ".

Definition price_condition (comparison : string) (price : pyval) : string :=
  nl +:+ "            Id IN (SELECT Product2Id FROM PricebookEntry " +:+ nl
  +:+ "                   WHERE UnitPrice " +:+ comparison +:+ " "
  +:+ py_str price +:+ " AND IsActive = true)" +:+ nl
  +:+ "        ".

(** The filter arguments of the search, after the interpretation of a
    sentence. *)
Record Filters : Type := {
  query : pyval;
  category : pyval;
  price_max : pyval;
  price_min : pyval;
  color : pyval;
  size : pyval
}.

(** The list [conditions], in the order the conditions are appended. *)
Definition conditions (f : Filters) : list string :=
  (if py_truthy (category f)
   then ["Family = '" +:+ py_str (category f) +:+ "'"] else [])
  ++ (if py_truthy (color f)
      then ["Color__c LIKE '%" +:+ py_str (color f) +:+ "%'"] else [])
  ++ (if py_truthy (size f)
      then ["Size__c LIKE '%" +:+ py_str (size f) +:+ "%'"] else [])
  ++ (if py_truthy (query f)
      then ["(Name LIKE '%" +:+ py_str (query f)
            +:+ "%' OR Description LIKE '%" +:+ py_str (query f) +:+ "%')"]
      else [])
  ++ (if py_truthy (price_max f)
      then [price_condition "<=" (price_max f)] else [])
  ++ (if py_truthy (price_min f)
      then [price_condition ">=" (price_min f)] else []).

(** [separator.join(parts)] *)
Fixpoint join (separator : string) (parts : list string) : string :=
  match parts with
  | [] => ""
  | [part] => part
  | part :: rest => part +:+ separator +:+ join separator rest
  end.

Definition soql (f : Filters) : string :=
  base_query
  +:+ match conditions f with
      | [] => ""
      | parts => " AND " +:+ join " AND " parts
      end
  +:+ " LIMIT 10".

(** One round of the loop over the records: the product of a record
    that has a price book entry, nothing for a record that has none. *)
Definition product_of_record (record : pyval) : res (option pyval) :=
  entries <- py_get record "PricebookEntries" (PDict []) ;;
  pbe <- py_get entries "records" (PList []) ;;
  if py_truthy pbe then
    id <- py_getitem record "Id" ;;
    name <- py_getitem record "Name" ;;
    first <- py_getitem0 pbe ;;
    price <- py_getitem first "UnitPrice" ;;
    description <- py_get record "Description" (PStr "") ;;
    color <- py_get record "Color__c" (PStr "") ;;
    size <- py_get record "Size__c" (PStr "") ;;
    product_code <- py_get record "ProductCode" (PStr "") ;;
    first' <- py_getitem0 pbe ;;
    pricebook_entry_id <- py_getitem first' "Id" ;;
    category <- py_get record "Family" (PStr "") ;;
    image_url <- py_get record "Image_URL__c" (PStr "") ;;
    code <- py_getitem record "ProductCode" ;;
    Ok (Some (PDict [("id", id); ("name", name); ("price", price);
                     ("description", description); ("color", color);
                     ("size", size); ("product_code", product_code);
                     ("pricebook_entry_id", pricebook_entry_id);
                     ("category", category); ("image_url", image_url);
                     ("url",
                      PStr ("https://store.example.com/product/"
                            +:+ py_str code))]))
  else Ok None.

Fixpoint collect_products (records : list pyval) : res (list pyval) :=
  match records with
  | [] => Ok []
  | record :: rest =>
      found <- product_of_record record ;;
      products <- collect_products rest ;;
      Ok (match found with
          | Some product => product :: products
          | None => products
          end)
  end.

(** The [try] block of the search: the query and the loop over its
    records; any exception gives the empty list. *)
Definition run_search (sf : Salesforce) (text : string) : list pyval :=
  match (results <- sf_query sf text ;;
         records <- py_getitem results "records" ;;
         elements <- py_iter records ;;
         collect_products elements) with
  | Ok products => products
  | Raise _ => []
  end.

(** [query.split()] *)
Definition str_split (v : pyval) : res (list string) :=
  match v with
  | PStr s => Ok (split_words s)
  | _ => Raise (AttributeError "split")
  end.

(** The filters the search works with: those of the call, or, for a
    query of more than two words, what the interpreter makes of it. *)
Definition effective_filters (f : Filters) : res Filters :=
  if py_truthy (query f) then
    words <- str_split (query f) ;;
    if Z.ltb 2 (Z.of_nat (length words)) then
      let filters :=
        interpret_search_query
          (match query f with PStr s => s | _ => "" end) in
      query' <- py_get filters "query" PNone ;;
      category' <- py_get filters "category" PNone ;;
      color' <- py_get filters "color" PNone ;;
      size' <- py_get filters "size" PNone ;;
      price_min' <- py_get filters "price_min" PNone ;;
      price_max' <- py_get filters "price_max" PNone ;;
      Ok {| query := query'; category := category';
            price_max := price_max'; price_min := price_min';
            color := color'; size := size' |}
    else Ok f
  else Ok f.

(** [tool_search_products(query, category, price_max, price_min, color,
    size)] *)
Definition tool_search_products (sf : Salesforce)
    (query category price_max price_min color size : pyval)
  : res (list pyval) :=
  f <- effective_filters
         {| query := query; category := category; price_max := price_max;
            price_min := price_min; color := color; size := size |} ;;
  Ok (run_search sf (soql f)).

Definition search_parameters : list string :=
  ["query"; "category"; "price_max"; "price_min"; "color"; "size"].

(** The call of [tool_search_products] with the entries of [tool_args]
    as keyword arguments: a keyword that is not a parameter is a
    [TypeError]; a parameter that is not given is [None]. *)
Definition call_tool_search_products (sf : Salesforce) (tool_args : pyval)
  : res pyval :=
  match tool_args with
  | PDict d =>
      if forallb (fun kv => existsb (String.eqb (fst kv)) search_parameters)
           d then
        let arg := fun k => match assoc k d with
                            | Some v => v
                            | None => PNone
                            end in
        products <- tool_search_products sf (arg "query") (arg "category")
                      (arg "price_max") (arg "price_min") (arg "color")
                      (arg "size") ;;
        Ok (PList products)
      else Raise TypeError
  | _ => Raise TypeError
  end.

Definition price_query (pricebook_entry_id : pyval) : string :=
  nl +:+ "                SELECT UnitPrice FROM PricebookEntry " +:+ nl
  +:+ "                WHERE Id = '" +:+ py_str pricebook_entry_id
  +:+ "' LIMIT 1" +:+ nl +:+ "            ".

Definition order_number_query (order_id : pyval) : string :=
  "SELECT OrderNumber FROM Order WHERE Id = '" +:+ py_str order_id
  +:+ "' LIMIT 1".

(** One round of the loop over the items of an order: the result of
    [create_order_item] and the amount of the item when that result is
    truthy. *)
Definition add_order_item (sf : Salesforce) (order_id item : pyval)
  : M (list sf_call) (option (pyval * pyval)) :=
  entry_id <~ lift (py_getitem item "pricebook_entry_id") ;;
  pbe_query <~ lift (sf_query sf (price_query entry_id)) ;;
  records <~ lift (py_getitem pbe_query "records") ;;
  first <~ lift (py_getitem0 records) ;;
  unit_price <~ lift (py_getitem first "UnitPrice") ;;
  entry_id' <~ lift (py_getitem item "pricebook_entry_id") ;;
  quantity <~ lift (py_getitem item "quantity") ;;
  order_item_data <~ lift (OrderItem sf order_id entry_id' quantity
                             unit_price) ;;
  item_result <~ called (CreateOrderItem order_item_data)
                   (create_order_item sf order_item_data) ;;
  if py_truthy item_result then
    quantity' <~ lift (py_getitem item "quantity") ;;
    amount <~ lift (py_mul unit_price quantity') ;;
    ret (Some (item_result, amount))
  else ret None.

Fixpoint add_order_items (sf : Salesforce) (order_id : pyval)
    (items order_items : list pyval) (total_amount : float)
  : M (list sf_call) (list pyval * float) :=
  match items with
  | [] => ret (order_items, total_amount)
  | item :: rest =>
      added <~ add_order_item sf order_id item ;;
      match added with
      | Some (item_result, amount) =>
          total_amount' <~ lift (float_iadd total_amount amount) ;;
          add_order_items sf order_id rest (order_items ++ [item_result])
            total_amount'
      | None => add_order_items sf order_id rest order_items total_amount
      end
  end.

Definition order_success (order_number order_id : pyval)
    (total_amount : float) (items_count : Z) : pyval :=
  PDict [("success", PBool true); ("order_number", order_number);
         ("order_id", order_id); ("total_amount", PFloat total_amount);
         ("items_count", PInt items_count)].

(** [tool_place_order(customer, items, checkout_source)] *)
Definition tool_place_order (sf : Salesforce)
    (customer items checkout_source : pyval) : M (list sf_call) pyval :=
  m_try
    (email <~ lift (py_getitem customer "email") ;;
     name <~ lift (py_getitem customer "name") ;;
     phone <~ lift (py_get customer "phone" (PStr "")) ;;
     account_id <~ called (UpsertAccount email name phone)
                     (upsert_account sf email name phone) ;;
     pricebook_id <~ lift (get_standard_pricebook sf) ;;
     order_data <~ lift (Order sf account_id pricebook_id (today sf)
                           (PStr "Draft") checkout_source) ;;
     order_result <~ called (CreateOrder order_data)
                       (create_order sf order_data) ;;
     if negb (py_truthy order_result) then
       ret (failure "Failed to create order")
     else
       order_id <~ lift (py_getitem order_result "id") ;;
       elements <~ lift (py_iter items) ;;
       placed <~ add_order_items sf order_id elements [] 0%float ;;
       order_query <~ lift (sf_query sf (order_number_query order_id)) ;;
       records <~ lift (py_getitem order_query "records") ;;
       first <~ lift (py_getitem0 records) ;;
       order_number <~ lift (py_getitem first "OrderNumber") ;;
       ret (order_success order_number order_id (snd placed)
              (Z.of_nat (length (fst placed)))))
    (fun e => ret (failure ("Error placing order: " +:+ exn_str e))).

End Implementation.
End Tools.

(** A gateway whose search and order tools are the functions of
    [backend/tools.py] over a Salesforce client. *)
Definition with_tools `{PyRuntime} (llm_filters raw_filters : string ->
    res pyval) (split_words : string -> list string) (sf : Tools.Salesforce)
    (gw : Gateway) : Gateway :=
  {| sf_query_product := sf_query_product gw;
     get_order_status := get_order_status gw;
     sf_query_orders := sf_query_orders gw;
     tool_search_products :=
       Tools.call_tool_search_products llm_filters raw_filters split_words
         sf;
     tool_place_order := fun customer items checkout_source =>
       fst (Tools.tool_place_order sf customer items checkout_source
              []) |}.

(** ** Properties of the search tool *)

Section SearchProperties.
Context `{PyRuntime}.
Variable llm_filters : string -> res pyval.
Variable raw_filters : string -> res pyval.
Variable split_words : string -> list string.

Let tool_search :=
  Tools.tool_search_products llm_filters raw_filters split_words.

(** A filter as the search takes it: a falsy value counts as [None]. *)
Definition given (v : pyval) : pyval := if py_truthy v then v else PNone.

Lemma given_truthy v : py_truthy (given v) = py_truthy v.
Proof. unfold given. destruct (py_truthy v) eqn:Hv; [exact Hv|reflexivity]. Qed.

Lemma given_when_truthy {A : Type} v (f : pyval -> A) (a : A) :
  (if py_truthy (given v) then f (given v) else a)
  = (if py_truthy v then f v else a).
Proof.
  rewrite given_truthy. unfold given. destruct (py_truthy v); reflexivity.
Qed.

Lemma conditions_given f :
  Tools.conditions
    {| Tools.query := given (Tools.query f);
       Tools.category := given (Tools.category f);
       Tools.price_max := given (Tools.price_max f);
       Tools.price_min := given (Tools.price_min f);
       Tools.color := given (Tools.color f);
       Tools.size := given (Tools.size f) |}
  = Tools.conditions f.
Proof.
  unfold Tools.conditions. cbn [Tools.query Tools.category Tools.price_max
    Tools.price_min Tools.color Tools.size].
  rewrite (given_when_truthy (Tools.category f)
             (fun v => ["Family = '" +:+ py_str v +:+ "'"])).
  rewrite (given_when_truthy (Tools.color f)
             (fun v => ["Color__c LIKE '%" +:+ py_str v +:+ "%'"])).
  rewrite (given_when_truthy (Tools.size f)
             (fun v => ["Size__c LIKE '%" +:+ py_str v +:+ "%'"])).
  rewrite (given_when_truthy (Tools.query f)
             (fun v => ["(Name LIKE '%" +:+ py_str v
                        +:+ "%' OR Description LIKE '%" +:+ py_str v
                        +:+ "%')"])).
  rewrite (given_when_truthy (Tools.price_max f)
             (fun v => [Tools.price_condition "<=" v])).
  rewrite (given_when_truthy (Tools.price_min f)
             (fun v => [Tools.price_condition ">=" v])).
  reflexivity.
Qed.

(** X23. A filter whose value is falsy is no filter: the search treats
    0, 0.0, the empty string and [None] alike, so that a [price_max] of
    0 puts no bound on the price, and the search returns what it returns
    without that argument. *)
Theorem search_ignores_falsy_filters sf query category price_max price_min
    color size :
  tool_search sf query category price_max price_min color size
  = tool_search sf (given query) (given category) (given price_max)
      (given price_min) (given color) (given size).
Proof.
  unfold tool_search, Tools.tool_search_products, Tools.effective_filters.
  cbn [Tools.query]. rewrite given_truthy.
  destruct (py_truthy query) eqn:Hq.
  - assert (given query = query) as -> by (unfold given; rewrite Hq; auto).
    destruct (Tools.str_split split_words query) as [words|e];
      [|reflexivity].
    cbn [bind]. destruct (Z.ltb 2 (Z.of_nat (length words))); [reflexivity|].
    cbn [bind]. unfold Tools.soql.
    rewrite <- (conditions_given
                  {| Tools.query := query; Tools.category := category;
                     Tools.price_max := price_max;
                     Tools.price_min := price_min; Tools.color := color;
                     Tools.size := size |}).
    cbn [Tools.query Tools.category Tools.price_max Tools.price_min
         Tools.color Tools.size].
    assert (given query = query) as -> by (unfold given; rewrite Hq; auto).
    reflexivity.
  - cbn [bind]. unfold Tools.soql.
    rewrite <- (conditions_given
                  {| Tools.query := query; Tools.category := category;
                     Tools.price_max := price_max;
                     Tools.price_min := price_min; Tools.color := color;
                     Tools.size := size |}).
    reflexivity.
Qed.



(** A record whose price book entries are [None], as for a product
    without any, cannot be read. *)
Lemma product_of_record_without_entries fields :
  assoc "PricebookEntries" fields = Some PNone ->
  Tools.product_of_record (PDict fields) = Raise (AttributeError "get").
Proof.
  intros Hentries. unfold Tools.product_of_record. cbn [py_get].
  rewrite Hentries. reflexivity.
Qed.




(** X26. Through the dispatcher an outage of Salesforce looks like a
    search without matches: for arguments that carry only parameters of
    the search and a query of at most two words (or none), when every
    query raises, [handle_tool_call] answers [search_products] with
    success, an empty product list and a count of 0, and changes
    nothing. *)
Theorem search_outage_looks_empty sf gw fields m :
  forallb (fun kv => existsb (String.eqb (fst kv)) Tools.search_parameters)
    fields = true ->
  (assoc "query" fields = None \/ assoc "query" fields = Some PNone \/
   exists s, assoc "query" fields = Some (PStr s) /\
             (length (split_words s) <= 2)%nat) ->
  (forall text, exists e, Tools.sf_query sf text = Raise e) ->
  handle_tool_call (with_tools llm_filters raw_filters split_words sf gw)
    (PStr "search_products") (PDict fields) m
  = (Ok (PDict [("success", PBool true); ("products", PList []);
                ("count", PInt 0)]), m).
Proof.
  intros Hkeys Hquery Hdown.
  assert (Hsearch :
            Tools.call_tool_search_products llm_filters raw_filters
              split_words sf (PDict fields) = Ok (PList [])).
  { unfold Tools.call_tool_search_products. rewrite Hkeys.
    set (query := match assoc "query" fields with
                  | Some v => v | None => PNone end).
    assert (Hq : query = PNone \/
                 exists s, query = PStr s /\
                           (length (split_words s) <= 2)%nat).
    { subst query. destruct Hquery as [->|[->|(s & -> & Hs)]]; eauto. }
    assert (Hrun : forall text, Tools.run_search sf text = []).
    { intros text. destruct (Hdown text) as (e & He).
      unfold Tools.run_search. rewrite He. reflexivity. }
    unfold Tools.tool_search_products, Tools.effective_filters.
    cbn [Tools.query]. destruct Hq as [->|(s & -> & Hshort)].
    - cbn [py_truthy bind]. rewrite Hrun. reflexivity.
    - destruct (py_truthy (PStr s)).
      + cbn [Tools.str_split bind].
        destruct (Z.ltb_spec 2 (Z.of_nat (length (split_words s))))
          as [Hlt|_]; [lia|].
        cbn [bind]. rewrite Hrun. reflexivity.
      + cbn [bind]. rewrite Hrun. reflexivity. }
  rewrite handle_tool_call_printed by printed. unfold dispatch, dispatch_body.
  change (py_eq_lit (PStr "search_products") "search_products") with true.
  cbv iota. unfold m_try, mbind, lift, ret. cbv beta.
  cbn [with_tools tool_search_products]. rewrite Hsearch. reflexivity.
Qed.

End SearchProperties.

(** ** Properties of the order tool *)

Section OrderProperties.
Context `{PyRuntime}.

(** The order has been opened: the account is upserted, the order
    record is built and [create_order] has answered with an id. *)
Definition order_opened (sf : Tools.Salesforce)
    (customer checkout_source email name phone order_data order_id : pyval)
  : Prop :=
  exists account_id pricebook_id order_result,
    py_getitem customer "email" = Ok email /\
    py_getitem customer "name" = Ok name /\
    py_get customer "phone" (PStr "") = Ok phone /\
    Tools.upsert_account sf email name phone = Ok account_id /\
    Tools.get_standard_pricebook sf = Ok pricebook_id /\
    Tools.Order sf account_id pricebook_id (Tools.today sf) (PStr "Draft")
      checkout_source = Ok order_data /\
    Tools.create_order sf order_data = Ok order_result /\
    py_truthy order_result = true /\
    py_getitem order_result "id" = Ok order_id.

(** What [tool_place_order] does once the order is opened. *)
Lemma tool_place_order_opened sf customer items checkout_source email name
    phone order_data order_id :
  order_opened sf customer checkout_source email name phone order_data
    order_id ->
  Tools.tool_place_order sf customer items checkout_source []
  = m_try
      (elements <~ lift (py_iter items) ;;
       placed <~ Tools.add_order_items sf order_id elements [] 0%float ;;
       order_query <~ lift (Tools.sf_query sf
                              (Tools.order_number_query order_id)) ;;
       records <~ lift (py_getitem order_query "records") ;;
       first <~ lift (py_getitem0 records) ;;
       order_number <~ lift (py_getitem first "OrderNumber") ;;
       ret (Tools.order_success order_number order_id (snd placed)
              (Z.of_nat (length (fst placed)))))
      (fun e => ret (failure ("Error placing order: " +:+ exn_str e)))
      [Tools.UpsertAccount email name phone; Tools.CreateOrder order_data].
Proof.
  intros (account_id & pricebook_id & order_result & He & Hn & Hp & Hu & Hb
          & Ho & Hc & Ht & Hi).
  unfold Tools.tool_place_order, m_try, mbind, lift, Tools.called.
  cbv beta. rewrite He. cbv beta iota. rewrite Hn. cbv beta iota.
  rewrite Hp. cbv beta iota. rewrite Hu. cbv beta iota. rewrite Hb.
  cbv beta iota. rewrite Ho. cbv beta iota. rewrite Hc. cbv beta iota.
  rewrite Ht. cbn [negb]. cbv beta iota. rewrite Hi. cbv beta iota.
  reflexivity.
Qed.

(** The loop over the items only adds [create_order_item] calls to the
    record. *)
Lemma add_order_item_calls sf order_id item log :
  exists calls,
    snd (Tools.add_order_item sf order_id item log) = log ++ calls /\
    (forall added,
        fst (Tools.add_order_item sf order_id item log) = Ok added ->
        exists data answer,
          calls = [Tools.CreateOrderItem data] /\
          Tools.create_order_item sf data = Ok answer /\
          match added with
          | Some (item_result, _) =>
              item_result = answer /\ py_truthy answer = true
          | None => py_truthy answer = false
          end).
Proof.
  unfold Tools.add_order_item, mbind, lift, ret, Tools.called.
  assert (Hstop : forall (r : res (option (pyval * pyval))) e,
             exists calls : list Tools.sf_call,
               snd (Raise e : res (option (pyval * pyval)), log)
               = log ++ calls /\
               (forall added,
                   fst (Raise e : res (option (pyval * pyval)), log)
                   = Ok added ->
                   exists data answer,
                     calls = [Tools.CreateOrderItem data] /\
                     Tools.create_order_item sf data = Ok answer /\
                     match added with
                     | Some (item_result, _) =>
                         item_result = answer /\ py_truthy answer = true
                     | None => py_truthy answer = false
                     end)).
  { intros _ e. exists []. rewrite app_nil_r.
    split; [reflexivity|discriminate]. }
  destruct (py_getitem item "pricebook_entry_id") as [entry_id|e];
    cbv beta iota; [|apply (Hstop (Raise e))].
  destruct (Tools.sf_query sf (Tools.price_query entry_id))
    as [pbe_query|e]; cbv beta iota; [|apply (Hstop (Raise e))].
  destruct (py_getitem pbe_query "records") as [records|e];
    cbv beta iota; [|apply (Hstop (Raise e))].
  destruct (py_getitem0 records) as [first|e];
    cbv beta iota; [|apply (Hstop (Raise e))].
  destruct (py_getitem first "UnitPrice") as [unit_price|e];
    cbv beta iota; [|apply (Hstop (Raise e))].
  destruct (py_getitem item "quantity") as [quantity|e];
    cbv beta iota; [|apply (Hstop (Raise e))].
  destruct (Tools.OrderItem sf order_id entry_id quantity unit_price)
    as [data|e]; cbv beta iota; [|apply (Hstop (Raise e))].
  destruct (Tools.create_order_item sf data) as [answer|e] eqn:Hanswer;
    cbv beta iota.
  - destruct (py_truthy answer) eqn:Htruthy; cbv beta iota.
    + destruct (py_mul unit_price quantity) as [amount|e]; cbv beta iota;
        [|eexists; split; [reflexivity|discriminate]].
      eexists. split; [reflexivity|]. intros added [= <-].
      eexists _, _. split; [reflexivity|]. split; [exact Hanswer|].
      split; [reflexivity|exact Htruthy].
    + eexists. split; [reflexivity|]. intros added [= <-].
      eexists _, _. split; [reflexivity|]. split; [exact Hanswer|].
      exact Htruthy.
  - eexists. split; [reflexivity|discriminate].
Qed.

Lemma add_order_items_calls sf order_id items order_items total_amount log :
  exists calls,
    snd (Tools.add_order_items sf order_id items order_items total_amount
           log) = log ++ calls /\
    (forall placed total,
        fst (Tools.add_order_items sf order_id items order_items
               total_amount log) = Ok (placed, total) ->
        exists datas answers,
          calls = map Tools.CreateOrderItem datas /\
          Forall2 (fun data answer =>
                     Tools.create_order_item sf data = Ok answer)
            datas answers /\
          length datas = length items /\
          placed = order_items ++ List.filter py_truthy answers).
Proof.
  revert order_items total_amount log.
  induction items as [|item rest IH]; intros order_items total_amount log.
  - exists []. rewrite app_nil_r. split; [reflexivity|].
    intros placed total [= <- <-]. exists [], [].
    rewrite app_nil_r. repeat split; constructor.
  - cbn [Tools.add_order_items]. unfold mbind, lift.
    destruct (add_order_item_calls sf order_id item log)
      as (calls1 & Hlog1 & Hadded).
    destruct (Tools.add_order_item sf order_id item log) as [[added|e] log1].
    + simpl in Hlog1. subst log1.
      destruct (Hadded added eq_refl) as (data & answer & -> & Hanswer & Hcase).
      destruct added as [[item_result amount]|].
      * destruct Hcase as [-> Htruthy].
        destruct (float_iadd total_amount amount) as [total'|e].
        -- destruct (IH (order_items ++ [answer]) total'
                       (log ++ [Tools.CreateOrderItem data]))
             as (calls & Hlog & Hplaced).
           exists (Tools.CreateOrderItem data :: calls). split.
           ++ rewrite Hlog, <- app_assoc. reflexivity.
           ++ intros placed total Hrun.
              destruct (Hplaced placed total Hrun)
                as (datas & answers & -> & Hall & Hlen & ->).
              exists (data :: datas), (answer :: answers).
              split; [reflexivity|]. split; [constructor; assumption|].
              split; [simpl; congruence|].
              simpl. rewrite Htruthy, <- app_assoc. reflexivity.
        -- exists [Tools.CreateOrderItem data].
           split; [reflexivity|discriminate].
      * destruct (IH order_items total_amount
                    (log ++ [Tools.CreateOrderItem data]))
          as (calls & Hlog & Hplaced).
        exists (Tools.CreateOrderItem data :: calls). split.
        -- rewrite Hlog, <- app_assoc. reflexivity.
        -- intros placed total Hrun.
           destruct (Hplaced placed total Hrun)
             as (datas & answers & -> & Hall & Hlen & ->).
           exists (data :: datas), (answer :: answers).
           split; [reflexivity|]. split; [constructor; assumption|].
           split; [simpl; congruence|].
           simpl. rewrite Hcase. reflexivity.
    + exists calls1. split; [exact Hlog1|discriminate].
Qed.

Lemma tool_place_order_returns sf customer items checkout_source log :
  exists result log',
    Tools.tool_place_order sf customer items checkout_source log
    = (Ok result, log').
Proof.
  unfold Tools.tool_place_order. apply m_try_returns.
  intros e s1. eexists _, _. reflexivity.
Qed.

(** X27. [tool_place_order] never raises, and it is not atomic: once
    the order is opened, an exception on one of the items, such as a
    price book entry that the price query does not find, gives the
    failure "Error placing order: ..." while the account upsert, the
    created order and the items created before stay as calls made to
    Salesforce. *)
Theorem tool_place_order_is_not_atomic sf customer items checkout_source :
  (forall log,
      exists result log',
        Tools.tool_place_order sf customer items checkout_source log
        = (Ok result, log')) /\
  (forall email name phone order_data order_id elements e log',
      order_opened sf customer checkout_source email name phone order_data
        order_id ->
      py_iter items = Ok elements ->
      Tools.add_order_items sf order_id elements [] 0%float
        [Tools.UpsertAccount email name phone; Tools.CreateOrder order_data]
      = (Raise e, log') ->
      Tools.tool_place_order sf customer items checkout_source []
      = (Ok (failure ("Error placing order: " +:+ exn_str e)), log') /\
      exists calls,
        log' = [Tools.UpsertAccount email name phone;
                Tools.CreateOrder order_data] ++ calls).
Proof.
  split.
  - intros log. apply tool_place_order_returns.
  - intros email name phone order_data order_id elements e log' Hopened
      Hiter Hloop.
    rewrite (tool_place_order_opened sf customer items checkout_source email
               name phone order_data order_id Hopened).
    unfold m_try, mbind, lift. rewrite Hiter. cbv beta iota.
    rewrite Hloop. cbv beta iota. split; [reflexivity|].
    destruct (add_order_items_calls sf order_id elements [] 0%float
                [Tools.UpsertAccount email name phone;
                 Tools.CreateOrder order_data]) as (calls & Hlog & _).
    rewrite Hloop in Hlog. exists calls. exact Hlog.
Qed.

(** X28. What a successful order reports: the loop makes one
    [create_order_item] call per item, in order; [items_count] counts
    the calls that answered with a truthy result, so an item whose
    creation answers falsy is left out of the count without failing the
    order; and an order without items succeeds with a total of 0.0 and
    a count of 0. *)
Theorem tool_place_order_counts_created_items sf customer items
    checkout_source email name phone order_data order_id order_query records
    first order_number :
  order_opened sf customer checkout_source email name phone order_data
    order_id ->
  Tools.sf_query sf (Tools.order_number_query order_id) = Ok order_query ->
  py_getitem order_query "records" = Ok records ->
  py_getitem0 records = Ok first ->
  py_getitem first "OrderNumber" = Ok order_number ->
  (forall elements placed total log',
      py_iter items = Ok elements ->
      Tools.add_order_items sf order_id elements [] 0%float
        [Tools.UpsertAccount email name phone; Tools.CreateOrder order_data]
      = (Ok (placed, total), log') ->
      Tools.tool_place_order sf customer items checkout_source []
      = (Ok (Tools.order_success order_number order_id total
               (Z.of_nat (length placed))), log') /\
      exists datas answers,
        log' = [Tools.UpsertAccount email name phone;
                Tools.CreateOrder order_data]
               ++ map Tools.CreateOrderItem datas /\
        Forall2 (fun data answer =>
                   Tools.create_order_item sf data = Ok answer)
          datas answers /\
        length datas = length elements /\
        placed = List.filter py_truthy answers) /\
  (py_iter items = Ok [] ->
   Tools.tool_place_order sf customer items checkout_source []
   = (Ok (Tools.order_success order_number order_id 0%float 0),
      [Tools.UpsertAccount email name phone; Tools.CreateOrder order_data])).
Proof.
  intros Hopened Hquery Hrecords Hfirst Hnumber.
  pose proof (tool_place_order_opened sf customer items checkout_source email
                name phone order_data order_id Hopened) as Hrun.
  split.
  - intros elements placed total log' Hiter Hloop. rewrite Hrun.
    unfold m_try, mbind, lift, ret. rewrite Hiter. cbv beta iota.
    rewrite Hloop. cbv beta iota. rewrite Hquery. cbv beta iota.
    rewrite Hrecords. cbv beta iota. rewrite Hfirst. cbv beta iota.
    rewrite Hnumber. cbv beta iota. split; [reflexivity|].
    destruct (add_order_items_calls sf order_id elements [] 0%float
                [Tools.UpsertAccount email name phone;
                 Tools.CreateOrder order_data]) as (calls & Hlog & Hplaced).
    rewrite Hloop in Hlog, Hplaced.
    destruct (Hplaced placed total eq_refl)
      as (datas & answers & -> & Hall & Hlen & ->).
    exists datas, answers. repeat split; assumption.
  - intros Hiter. rewrite Hrun.
    unfold m_try, mbind, lift, ret. rewrite Hiter. cbv beta iota.
    cbn [Tools.add_order_items]. unfold ret. cbv beta iota.
    rewrite Hquery. cbv beta iota. rewrite Hrecords. cbv beta iota.
    rewrite Hfirst. cbv beta iota. rewrite Hnumber. reflexivity.
Qed.




End OrderProperties.

(** ** backend/agent.py: the confirmation node *)

Module Agent.
Section Nodes.
Context `{PyRuntime}.

(** [f"{total:.2f}"] *)
Variable format_2f : pyval -> res string.

(** [state["conversation_history"].append(msg)] *)
Definition append_message (state : pyval) (msg : string) : res pyval :=
  history <- py_getitem state "conversation_history" ;;
  match history with
  | PList l =>
      py_setitem state "conversation_history" (PList (l ++ [PStr msg]))
  | _ => Raise (AttributeError "append")
  end.

(** [sum(item.product.price * item.quantity for item in cart)] *)
Fixpoint cart_total (total : pyval) (items : list pyval) : res pyval :=
  match items with
  | [] => Ok total
  | item :: rest =>
      product <- py_getattr item "product" ;;
      price <- py_getattr product "price" ;;
      quantity <- py_getattr item "quantity" ;;
      amount <- py_mul price quantity ;;
      total' <- py_iadd total amount ;;
      cart_total total' rest
  end.

(** [[f"{item.quantity}x {item.product.name}" for item in cart]] *)
Fixpoint item_summaries (items : list pyval) : res (list string) :=
  match items with
  | [] => Ok []
  | item :: rest =>
      quantity <- py_getattr item "quantity" ;;
      product <- py_getattr item "product" ;;
      name <- py_getattr product "name" ;;
      summaries <- item_summaries rest ;;
      Ok ((py_str quantity +:+ "x " +:+ py_str name) :: summaries)
  end.

Definition empty_cart_message : string :=
  "Your cart is empty. Would you like to search for products?".

(** [confirm_purchase_node(state)] *)
Definition confirm_purchase_node (state : pyval) : res pyval :=
  cart <- py_get state "cart" (PList []) ;;
  if negb (py_truthy cart) then
    state' <- append_message state empty_cart_message ;;
    py_setitem state' "intent" (PStr "search_products")
  else
    items <- py_iter cart ;;
    total <- cart_total (PInt 0) items ;;
    summaries <- item_summaries items ;;
    total_text <- format_2f total ;;
    state' <- append_message state
                ("Your cart contains: " +:+ Tools.join ", " summaries
                 +:+ ". Total: $" +:+ total_text
                 +:+ ". Would you like to proceed with checkout?") ;;
    py_setitem state' "intent" (PStr "place_order").

End Nodes.
End Agent.

Section AgentProperties.
Context `{PyRuntime}.
Variable format_2f : pyval -> res string.

Lemma assoc_set_same k v d : assoc k (assoc_set k v d) = Some v.
Proof.
  induction d as [|[k0 v0] d IH]; simpl.
  - rewrite String.eqb_refl. reflexivity.
  - destruct (String.eqb k k0) eqn:Hk; simpl.
    + rewrite String.eqb_refl. reflexivity.
    + rewrite Hk. exact IH.
Qed.

(** X30. The confirmation node of the agent graph reads cart lines as
    [CartItem] objects, which the lines [tool_add_to_cart] appends are
    not: on an empty cart the node says so and sends the conversation
    back to the search, but on the cart the tool leaves after adding a
    product to an empty cart it raises [AttributeError] instead of
    summing up. *)
Theorem confirm_purchase_rejects_tool_lines :
  (forall fields history,
      py_get (PDict fields) "cart" (PList []) = Ok (PList []) ->
      assoc "conversation_history" fields = Some (PList history) ->
      exists fields',
        Agent.confirm_purchase_node format_2f (PDict fields)
        = Ok (PDict fields') /\
        assoc "intent" fields' = Some (PStr "search_products") /\
        assoc "conversation_history" fields'
        = Some (PList (history ++ [PStr Agent.empty_cart_message]))) /\
  (forall gw product_name quantity product_dict pid,
      fetch_product gw product_name = Ok (Some product_dict) ->
      py_getitem product_dict "id" = Ok (PStr pid) ->
      exists result cart',
        tool_add_to_cart gw product_name quantity [] = Ok (result, cart') /\
        py_getitem result "success" = Ok (PBool true) /\
        forall state,
          py_get state "cart" (PList []) = Ok (PList cart') ->
          Agent.confirm_purchase_node format_2f state
          = Raise (AttributeError "product")).
Proof.
  split.
  - intros fields history Hcart Hhistory.
    unfold Agent.confirm_purchase_node. rewrite Hcart.
    cbn [bind py_truthy negb].
    unfold Agent.append_message. cbn [py_getitem]. rewrite Hhistory.
    cbn [bind py_setitem]. eexists. split; [reflexivity|]. split.
    + apply assoc_set_same.
    + rewrite assoc_set_other by reflexivity. apply assoc_set_same.
  - intros gw product_name quantity product_dict pid Hfetch Hid.
    destruct (tool_add_to_cart_absent gw product_name quantity product_dict
                pid [] Hfetch Hid (List.Forall_nil _)) as (result & Hadd & Hok).
    exists result, ([] ++ [new_line product_dict quantity]).
    split; [exact Hadd|]. split; [exact Hok|].
    intros state Hcart. unfold Agent.confirm_purchase_node. rewrite Hcart.
    reflexivity.
Qed.

End AgentProperties.

(** ** Worked examples for the further properties

    The runtime of the examples above, with a JSON decoder that also
    knows the arguments of an [add_to_cart] call for the wallet. *)

Definition wallet_name : string := "Men's Bifold Wallet - Black Leather".

Definition add_wallet_args : pyval :=
  PDict [("product_name", PStr wallet_name)].

Definition add_wallet_text : string :=
  let q := fun t => String (ascii_of_nat 34) t +:+ String (ascii_of_nat 34) ""
  in
  "{" +:+ q "product_name" +:+ ": " +:+ q wallet_name +:+ "}".

Definition demo_loads (text : pyval) : res pyval :=
  match text with
  | PStr t => if String.eqb t add_wallet_text then Ok add_wallet_args
              else sample_loads text
  | _ => sample_loads text
  end.

Definition demo_runtime : PyRuntime :=
  {| py_str := sample_str;
     exn_str := sample_exn_str;
     py_eq := sample_eq;
     json_loads := demo_loads;
     json_dumps := fun v => Ok (sample_str v);
     b64decode := fun v => match v with
                           | PStr t => Ok (PStr t)
                           | _ => Raise TypeError
                           end;
     has_surrogate := sample_has_surrogate;
     py_str_str := fun s => eq_refl;
     py_eq_str := sample_eq_str;
     ascii_no_surrogate := sample_ascii_no_surrogate |}.

(** A call of a tool the dispatcher does not know, and the call that
    adds the wallet. *)
Definition weather_event : pyval :=
  PDict [("type", PStr "response.function_call_arguments.done");
         ("call_id", PStr "call_1Ab");
         ("name", PStr "get_weather");
         ("arguments", PStr "{}")].

Definition add_wallet_event : pyval :=
  PDict [("type", PStr "response.function_call_arguments.done");
         ("call_id", PStr "call_8Zm");
         ("name", PStr "add_to_cart");
         ("arguments", PStr add_wallet_text)].

Definition open_mem : ClientMem := {| self := open_client; carts := [[]] |}.

Definition function_call_output (call_id : string) (output : string)
  : pyval :=
  PDict [("type", PStr "conversation.item.create");
         ("item", PDict [("type", PStr "function_call_output");
                         ("call_id", PStr call_id);
                         ("output", PStr output)])].

(** *** The client's own handler *)

(** The unknown tool is answered with its failure, under the call id of
    the event. *)
Lemma handle_event_answers_witness :
  @handle_event sample_runtime shop weather_event open_mem
  = (Ok tt,
     ws_send (event_of_type "response.create")
       (ws_send (function_call_output "call_1Ab" "<dict>") open_mem)).
Proof.
  exact (@handle_event_answers_tool_call sample_runtime shop weather_event
           (PStr "call_1Ab") (PStr "get_weather") (PStr "{}") (PDict [])
           open_mem (failure "Unknown tool: get_weather") open_mem
           eq_refl eq_refl eq_refl eq_refl eq_refl eq_refl eq_refl).
Defined.

Lemma handle_event_quiet_witness :
  wire (snd (@handle_event sample_runtime shop
               (event_of_type "response.done") open_mem)) = wire open_mem /\
  order_state (snd (@handle_event sample_runtime shop
                      (event_of_type "response.done") open_mem))
  = order_state open_mem.
Proof.
  exact (@handle_event_quiet sample_runtime shop
           (event_of_type "response.done") (PStr "response.done") open_mem
           eq_refl eq_refl eq_refl).
Defined.

Lemma close_stops_traffic_witness :
  close (close open_client) = close open_client /\
  state (close open_client) = state open_client /\
  sent (close open_client) = sent open_client /\
  @send_tool_response sample_runtime (PStr "call_1Ab") (PDict [])
    {| self := close open_client; carts := [[]] |}
  = (Ok tt, {| self := close open_client; carts := [[]] |}) /\
  @handle_event sample_runtime shop speech_started
    {| self := close open_client; carts := [[]] |}
  = (Ok tt, {| self := close open_client; carts := [[]] |}).
Proof.
  exact (@close_stops_traffic sample_runtime shop open_client [[]]
           (PStr "call_1Ab") (PDict []) speech_started eq_refl).
Defined.

(** *** A message that is not JSON *)

Definition garbled_stream : Stream :=
  {| messages := [PStr (json_event_text "response.done");
                  PStr "not json";
                  PStr (json_event_text "input_audio_buffer.speech_stopped")];
     finish := StaysOpen |}.

Definition garbled : Transport := fun _ => Accepted garbled_stream.

Lemma done_handled :
  @handles sample_runtime shop [PStr (json_event_text "response.done")]
    (@connected_mem PNone fresh_listener)
    (@connected_mem PNone fresh_listener).
Proof.
  eapply handles_cons; [vm_compute; reflexivity|apply handles_nil].
Defined.

Lemma listen_ends_witness :
  @listen sample_runtime PNone 3 shop garbled fresh_listener
  = (Returned,
     {| mem := @connected_mem PNone fresh_listener;
        live := Some
                  {| messages :=
                       [PStr (json_event_text
                                "input_audio_buffer.speech_stopped")];
                     finish := StaysOpen |};
        attempts := 1%nat;
        trace := [Connecting 0;
                  Received (PStr (json_event_text "response.done"));
                  Received (PStr "not json")] |}).
Proof.
  refine (@listen_ends_at_failing_message sample_runtime PNone 2 shop garbled
            fresh_listener [PStr (json_event_text "response.done")]
            (PStr "not json")
            [PStr (json_event_text "input_audio_buffer.speech_stopped")]
            StaysOpen _ _ (OtherError "Expecting value")
            eq_refl eq_refl done_handled _ _).
  - vm_compute. reflexivity.
  - discriminate.
Defined.

(** *** The relay *)

Lemma drops_other_types_witness :
  @handle_voice_event sample_runtime shop "s1"
    (event_of_type "conversation.item.created") one_session
  = (Ok tt, one_session).
Proof.
  exact (@handle_voice_event_drops_other_types sample_runtime shop "s1"
           (event_of_type "conversation.item.created")
           (PStr "conversation.item.created") one_session eq_refl eq_refl).
Defined.

Definition one_wallet : pyval :=
  PDict [("product", wallet); ("quantity", PInt 1)].

Lemma wallet_added :
  @tool_add_to_cart demo_runtime shop (PStr wallet_name) (PInt 1) []
  = Ok (cart_success ("Added 1x " +:+ wallet_name +:+ " to cart") 45%float,
        [one_wallet]).
Proof. vm_compute. reflexivity. Defined.

(** Linked carts: the wallet added by voice is in the cart the browser
    is sent. *)
Lemma cart_updated_witness :
  exists w' c',
    @handle_voice_event demo_runtime shop "s1" add_wallet_event one_session
    = (Ok tt, w') /\
    delivered w' = [(7%nat, cart_updated [one_wallet])] /\
    voice_clients (manager w') !! "s1" = Some c' /\
    cart_list (objects w') (cart (state c')) = [one_wallet] /\
    cart_list (objects w') 0 = [one_wallet].
Proof.
  destruct (@cart_updated_carries_session_cart demo_runtime shop "s1"
              add_wallet_event (PStr "call_8Zm") (PStr add_wallet_text)
              add_wallet_args open_client
              {| session_cart := 0%nat; voice_mode := false |} 7%nat
              one_session
              (cart_success ("Added 1x " +:+ wallet_name +:+ " to cart")
                 45%float)
              (snd (@handle_tool_call demo_runtime shop (PStr "add_to_cart")
                      add_wallet_args
                      {| self := open_client;
                         carts := objects one_session |}))
              (PBool true)
              eq_refl eq_refl eq_refl eq_refl eq_refl
              one_session_client one_session_data one_session_socket
              eq_refl (le_n 1) eq_refl eq_refl eq_refl)
    as (product_name & quantity & cart' & w' & c' & Hproduct & Hquantity
        & Htool & Hrun & Hdelivered & Hclient & _ & Hcart & Hsession).
  vm_compute in Hproduct, Hquantity.
  injection Hproduct as <-. injection Hquantity as <-.
  assert (Hcart' : cart' = [one_wallet]).
  { pose proof wallet_added as Hadded.
    assert (Hsame : Ok (cart_success
                          ("Added 1x " +:+ wallet_name +:+ " to cart")
                          45%float, cart')
                    = Ok (cart_success
                            ("Added 1x " +:+ wallet_name +:+ " to cart")
                            45%float, [one_wallet]))
      by (rewrite <- Htool; exact Hadded).
    injection Hsame as ->. reflexivity. }
  rewrite Hcart' in Hdelivered, Hcart, Hsession. exists w', c'.
  split; [exact Hrun|]. split; [exact Hdelivered|].
  split; [exact Hclient|]. split; [exact Hcart|exact Hsession].
Defined.


Lemma relay_answers_witness :
  sent_of "s1"
    (snd (@handle_voice_event sample_runtime shop "s1" weather_event
            one_session))
  = Some [function_call_output "call_1Ab" "<dict>";
          event_of_type "response.create"].
Proof.
  exact (@relay_answers_tool_call sample_runtime shop "s1" weather_event
           (PStr "call_1Ab") (PStr "get_weather") (PStr "{}") (PDict [])
           open_client one_session (failure "Unknown tool: get_weather")
           {| self := open_client; carts := objects one_session |} "<dict>"
           eq_refl eq_refl eq_refl eq_refl eq_refl one_session_client
           eq_refl eq_refl eq_refl).
Defined.

(** *** The browser's frames *)

Definition echo_codec (v : pyval) : res pyval := Ok v.

Definition text_frame (content : string) : pyval :=
  PDict [("type", PStr "text"); ("content", PStr content)].

Lemma frames_handled :
  @chat_frames sample_runtime echo_codec "s1"
    [event_of_type "voice_mode_on"; event_of_type "ping";
     text_frame "hello"] one_session
  = (Ok tt,
     snd (@chat_frames sample_runtime echo_codec "s1"
            [event_of_type "voice_mode_on"; event_of_type "ping";
             text_frame "hello"] one_session)).
Proof. vm_compute. reflexivity. Defined.

(** Voice mode on, a ping, then typed text: the text frame is the last
    to set the mode, and the audio that follows is not delivered. *)
Lemma last_mode_frame_witness :
  let w' := snd (@chat_frames sample_runtime echo_codec "s1"
                   [event_of_type "voice_mode_on"; event_of_type "ping";
                    text_frame "hello"] one_session) in
  voice_mode_active (manager w') !! "s1" = Some false /\
  exists w'',
    @handle_voice_event sample_runtime shop "s1" audio_event w'
    = (Ok tt, w'') /\
    delivered w'' = delivered w' ++ [].
Proof.
  exact (@last_mode_frame_gates_audio sample_runtime echo_codec shop "s1"
           7%nat
           [event_of_type "voice_mode_on"; event_of_type "ping";
            text_frame "hello"]
           one_session _ audio_event (PStr "UklGRg==") one_session_socket
           frames_handled eq_refl eq_refl).
Defined.

Lemma text_frame_witness :
  exists w',
    @chat_frame sample_runtime echo_codec "s1" (text_frame "hello")
      one_session = (Ok tt, w') /\
    delivered w'
    = [(7%nat, PDict [("type", PStr "user_message");
                      ("content", PStr "hello"); ("mode", PStr "text")])] /\
    sent_of "s1" w'
    = Some [text_event (PStr "hello"); event_of_type "response.create"].
Proof.
  exact (@text_frame_echoed_then_sent sample_runtime echo_codec "s1" 7%nat
           open_client (text_frame "hello") (PStr "hello") one_session
           eq_refl eq_refl one_session_socket one_session_client).
Defined.

Lemma done_relayed :
  @relay_messages sample_runtime shop "s1"
    [PStr (json_event_text "response.done")] one_session
  = (Ok tt, one_session).
Proof. vm_compute. reflexivity. Defined.

Lemma reader_stops_witness :
  @listen_to_voice_client sample_runtime shop "s1" (messages garbled_stream)
    one_session
  = one_session.
Proof.
  refine (@reader_stops_at_first_failure sample_runtime shop "s1" open_client
            [PStr (json_event_text "response.done")] (PStr "not json")
            [PStr (json_event_text "input_audio_buffer.speech_stopped")]
            one_session one_session one_session
            (OtherError "Expecting value") one_session_client _ done_relayed
            _).
  - discriminate.
  - vm_compute. reflexivity.
Defined.

(** *** The REST cart *)

(** Session "s1" with two wallets in the cart its voice client shares. *)
Definition wallet_session : World :=
  {| manager := manager one_session;
     active_sessions := active_sessions one_session;
     objects := [[wallet_line]];
     delivered := [];
     upstream_closed := [] |}.

Definition wallet_id : string := "01t5g000001".

Definition catalog (product_id : string) : reply :=
  if String.eqb product_id wallet_id then Response wallet
  else HTTPException 404 (PStr "Product not found").

Definition status_and_detail (status_code : Z) (detail : pyval) : string :=
  pretty status_code +:+ ": " +:+ sample_str detail.

Lemma wallet_session_data :
  active_sessions wallet_session !! "s1"
  = Some {| session_cart := 0%nat; voice_mode := false |}.
Proof. vm_compute. reflexivity. Defined.

Lemma wallet_session_client :
  voice_clients (manager wallet_session) !! "s1" = Some open_client.
Proof. vm_compute. reflexivity. Defined.

Lemma wallet_line_keyed : keyed_cart [wallet_line].
Proof. repeat constructor. exists wallet_id. reflexivity. Defined.

(** A product the catalog does not have: status 500, and a session with
    an empty cart where there was none. *)
Lemma add_to_cart_500_witness :
  fst (@add_to_cart sample_runtime catalog status_and_detail "s2"
         "01t5g000009" 1 one_session)
  = HTTPException 500 (PStr "404: Product not found") /\
  session_cart_list "s2"
    (snd (@add_to_cart sample_runtime catalog status_and_detail "s2"
            "01t5g000009" 1 one_session)) = [] /\
  is_Some (active_sessions
             (snd (@add_to_cart sample_runtime catalog status_and_detail
                     "s2" "01t5g000009" 1 one_session)) !! "s2").
Proof.
  destruct (@add_to_cart_reports_500 sample_runtime catalog
              status_and_detail "s2" "01t5g000009" 1 one_session)
    as (_ & Hsession & Hreport).
  destruct (Hreport 404 (PStr "Product not found") eq_refl)
    as [Hreply Hcart].
  split; [exact Hreply|]. split; [exact Hcart|exact Hsession].
Defined.

(** One more wallet over REST: the line goes from 2 to 3. *)
Lemma add_to_cart_in_place_witness :
  exists w',
    @add_to_cart sample_runtime catalog status_and_detail "s1" wallet_id 1
      wallet_session
    = (Response
         (PDict [("message", PStr "Cart updated");
                 ("cart",
                  PList [PDict [("product", wallet);
                                ("quantity", PInt 3)]])]), w') /\
    active_sessions w' = active_sessions wallet_session /\
    cart_list (objects w') 0
    = [PDict [("product", wallet); ("quantity", PInt 3)]].
Proof.
  exact (proj1 (@add_to_cart_updates_in_place sample_runtime catalog
                  status_and_detail "s1" wallet_id 1 wallet_session
                  {| session_cart := 0%nat; voice_mode := false |} wallet
                  wallet_session_data (le_n 1) eq_refl)
           [] wallet_line
           (PDict [("product", wallet); ("quantity", PInt 3)]) []
           eq_refl (List.Forall_nil _) eq_refl eq_refl).
Defined.

Lemma wallet_line_priced :
  priced_cart (cart_list (objects wallet_session) 0).
Proof.
  repeat constructor. exists 45%float, 2%float.
  eexists _, _, _. repeat split; reflexivity.
Defined.

Lemma get_cart_total_witness :
  get_cart sum_left_to_right "s1" wallet_session
  = Response (PDict [("cart", PList [wallet_line]);
                     ("total", PFloat 90%float)]).
Proof.
  destruct (proj2 (proj2 (get_cart_total_agrees sum_left_to_right "s1"
                            wallet_session)
                     (fun items => eq_refl))
              {| session_cart := 0%nat; voice_mode := false |}
              wallet_session_data ltac:(discriminate) wallet_line_priced)
    as (total & Hcalc & Hget).
  vm_compute in Hcalc. injection Hcalc as <-. exact Hget.
Defined.

Lemma remove_from_cart_witness :
  exists w' w'',
    @remove_from_cart sample_runtime "s1" wallet_id wallet_session
    = (Response (PDict [("message", PStr "Item removed from cart")]), w') /\
    session_cart_list "s1" w' = [] /\
    @remove_from_cart sample_runtime "s1" wallet_id w'
    = (Response (PDict [("message", PStr "Item removed from cart")]), w'') /\
    session_cart_list "s1" w'' = [].
Proof.
  destruct (proj2 (@remove_from_cart_filters sample_runtime "s1" wallet_id
                     wallet_session)
              {| session_cart := 0%nat; voice_mode := false |}
              wallet_session_data wallet_line_keyed)
    as (w' & w'' & Hrun & Hcart & _ & Hagain & Hsame).
  exists w', w''. split; [exact Hrun|].
  assert (Hempty : session_cart_list "s1" w' = [])
    by (rewrite Hcart; vm_compute; reflexivity).
  split; [exact Hempty|]. split; [exact Hagain|].
  rewrite Hsame. exact Hempty.
Defined.

Lemma update_cart_quantity_witness :
  (exists w',
      @update_cart_quantity sample_runtime "s1" wallet_id 5 wallet_session
      = (Response (PDict [("message", PStr "Cart updated")]), w') /\
      active_sessions w' = active_sessions wallet_session /\
      cart_list (objects w') 0
      = [PDict [("product", wallet); ("quantity", PInt 5)]]) /\
  snd (@update_cart_quantity sample_runtime "s1" wallet_id 0 wallet_session)
  = snd (@remove_from_cart sample_runtime "s1" wallet_id wallet_session).
Proof.
  destruct (@update_cart_quantity_cases sample_runtime "s1" wallet_id 5
              wallet_session) as (_ & _ & Hset & _).
  destruct (@update_cart_quantity_cases sample_runtime "s1" wallet_id 0
              wallet_session) as (_ & Hremove & _).
  split.
  - exact (Hset {| session_cart := 0%nat; voice_mode := false |} []
             [("product", wallet); ("quantity", PInt 2)] []
             eq_refl wallet_session_data (le_n 1) eq_refl
             (List.Forall_nil _) eq_refl).
  - apply Hremove. lia.
Defined.

(** The cart cleared over REST; the voice client still has the two
    wallets. *)
Lemma rest_rebinding_witness :
  exists d',
    let w' := snd (clear_cart "s1" wallet_session) in
    session_cart_list "s1" w' = [] /\
    voice_clients (manager w') !! "s1" = Some open_client /\
    cart_list (objects w') (cart (state open_client)) = [wallet_line] /\
    active_sessions w' !! "s1" = Some d' /\
    session_cart d' <> cart (state open_client).
Proof.
  exact (proj1 (@rest_rebinding_unlinks_voice_cart sample_runtime "s1"
                  wallet_id wallet_session open_client
                  {| session_cart := 0%nat; voice_mode := false |}
                  wallet_session_client wallet_session_data eq_refl
                  (le_n 1))).
Defined.

Lemma get_customer_orders_witness :
  @get_customer_orders sample_runtime unreachable_shop "ann@example.com"
  = Response (PDict [("orders", PList [])]).
Proof.
  refine (proj1 (proj2 (@get_customer_orders_never_fails sample_runtime
                          unreachable_shop "ann@example.com"))
            (OtherError "Salesforce unavailable") _ eq_refl).
  discriminate.
Defined.

(** *** The search tool *)

Definition no_model (user_query : string) : res pyval :=
  Raise (OtherError "model unavailable").



(** A Salesforce that is down. *)
Definition salesforce_down : Tools.Salesforce :=
  {| Tools.sf_query := fun _ => Raise (OtherError "Salesforce unavailable");
     Tools.upsert_account := fun _ _ _ =>
       Raise (OtherError "Salesforce unavailable");
     Tools.get_standard_pricebook :=
       Raise (OtherError "Salesforce unavailable");
     Tools.create_order := fun _ =>
       Raise (OtherError "Salesforce unavailable");
     Tools.create_order_item := fun _ =>
       Raise (OtherError "Salesforce unavailable");
     Tools.Order := fun _ _ _ _ _ =>
       Raise (OtherError "Salesforce unavailable");
     Tools.OrderItem := fun _ _ _ _ =>
       Raise (OtherError "Salesforce unavailable");
     Tools.today := PStr "2025-01-15" |}.





Lemma search_outage_witness :
  @handle_tool_call sample_runtime
    (@with_tools sample_runtime no_model no_model String.words
       salesforce_down shop)
    (PStr "search_products") (PDict [("query", PStr "shoes")]) new_client
  = (Ok (PDict [("success", PBool true); ("products", PList []);
                ("count", PInt 0)]), new_client).
Proof.
  refine (@search_outage_looks_empty sample_runtime no_model no_model
            String.words salesforce_down shop [("query", PStr "shoes")]
            new_client eq_refl _ _).
  - right. right. exists "shoes". split; [reflexivity|]. vm_compute. lia.
  - intros text. eexists. reflexivity.
Defined.

(** *** The order tool *)

Definition wallet_entry : pyval := PStr "01u5g000001".

(** An order desk that knows the price of the wallet only. *)
Definition order_desk : Tools.Salesforce :=
  {| Tools.sf_query := fun text =>
       if String.eqb text (@Tools.price_query sample_runtime wallet_entry)
       then Ok (PDict [("records",
                        PList [PDict [("UnitPrice", PFloat 45%float)]])])
       else if String.eqb text
                 (@Tools.order_number_query sample_runtime
                    (PStr "8015g000001"))
       then Ok (PDict [("records",
                        PList [PDict [("OrderNumber", PStr "00000103")]])])
       else Ok no_records;
     Tools.upsert_account := fun _ _ _ => Ok (PStr "0015g000001");
     Tools.get_standard_pricebook := Ok (PStr "01s5g000001");
     Tools.create_order := fun _ => Ok (PDict [("id", PStr "8015g000001")]);
     Tools.create_order_item := fun _ =>
       Ok (PDict [("id", PStr "8025g000001")]);
     Tools.Order := fun account_id pricebook_id date status source =>
       Ok (PDict [("AccountId", account_id); ("Pricebook2Id", pricebook_id);
                  ("EffectiveDate", date); ("Status", status);
                  ("CheckoutSource__c", source)]);
     Tools.OrderItem := fun order_id entry_id quantity unit_price =>
       Ok (PDict [("OrderId", order_id); ("PricebookEntryId", entry_id);
                  ("Quantity", quantity); ("UnitPrice", unit_price)]);
     Tools.today := PStr "2025-01-15" |}.

Definition ann_order : pyval :=
  PDict [("AccountId", PStr "0015g000001");
         ("Pricebook2Id", PStr "01s5g000001");
         ("EffectiveDate", PStr "2025-01-15"); ("Status", PStr "Draft");
         ("CheckoutSource__c", PStr "Voice")].

Definition wallet_item : pyval :=
  PDict [("pricebook_entry_id", wallet_entry); ("quantity", PInt 1)].

Definition unknown_item : pyval :=
  PDict [("pricebook_entry_id", PStr "01u5g000009"); ("quantity", PInt 1)].

Definition wallet_order_item : pyval :=
  PDict [("OrderId", PStr "8015g000001"); ("PricebookEntryId", wallet_entry);
         ("Quantity", PInt 1); ("UnitPrice", PFloat 45%float)].

Lemma ann_order_opened :
  order_opened order_desk ann (PStr "Voice") (PStr "ann@example.com")
    (PStr "Ann Lee") (PStr "") ann_order (PStr "8015g000001").
Proof.
  exists (PStr "0015g000001"), (PStr "01s5g000001"),
    (PDict [("id", PStr "8015g000001")]).
  repeat split.
Defined.

(** The second item has no price: the order fails, and the account, the
    order and the first item have gone to Salesforce. *)
Lemma place_order_not_atomic_witness :
  @Tools.tool_place_order sample_runtime order_desk ann
    (PList [wallet_item; unknown_item]) (PStr "Voice") []
  = (Ok (failure "Error placing order: list index out of range"),
     [Tools.UpsertAccount (PStr "ann@example.com") (PStr "Ann Lee")
        (PStr "");
      Tools.CreateOrder ann_order;
      Tools.CreateOrderItem wallet_order_item]).
Proof.
  refine (proj1 (proj2 (@tool_place_order_is_not_atomic sample_runtime
                          order_desk ann (PList [wallet_item; unknown_item])
                          (PStr "Voice"))
                   (PStr "ann@example.com") (PStr "Ann Lee") (PStr "")
                   ann_order (PStr "8015g000001")
                   [wallet_item; unknown_item] IndexError _
                   ann_order_opened eq_refl _)).
  vm_compute. reflexivity.
Defined.

Lemma place_order_counts_witness :
  @Tools.tool_place_order sample_runtime order_desk ann
    (PList [wallet_item]) (PStr "Voice") []
  = (Ok (Tools.order_success (PStr "00000103") (PStr "8015g000001")
           45%float 1),
     [Tools.UpsertAccount (PStr "ann@example.com") (PStr "Ann Lee")
        (PStr "");
      Tools.CreateOrder ann_order;
      Tools.CreateOrderItem wallet_order_item]).
Proof.
  refine (proj1 (proj1 (@tool_place_order_counts_created_items
                          sample_runtime order_desk ann
                          (PList [wallet_item]) (PStr "Voice")
                          (PStr "ann@example.com") (PStr "Ann Lee")
                          (PStr "") ann_order (PStr "8015g000001") _ _ _
                          (PStr "00000103") ann_order_opened eq_refl
                          eq_refl eq_refl eq_refl)
                   [wallet_item] [PDict [("id", PStr "8025g000001")]]
                   45%float _ eq_refl _)).
  vm_compute. reflexivity.
Defined.

(** *** The confirmation node *)

Definition two_decimals (total : pyval) : res string := Ok "0.00".

Lemma confirm_purchase_witness :
  @Agent.confirm_purchase_node sample_runtime two_decimals
    (PDict [("cart", PList [new_line wallet (PInt 1)]);
            ("conversation_history", PList [])])
  = Raise (AttributeError "product").
Proof.
  destruct (proj2 (@confirm_purchase_rejects_tool_lines sample_runtime
                     two_decimals)
              shop (PStr wallet_name) (PInt 1) wallet wallet_id
              eq_refl eq_refl)
    as (result & cart' & Hadd & _ & Hnode).
  vm_compute in Hadd. injection Hadd as <- <-.
  apply Hnode. reflexivity.
Defined.
